(** * parallel-clustering: the benchmark harness (test.py) and the plot
      renderer (graphs.py)

    A shallow embedding of the two Python scripts.  Text is modelled by
    [string], one [ascii] per code point, so the model covers text whose
    code points are below 256.  External binaries, wall-clock time, the
    float parser and the float formatter are parameters of the model. *)

From Stdlib Require Import ZArith String Ascii List Lia Bool DecimalString.
From Stdlib Require Floats Uint63 DecimalPos.
From stdpp Require Import base gmap strings list.

Local Open Scope string_scope.
Local Open Scope Z_scope.

(** ** The Python string operations the scripts use *)

Module Py.

(** [str.isspace] on one character (code points below 256). *)
Definition isspace (c : ascii) : bool :=
  let n := nat_of_ascii c in
  (((9 <=? n) && (n <=? 13)) || ((28 <=? n) && (n <=? 32))
   || (n =? 133) || (n =? 160))%nat.

Definition is_empty (s : string) : bool :=
  match s with EmptyString => true | String _ _ => false end.

Fixpoint lstrip (s : string) : string :=
  match s with
  | EmptyString => EmptyString
  | String c r => if isspace c then lstrip r else s
  end.

Fixpoint rstrip (s : string) : string :=
  match s with
  | EmptyString => EmptyString
  | String c r =>
      let r' := rstrip r in
      if isspace c && is_empty r' then EmptyString else String c r'
  end.

(** [s.strip()] *)
Definition strip (s : string) : string := rstrip (lstrip s).

(** [s.split()]: maximal runs of non-whitespace characters; [tok] is the
    token being read. *)
Fixpoint split_ws_from (tok : string) (s : string) : list string :=
  match s with
  | EmptyString => if is_empty tok then [] else [tok]
  | String c r =>
      if isspace c
      then (if is_empty tok then split_ws_from EmptyString r
            else tok :: split_ws_from EmptyString r)
      else split_ws_from (tok ++ String c EmptyString) r
  end.

Definition split_ws (s : string) : list string := split_ws_from EmptyString s.

(** [s.split(sep)] for a one-character separator (every call site of the
    scripts passes one character). *)
Fixpoint split (sep : ascii) (s : string) : list string :=
  match s with
  | EmptyString => [EmptyString]
  | String c r =>
      if Ascii.eqb c sep then EmptyString :: split sep r
      else match split sep r with
           | h :: t => String c h :: t
           | [] => [String c EmptyString]
           end
  end.

(** [sep.join(parts)] *)
Definition join (sep : string) (parts : list string) : string :=
  String.concat sep parts.

Definition newline : ascii := ascii_of_nat 10.
Definition nl : string := String newline EmptyString.

(** [f.readlines()] on the text of a file: every line keeps its newline. *)
Fixpoint readlines (s : string) : list string :=
  match s with
  | EmptyString => []
  | String c r =>
      if Ascii.eqb c newline then String c EmptyString :: readlines r
      else match readlines r with
           | h :: t => String c h :: t
           | [] => [String c EmptyString]
           end
  end.

Definition carriage_return : ascii := ascii_of_nat 13.

(** The newline translation of a read in text mode ([open(path)], with
    universal newlines): a carriage return followed by a newline, and a
    carriage return alone, are read as one newline. *)
Fixpoint universal_newlines (s : string) : string :=
  match s with
  | EmptyString => EmptyString
  | String c r =>
      if Ascii.eqb c carriage_return then
        match r with
        | String c' r' =>
            if Ascii.eqb c' newline
            then String newline (universal_newlines r')
            else String newline (universal_newlines r)
        | EmptyString => String newline EmptyString
        end
      else String c (universal_newlines r)
  end.

(** [s.startswith(p)] *)
Definition startswith (p s : string) : bool := String.prefix p s.

(** [sub in s] *)
Fixpoint contains (sub s : string) : bool :=
  String.prefix sub s ||
  match s with
  | EmptyString => false
  | String _ r => contains sub r
  end.

(** [s.removesuffix(suf)] *)
Fixpoint removesuffix (suf s : string) : string :=
  if String.eqb s suf then EmptyString
  else match s with
       | EmptyString => EmptyString
       | String c r => String c (removesuffix suf r)
       end.

(** [s.replace(old, new)]: left to right, occurrences do not overlap;
    [skip] counts the characters of a match still to be dropped. *)
Fixpoint replace_from (old new : string) (skip : nat) (s : string) : string :=
  match s with
  | EmptyString => EmptyString
  | String c r =>
      match skip with
      | S k => replace_from old new k r
      | O =>
          if String.prefix old s
          then new ++ replace_from old new (Nat.pred (String.length old)) r
          else String c (replace_from old new O r)
      end
  end.

Fixpoint intersperse (new : string) (s : string) : string :=
  match s with
  | EmptyString => new
  | String c r => new ++ String c (intersperse new r)
  end.

Definition replace (old new s : string) : string :=
  if is_empty old then intersperse new s else replace_from old new O s.

(** [s.lower()] on one character (code points below 256). *)
Definition lower_char (c : ascii) : ascii :=
  let n := nat_of_ascii c in
  if (((65 <=? n) && (n <=? 90))
      || ((192 <=? n) && (n <=? 222) && negb (n =? 215)))%nat
  then ascii_of_nat (n + 32) else c.

Fixpoint lower (s : string) : string :=
  match s with
  | EmptyString => EmptyString
  | String c r => String (lower_char c) (lower r)
  end.

(** [str(n)] and [f"{n}"] for an [int] of at most [MAX_STR_DIGITS]
    digits (4300): beyond, the interpreter raises [ValueError] where this
    function still prints the number. *)
Definition str (n : Z) : string := NilZero.string_of_int (Z.to_int n).

Definition digit_val (c : ascii) : option Z :=
  let n := nat_of_ascii c in
  if ((48 <=? n) && (n <=? 57))%nat then Some (Z.of_nat n - 48) else None.

(** The digits of [int(s)]: underscores only between two digits. *)
Fixpoint int_digits (acc : Z) (after_digit : bool) (s : string) : option Z :=
  match s with
  | EmptyString => if after_digit then Some acc else None
  | String c r =>
      if Ascii.eqb c "_"
      then (if after_digit then int_digits acc false r else None)
      else match digit_val c with
           | Some d => int_digits (10 * acc + d) true r
           | None => None
           end
  end.

(** The whitespace [int(s)] skips around the number: the ASCII
    whitespace of C and the whitespace above the ASCII range (code points
    below 256).  The separators U+001C to U+001F, which [str.isspace]
    accepts, are not skipped. *)
Definition int_space (c : ascii) : bool :=
  let n := nat_of_ascii c in
  (((9 <=? n) && (n <=? 13)) || (n =? 32) || (n =? 133) || (n =? 160))%nat.

Fixpoint int_lstrip (s : string) : string :=
  match s with
  | EmptyString => EmptyString
  | String c r => if int_space c then int_lstrip r else s
  end.

Fixpoint int_rstrip (s : string) : string :=
  match s with
  | EmptyString => EmptyString
  | String c r =>
      let r' := int_rstrip r in
      if int_space c && is_empty r' then EmptyString else String c r'
  end.

(** The sign and the digits of [int(s)], base 10. *)
Definition int_parse (s : string) : option Z :=
  let t := int_rstrip (int_lstrip s) in
  match t with
  | String "+" r => int_digits 0 false r
  | String "-" r => Z.opp <$> int_digits 0 false r
  | _ => int_digits 0 false t
  end.

(** [sys.get_int_max_str_digits()], which neither script changes. *)
Definition MAX_STR_DIGITS : nat := 4300.

(** The number of digits of a literal. *)
Fixpoint count_digits (s : string) : nat :=
  match s with
  | EmptyString => O
  | String c r =>
      match digit_val c with
      | Some _ => S (count_digits r)
      | None => count_digits r
      end
  end.

(** [int(s)], base 10; [None] is the [ValueError], which a literal of
    more than [MAX_STR_DIGITS] digits raises as well. *)
Definition int (s : string) : option Z :=
  if (MAX_STR_DIGITS <? count_digits s)%nat then None else int_parse s.

(** [s.endswith(suf)] *)
Fixpoint endswith (suf s : string) : bool :=
  String.eqb s suf ||
  match s with
  | EmptyString => false
  | String _ r => endswith suf r
  end.

(** [os.path.basename(p)] (POSIX): what follows the last slash. *)
Definition basename (p : string) : string := List.last (split "/" p) EmptyString.

(** [os.path.join(a, *ps)] (POSIX) *)
Definition join2 (path b : string) : string :=
  if startswith "/" b then b
  else if is_empty path || endswith "/" path then path ++ b
  else path ++ "/" ++ b.

Definition path_join (a : string) (ps : list string) : string :=
  fold_left join2 ps a.

(** [s[1:]] *)
Definition tail (s : string) : string :=
  match s with EmptyString => EmptyString | String _ r => r end.

(** [s[-k]] for [k >= 1]; [None] is the [IndexError]. *)
Definition index_from_end (k : nat) (s : string) : option ascii :=
  if (String.length s <? k)%nat then None
  else String.get (String.length s - k) s.

End Py.

(** ** Python floats: IEEE binary64, the kernel's primitive floats *)

Module PyFloat.
Import Floats.

(** [float(n)] for an [int] below 2^63 in absolute value (the conversion
    rounds to nearest even, as [of_uint63] does). *)
Definition float_of_int (n : Z) : float :=
  if n <? 0 then PrimFloat.opp (PrimFloat.of_uint63 (Uint63.of_Z (- n)))
  else PrimFloat.of_uint63 (Uint63.of_Z n).

(** The integer [int(x)] of a finite float: truncation towards zero. *)
Definition trunc (x : float) : option Z :=
  match Prim2SF x with
  | S754_zero _ => Some 0
  | S754_finite s m e =>
      let a := if 0 <=? e then Z.pos m * 2 ^ e else Z.pos m / 2 ^ (- e) in
      Some (if s then - a else a)
  | S754_infinity _ => None
  | S754_nan => None
  end.

Definition half : float := 0.5%float.

(** How the square of a finite float compares with an integer, computed
    exactly on the mantissa and the exponent. *)
Definition square_compare (s : float) (n : Z) : option comparison :=
  match Prim2SF s with
  | S754_zero _ => Some (0 ?= n)
  | S754_finite _ m e =>
      let m2 := Z.pos m * Z.pos m in
      Some (if 0 <=? e then m2 * 2 ^ (2 * e) ?= n
            else m2 ?= n * 2 ^ (- (2 * e)))
  | S754_infinity _ => None
  | S754_nan => None
  end.

(** [r] is a faithful rounding of the square root of the integer [n]:
    one of the two floats next to the real root, or the root itself when
    it is a float.  With [s] the correctly rounded root, [r] is [s], or
    the float below [s] when [s] lies above the root, or the float above
    [s] when [s] lies below it. *)
Definition faithful_sqrt (n : Z) (r : float) : Prop :=
  let s := PrimFloat.sqrt (float_of_int n) in
  r = s
  \/ (r = next_down s /\ square_compare s n = Some Gt)
  \/ (r = next_up s /\ square_compare s n = Some Lt).

End PyFloat.

(** ** Exceptions *)

Inductive value_error : Type :=
  | Unrecognized_argument (tok : string)
  | Unknown_solution
  | Not_a_float (s : string)
  | Not_an_int (s : string)
  | Float_nan
  | Unpack_mismatch
  | Zip_length_mismatch.

Inductive exn : Type :=
  | AssertionError
  | ValueError (why : value_error)
  | IndexError
  | OverflowError
  | FileNotFoundError (path : string)
  | UnicodeDecodeError
  | CsvError
  | KeyError (key : string).

(** The text of the two [ValueError]s the plot renderer raises itself. *)
Definition message (why : value_error) : option string :=
  match why with
  | Unrecognized_argument tok => Some ("Unrecognized argument: " ++ tok)
  | Unknown_solution => Some "Unknown solution"
  | _ => None
  end.

Inductive res (A : Type) : Type :=
  | Ok (a : A)
  | Raise (e : exn).
Arguments Ok {A} a.
Arguments Raise {A} e.

#[global] Instance res_ret : MRet res := fun A a => Ok a.
#[global] Instance res_bind : MBind res := fun A B f m =>
  match m with
  | Ok a => f a
  | Raise e => Raise e
  end.

Definition of_option {A : Type} (e : exn) (o : option A) : res A :=
  match o with
  | Some a => Ok a
  | None => Raise e
  end.

Definition is_ok {A : Type} (r : res A) : bool :=
  match r with Ok _ => true | Raise _ => false end.

(** An action on a state [S]: it always leaves a state, also when it
    raises. *)
Definition St (S A : Type) : Type := S -> S * res A.

#[global] Instance St_ret {S : Type} : MRet (St S) := fun A a s => (s, Ok a).
#[global] Instance St_bind {S : Type} : MBind (St S) := fun A B f m s =>
  match m s with
  | (s', Ok a) => f a s'
  | (s', Raise e) => (s', Raise e)
  end.

Definition raise {S A : Type} (e : exn) : St S A := fun s => (s, Raise e).

(** A computation that does not touch the state. *)
Definition lift {S A : Type} (r : res A) : St S A := fun s => (s, r).

(** [for x in xs: body(x)] *)
Fixpoint for_each {S A : Type} (xs : list A) (body : A -> St S unit)
    : St S unit :=
  match xs with
  | [] => mret tt
  | x :: rest => body x ;; for_each rest body
  end.

(** [[f(x) for x in xs]] where [f] may raise. *)
Fixpoint map_res {A B : Type} (f : A -> res B) (xs : list A) : res (list B) :=
  match xs with
  | [] => Ok []
  | x :: rest => y ← f x; ys ← map_res f rest; Ok (y :: ys)
  end.

(** ** test.py: the benchmark harness *)

Module Harness.
Import Py.

(** [args.target] *)
Inductive Target : Type := fl | cl.

(** A value handed to [csv.writer.writerow]. *)
Inductive Cell : Type :=
  | CStr (s : string)
  | CInt (n : Z)
  | CFloat (x : PrimFloat.float).

(** One [Popen]: the command line, what the child reads on standard
    input, and the environment the child runs in. *)
Record Invocation : Type := {
  argv : list string;
  stdin : string;
  env : gmap string string
}.

(** What came of one [Popen]: the exit code, the bytes written to
    standard output, and [time.time()] before and after the child. *)
Record Outcome : Type := {
  returncode : Z;
  stdout : string;
  started : PrimFloat.float;
  finished : PrimFloat.float
}.

(** The state the harness works on: the files (path to content), its own
    [os.environ], the children started so far and the rows appended to
    the results file of this run.  The content of a file is what a child
    reads from it on standard input and what a child wrote to it on
    standard output; the harness reads the output of a solver through
    [read_text], which decodes it and translates its newlines.  The two
    dataset sources, which only the transforms read, are held as the
    text these reads return.  Directories and console output are not
    modelled. *)
Record World : Type := {
  fs : gmap string string;
  environ : gmap string string;
  calls : list Invocation;
  results : list (list Cell)
}.

(** A harness action. *)
Abbreviation M := (St World).

(** [assert b] *)
Definition py_assert (b : bool) : M unit :=
  if b then mret tt else raise AssertionError.

(** Reading the whole of [open(path)]. *)
Definition read_file (path : string) : M string := fun w =>
  match fs w !! path with
  | Some content => (w, Ok content)
  | None => (w, Raise (FileNotFoundError path))
  end.

(** The world after [path] has been opened for writing, [content]
    written to it and the file closed. *)
Definition put_file (path content : string) (w : World) : World :=
  {| fs := <[path := content]> (fs w); environ := environ w;
     calls := calls w; results := results w |}.

(** The world after one more child has run. *)
Definition add_call (inv : Invocation) (w : World) : World :=
  {| fs := fs w; environ := environ w; calls := calls w ++ [inv];
     results := results w |}.

(** The world after one more row went to the results file. *)
Definition append_row (row : list Cell) (w : World) : World :=
  {| fs := fs w; environ := environ w; calls := calls w;
     results := results w ++ [row] |}.

Definition write_file (path content : string) : M unit := fun w =>
  (put_file path content w, Ok tt).

(** [results.writerow(row)] *)
Definition writerow (row : list Cell) : M unit := fun w =>
  (append_row row w, Ok tt).

(** [for x, y in zip(xs, ys, strict=True): body(x, y)] *)
Fixpoint for_zip_strict {A B : Type} (xs : list A) (ys : list B)
    (body : A -> B -> M unit) : M unit :=
  match xs, ys with
  | [], [] => mret tt
  | x :: xs', y :: ys' => body x y ;; for_zip_strict xs' ys' body
  | _, _ => raise (ValueError Zip_length_mismatch)
  end.

Section Run.

(** [args.z] *)
Variable Zexp : Z.

(** The external binaries: what a child does, given the children run
    before it. *)
Variable exec : list Invocation -> Invocation -> Outcome.
(** [float(s)]; [None] is its [ValueError]. *)
Variable float_of_str : string -> option PrimFloat.float.
(** [f"{x:.4f}"] *)
Variable format_4f : PrimFloat.float -> string.
(** [bytes.decode()]; [None] is its [UnicodeDecodeError]. *)
Variable decode : string -> option string.
(** The decoding of a file read in text mode, in the encoding of the
    locale; [None] is its [UnicodeDecodeError]. *)
Variable locale_decode : string -> option string.
(** The rows [csv.reader] yields for a text (comma delimiter, double
    quote as quote character); [None] is [csv.Error]. *)
Variable csv_reader : string -> option (list (list string)).
(** The C library's [pow], which [x ** y] on floats calls. *)
Variable libm_pow : PrimFloat.float -> PrimFloat.float -> PrimFloat.float.

Definition BUILD_DIR : string := "build".
Definition DATA_DIR : string := "data".
Definition GEN_DATA_DIR : string := "gen".
Definition GENERATOR : string := "data_gen_z" ++ str Zexp.

Definition FACILITY_JUDGE : string := "facility_set_cost_z" ++ str Zexp.
Definition FACILITY_SOLUTIONS : list string :=
  ["mettu_plaxton_z" ++ str Zexp] ++ repeat ("facility_set_z" ++ str Zexp) 2.
Definition FACILITY_SOLUTION_ARGS : list (list string) :=
  [ [];
    ["grid_hashing"; "60042651f648e052"];
    ["face_hashing"; "60042651f648e052"] ].
Definition FACILITY_COST : Z := 1.

Definition CLUSTERING_JUDGE : string := "clustering_cost_z" ++ str Zexp.
Definition CLUSTERING_SOLUTIONS : list string :=
  repeat ("scikit_z" ++ str Zexp) (if Zexp =? 1 then 2 else 1)
  ++ repeat ("clustering_z" ++ str Zexp) 2.
Definition CLUSTERING_SOLUTION_ARGS : list (list string) :=
  (if Zexp =? 1 then [["alternate"]; ["pam"]] else [[""]])
  ++ [ ["grid_hashing"; "60042651f648e052"];
       ["face_hashing"; "60042651f648e052"] ].

Definition SIZES : list Z :=
  [100; 500; 1000; 5000; 10000; 50000; 100000; 500000; 1000000].
Definition DIMENSIONS : list Z := [2; 5; 10].

(** [Popen(argv, stdin=..., env=env_arg)] run to its end.  Without [env]
    the child inherits [os.environ]; with it, the child gets that mapping
    and nothing else.  The child is taken to start: the errors of a
    binary that is missing or may not be run, and of a redirect file
    that cannot be opened, are left out, so what is proved of a run that
    returns holds of the scripts, and what is proved of the errors of a
    run is about the runs whose children start. *)
Definition Popen (argv : list string) (stdin : string)
    (env_arg : option (gmap string string)) : M Outcome := fun w =>
  let inv := {| argv := argv; stdin := stdin;
                env := default (environ w) env_arg |} in
  (add_call inv w, Ok (exec (calls w) inv)).

Definition gen (size dimension k_or_cost : Z) : M string :=
  let filepath :=
    path_join DATA_DIR
      [GEN_DATA_DIR; "gen_n" ++ str size ++ "_d" ++ str dimension ++ ".in"] in
  process ← Popen [path_join BUILD_DIR [GENERATOR]]
    (str size ++ " " ++ str dimension ++ " " ++ str k_or_cost ++ nl) None;
  write_file filepath (stdout process) ;;
  py_assert (returncode process =? 0) ;;
  mret filepath.

Definition gen_iris : M string :=
  let IRIS_DIR := "iris" in
  text ← read_file (path_join IRIS_DIR ["iris.data"]);
  let plants := split newline (strip text) in
  let plants := map (split ",") plants in
  let inp := path_join DATA_DIR [IRIS_DIR; "iris.in"] in
  write_file inp
    (str (Z.of_nat (length plants)) ++ " "
     ++ str (Z.of_nat (length (hd [] plants)) - 1) ++ " 3" ++ nl
     ++ String.concat ""
          (map (fun plant => join " " (removelast plant) ++ nl) plants)) ;;
  mret inp.

Definition gen_imdb : M string :=
  let IMDB_DIR := "maas_imdb" in
  text ← read_file (path_join IMDB_DIR ["maas_imdb.csv"]);
  words ← lift (of_option CsvError (csv_reader text));
  let words := List.tl words in
  let inp := path_join DATA_DIR [IMDB_DIR; "maas_imdb.in"] in
  match words with
  | [] => write_file inp "" ;; raise IndexError
  | first :: _ =>
      write_file inp
        (str (Z.of_nat (length words)) ++ " "
         ++ str (Z.of_nat (length first) - 2) ++ " 200" ++ nl
         ++ String.concat ""
              (map (fun plant => join " " (drop 2 plant) ++ nl) words)) ;;
      mret inp
  end.

(** The file [solve] sends the solver's standard output to. *)
Definition output_path (input_path solution : string) (args : list string)
    : string :=
  removesuffix ".in" input_path
  ++ "." ++ solution ++ "." ++ join "." args ++ ".out".

Definition solve (input_path solution : string) (args : list string)
    : M (string * PrimFloat.float) :=
  let output_path := output_path input_path solution args in
  input ← read_file input_path;
  process ← Popen (path_join BUILD_DIR [solution] :: args) input None;
  write_file output_path (stdout process) ;;
  let total_time := PrimFloat.sub (finished process) (started process) in
  py_assert (returncode process =? 0) ;;
  mret (output_path, total_time).

Definition judge (judge : string) (input_path output_path : string)
    : M PrimFloat.float :=
  input ← read_file input_path;
  process ← Popen [path_join BUILD_DIR [judge]] input
    (Some {[ "SOLUTION" := output_path ]});
  match decode (stdout process) with
  | None => raise UnicodeDecodeError
  | Some text =>
      match float_of_str (strip text) with
      | None => raise (ValueError (Not_a_float (strip text)))
      | Some x => mret x
      end
  end.

(** [f.readlines()] on [open(path)]: the content decoded in the
    encoding of the locale, its newlines translated. *)
Definition read_text (path : string) : M string :=
  content ← read_file path;
  match locale_decode content with
  | None => raise UnicodeDecodeError
  | Some text => mret (universal_newlines text)
  end.

(** [len(list(filter(lambda r: r.strip(), lines)))] *)
Definition count_centers (lines : list string) : nat :=
  length (List.filter (fun r => negb (is_empty (strip r))) lines).

(** The body of the loop of [test_facility_location]. *)
Definition facility_location_run (inp solution : string) (args : list string)
    : M unit :=
  '(out, sol_time) ← solve inp solution args;
  score ← judge FACILITY_JUDGE inp out;
  let result := format_4f score in
  writerow [CStr (basename inp); CStr solution; CStr (join " " args);
            CStr result; CFloat sol_time].

Definition test_facility_location (inp : string) : M unit :=
  for_zip_strict FACILITY_SOLUTIONS FACILITY_SOLUTION_ARGS
    (facility_location_run inp).

(** The body of the loop of [test_clustering]. *)
Definition clustering_run (inp solution : string) (args : list string)
    : M unit :=
  '(out, sol_time) ← solve inp solution args;
  text ← read_text out;
  let centers := count_centers (readlines text) in
  score ← judge CLUSTERING_JUDGE inp out;
  let result := format_4f score in
  writerow [CStr (basename inp); CStr solution; CStr (join " " args);
            CInt (Z.of_nat centers); CStr result; CFloat sol_time].

Definition test_clustering (inp : string) : M unit :=
  for_zip_strict CLUSTERING_SOLUTIONS CLUSTERING_SOLUTION_ARGS
    (clustering_run inp).

Definition test (target : Target) (inp : string) : M unit :=
  match target with
  | fl => test_facility_location inp
  | cl => test_clustering inp
  end.

(** [int(size ** 0.5)] *)
Definition int_pow_half (size : Z) : M Z :=
  let x := libm_pow (PyFloat.float_of_int size) PyFloat.half in
  match PyFloat.trunc x with
  | Some k => mret k
  | None =>
      if PrimFloat.is_nan x then raise (ValueError Float_nan)
      else raise OverflowError
  end.

(** The [if]/[elif] of the sweep that generates the instance. *)
Definition sweep_input (target : Target) (size dimension : Z) : M string :=
  match target with
  | fl => gen size dimension FACILITY_COST
  | cl => k ← int_pow_half size; gen size dimension k
  end.

(** The body of [if __name__ == "__main__"], with the results file open
    in append mode around it. *)
Definition main (target : Target) : M unit :=
  match target with
  | cl => inp ← gen_iris; test target inp
  | fl => mret tt
  end ;;
  for_each SIZES (fun size =>
    for_each DIMENSIONS (fun dimension =>
      inp ← sweep_input target size dimension;
      test target inp)) ;;
  match target with
  | cl => inp ← gen_imdb; test target inp
  | fl => mret tt
  end.

(** The child [gen] starts. *)
Definition generator_call (w : World) (size dimension k_or_cost : Z)
    : Invocation :=
  {| argv := [path_join BUILD_DIR [GENERATOR]];
     stdin := str size ++ " " ++ str dimension ++ " " ++ str k_or_cost ++ nl;
     env := environ w |}.

End Run.

(** The file [gen] writes the instance to. *)
Definition gen_path (size dimension : Z) : string :=
  path_join DATA_DIR
    [GEN_DATA_DIR; "gen_n" ++ str size ++ "_d" ++ str dimension ++ ".in"].

(** The child [solve] starts. *)
Definition solver_call (w : World) (input solution : string)
    (args : list string) : Invocation :=
  {| argv := path_join BUILD_DIR [solution] :: args; stdin := input;
     env := environ w |}.

(** The child [judge] starts. *)
Definition judge_call (input judge output_path : string) : Invocation :=
  {| argv := [path_join BUILD_DIR [judge]]; stdin := input;
     env := {[ "SOLUTION" := output_path ]} |}.

End Harness.

(** ** graphs.py: the plot renderer *)

Module Graphs.
Import Py.

(** A [defaultdict(list)]: keys in insertion order, each with its list. *)
Fixpoint dict_append {K V : Type} `{EqDecision K} (k : K) (v : V)
    (d : list (K * list V)) : list (K * list V) :=
  match d with
  | [] => [(k, [v])]
  | (k', vs) :: rest =>
      if decide (k = k') then (k', (vs ++ [v])%list) :: rest
      else (k', vs) :: dict_append k v rest
  end.

(** The list under a key, empty when the key is absent. *)
Fixpoint dict_get {K V : Type} `{EqDecision K} (k : K)
    (d : list (K * list V)) : list V :=
  match d with
  | [] => []
  | (k', vs) :: rest => if decide (k = k') then vs else dict_get k rest
  end.

(** A tuple [(x, solution, *params)] of a bucket. *)
Record Entry : Type := {
  x : Z;
  label : string;
  params : list PrimFloat.float
}.

(** One [ax.plot] call. *)
Record Series : Type := {
  s_label : string;
  s_fmt : string;
  s_color : string;
  s_xs : list Z;
  s_ys : list PrimFloat.float
}.

(** One saved figure. *)
Record Figure : Type := {
  f_path : string;
  f_title : string;
  f_xlabel : string;
  f_ylabel : string;
  f_series : list Series
}.

Definition IMG_DIR : string := "img".
Definition FILES : list string :=
  ["results_fl_z1.csv"; "results_cl_z1.csv"; "results_cl_z2.csv"].

Definition FL_VALUES : list string := ["Cost"; "Time [s]"].
Definition CL_VALUES : list string := ["Clusters"] ++ FL_VALUES.

Definition SOLUTION_COLORS : gmap string string :=
  list_to_map
    [ ("Mettu-Plaxton", "red");
      ("K-medoids alternate (scikit-learn-extra)", "red");
      ("K-medoids PAM (scikit-learn-extra)", "orange");
      ("K-means++ (scikit-learn)", "red");
      ("Grid hashing", "blue");
      ("Face hashing", "green") ].

Definition SOLUTION_MARKER : gmap string string :=
  list_to_map
    [ ("Mettu-Plaxton", "o");
      ("K-medoids alternate (scikit-learn-extra)", "o");
      ("K-medoids PAM (scikit-learn-extra)", "d");
      ("K-means++ (scikit-learn)", "o");
      ("Grid hashing", "^");
      ("Face hashing", "v") ].

Definition PLOT_DIMENSIONS : list Z := [2; 5; 10].
Definition PLOT_SIZES : list Z := [10000].

(** The table [REPLACE] of [plot_instance]. *)
Definition REPLACE : list (ascii * string) :=
  [ (" "%char, "_"); ("("%char, ""); (")"%char, "");
    (","%char, ""); ("="%char, "") ].

Fixpoint REPLACE_get (table : list (ascii * string)) (l : ascii)
    : option string :=
  match table with
  | [] => None
  | (k, v) :: rest => if Ascii.eqb l k then Some v else REPLACE_get rest l
  end.

(** ["".join(REPLACE[l] if l in REPLACE else l for l in s)] *)
Fixpoint translate (s : string) : string :=
  match s with
  | EmptyString => EmptyString
  | String l r =>
      match REPLACE_get REPLACE l with
      | Some v => v ++ translate r
      | None => String l (translate r)
      end
  end.

(** The name of the file a chart is saved under. *)
Definition figname (title val_name : string) : string :=
  translate (replace " [s]" "" (lower (replace "(" (val_name ++ " ") title)))
  ++ ".svg".

Section Render.

(** [float(s)]; [None] is its [ValueError]. *)
Variable float_of_str : string -> option PrimFloat.float.
(** What matplotlib raises on one [ax.plot] call, if anything (an
    [OverflowError] on an integer too large for a float, for one). *)
Variable ax_plot : Series -> option exn.
(** What matplotlib raises when a figure is finished, if anything: on
    the title, the labels, the legend, the scales or [plt.savefig] (a
    [ValueError] on data that is not finite, an [OSError] on a file that
    cannot be written).  [plt.subplots] and [plt.close] are taken to
    return. *)
Variable plt_savefig : Figure -> option exn.

(** The display name of a row's solver: the [if]/[elif] chain of
    [plot_file]; [args] is the split argument field. *)
Definition classify (solution : string) (args : list string) : res string :=
  if (length args =? 2)%nat then
    match args with
    | a0 :: _ =>
        if String.eqb a0 "grid_hashing" then Ok "Grid hashing"
        else if String.eqb a0 "face_hashing" then Ok "Face hashing"
        else Raise (ValueError (Unrecognized_argument a0))
    | [] => Raise IndexError
    end
  else if startswith "mettu_plaxton" solution then Ok "Mettu-Plaxton"
  else if startswith "scikit" solution then
    if String.eqb solution "scikit_z1" then
      match args with
      | a0 :: _ =>
          Ok ("K-medoids "
              ++ (if String.eqb a0 "alternate" then "alternate" else "PAM")
              ++ " (scikit-learn-extra)")
      | [] => Raise IndexError
      end
    else Ok "K-means++ (scikit-learn)"
  else Raise (ValueError Unknown_solution).

(** [tuple(map(float, params))] *)
Definition floats (params : list string) : res (list PrimFloat.float) :=
  map_res (fun p => of_option (ValueError (Not_a_float p)) (float_of_str p))
    params.

Definition Buckets : Type := list (Z * list Entry).

(** The body of the loop over the rows of the file: [st] holds
    [by_dimension] and [by_size]. *)
Definition add_row (st : Buckets * Buckets) (line : list string)
    : res (Buckets * Buckets) :=
  let '(by_dimension, by_size) := st in
  match line with
  | inp :: solution :: args :: params =>
      let args := split_ws args in
      solution ← classify solution args;
      if startswith "gen" inp then
        match split "_" (replace "." "_" inp) with
        | [_; n; d; _] =>
            n ← of_option (ValueError (Not_an_int (tail n))) (int (tail n));
            d ← of_option (ValueError (Not_an_int (tail d))) (int (tail d));
            ps ← floats params;
            Ok (dict_append d {| x := n; label := solution; params := ps |}
                  by_dimension,
                dict_append n {| x := d; label := solution; params := ps |}
                  by_size)
        | _ => Raise (ValueError Unpack_mismatch)
        end
      else Ok st
  | _ => Raise (ValueError Unpack_mismatch)
  end.

(** The size and the dimension the loop body reads from an instance
    name: [_, n, d, _ = inp.replace(".", "_").split("_")], then [int] of
    [n] and of [d] without their first character. *)
Definition name_fields (inp : string) : res (Z * Z) :=
  match split "_" (replace "." "_" inp) with
  | [_; n; d; _] =>
      n ← of_option (ValueError (Not_an_int (tail n))) (int (tail n));
      d ← of_option (ValueError (Not_an_int (tail d))) (int (tail d));
      Ok (n, d)
  | _ => Raise (ValueError Unpack_mismatch)
  end.

(** The loop over the rows. *)
Fixpoint add_rows (st : Buckets * Buckets) (rows : list (list string))
    : res (Buckets * Buckets) :=
  match rows with
  | [] => Ok st
  | line :: rest => st' ← add_row st line; add_rows st' rest
  end.

(** [solutions[val[1]].append(val)] over the values. *)
Definition by_solution (values : list Entry) : list (string * list Entry) :=
  fold_left (fun solutions val => dict_append (label val) val solutions)
    values [].

(** One [ax.plot]: the series of a solver for the metric [val_number];
    [v[val_number+2]] is the parameter number [val_number].  The
    arguments of the call are worked out first, then the call is made. *)
Definition plot_series (val_number : nat) (sol : string * list Entry)
    : res Series :=
  let '(sol_name, sol_val) := sol in
  let xs := map x sol_val in
  ys ← map_res (fun v => of_option IndexError (params v !! val_number)) sol_val;
  marker ← of_option (KeyError sol_name) (SOLUTION_MARKER !! sol_name);
  color ← of_option (KeyError sol_name) (SOLUTION_COLORS !! sol_name);
  let series := {| s_label := sol_name; s_fmt := marker ++ "-";
                   s_color := color; s_xs := xs; s_ys := ys |} in
  match ax_plot series with
  | Some e => Raise e
  | None => Ok series
  end.

(** [plt.savefig]: the state is the list of the figures saved so far; a
    figure matplotlib raises on is not among them. *)
Definition savefig (f : Figure) : St (list Figure) unit := fun saved =>
  match plt_savefig f with
  | Some e => (saved, Raise e)
  | None => ((saved ++ [f])%list, Ok tt)
  end.

(** [enumerate(names)] from [i]. *)
Fixpoint enumerate {A : Type} (i : nat) (names : list A) : list (nat * A) :=
  match names with
  | [] => []
  | a :: rest => (i, a) :: enumerate (S i) rest
  end.

Definition plot_instance (title : string) (values : list Entry)
    : St (list Figure) unit :=
  let solutions := by_solution values in
  match values with
  | [] => raise IndexError
  | first :: _ =>
      for_each
        (enumerate 0
           (if (2 + length (params first) =? 4)%nat then FL_VALUES
            else CL_VALUES))
        (fun '(val_number, val_name) =>
           series ← lift (map_res (plot_series val_number) (rev solutions));
           savefig
             {| f_path := path_join IMG_DIR [figname title val_name];
                f_title := title;
                f_xlabel := if contains "d=" title then "Input size (n)"
                            else "Dimension (d)";
                f_ylabel := val_name;
                f_series := series |})
  end.

(** [plot_name] of [plot_file], the template of the chart titles. *)
Definition plot_name (filename : string) : res string :=
  let plot_name :=
    if contains "fl" filename then "Facility Location" else "Clustering" in
  z ← of_option IndexError (index_from_end 5 filename);
  Ok (plot_name ++ " ($$, z=" ++ String z EmptyString ++ ")").

(** [plot_file(filename)], on the rows [csv.reader] yields for the file. *)
Definition plot_file (filename : string) (rows : list (list string))
    : St (list Figure) unit :=
  plot_name ← lift (plot_name filename);
  '(by_dimension, by_size) ← lift (add_rows ([], []) rows);
  for_each by_dimension (fun '(d, d_values) =>
    if bool_decide (d ∈ PLOT_DIMENSIONS)
    then plot_instance (replace "$$" ("d=" ++ str d) plot_name) d_values
    else mret tt) ;;
  for_each by_size (fun '(n, n_values) =>
    if bool_decide (n ∈ PLOT_SIZES)
    then plot_instance (replace "$$" ("n=" ++ str n) plot_name) n_values
    else mret tt).

End Render.
End Graphs.

(** ** Stand-ins for the library functions, to run the model on examples *)

Module Demo.
Import Py.

(** Reads an unsigned decimal literal with an optional fraction part. *)
Definition float_of_str (s : string) : option PrimFloat.float :=
  match split "." s with
  | [a] => PyFloat.float_of_int <$> int_digits 0 false a
  | [a; b] =>
      ia ← int_digits 0 false a;
      ib ← int_digits 0 false b;
      Some (PrimFloat.add (PyFloat.float_of_int ia)
              (PrimFloat.div (PyFloat.float_of_int ib)
                 (PyFloat.float_of_int (10 ^ Z.of_nat (String.length b)))))
  | _ => None
  end.

(** Four decimals of a non-negative float, the last one rounded half up. *)
Definition format_4f (v : PrimFloat.float) : string :=
  match PyFloat.trunc
          (PrimFloat.add (PrimFloat.mul v (PyFloat.float_of_int 10000))
             PyFloat.half) with
  | Some k =>
      let frac := str (k mod 10000) in
      str (k / 10000) ++ "."
      ++ String.concat "" (repeat "0" (4 - String.length frac)) ++ frac
  | None => "nan"
  end.

Definition decode (bytes : string) : option string := Some bytes.

(** A locale whose encoding decodes every byte (Latin-1). *)
Definition locale_decode (bytes : string) : option string := Some bytes.

(** A locale whose encoding is ASCII. *)
Definition ascii_decode (bytes : string) : option string :=
  if forallb (fun c => (nat_of_ascii c <? 128)%nat) (list_ascii_of_string bytes)
  then Some bytes else None.

(** [csv.reader] on texts without quote characters: one row per line,
    the fields between the commas, and no field on an empty line. *)
Definition csv_row (line : string) : list string :=
  let line := removesuffix nl line in
  if is_empty line then [] else split "," line.

Definition csv_reader (text : string) : option (list (list string)) :=
  Some (map csv_row (readlines text)).

(** A matplotlib that raises [OverflowError] on an abscissa of 2^1024 or
    more, beyond the range of the floats, and nothing else. *)
Definition ax_plot (series : Graphs.Series) : option exn :=
  if forallb (fun x => Z.abs x <? 2 ^ 1024) (Graphs.s_xs series)
  then None else Some OverflowError.

(** A matplotlib that saves every figure. *)
Definition plt_savefig (f : Graphs.Figure) : option exn := None.

(** A C library whose [pow] returns the correctly rounded square root
    for the exponent one half. *)
Definition libm_pow (a b : PrimFloat.float) : PrimFloat.float :=
  PrimFloat.sqrt a.

(** External binaries that all succeed: every child prints one line
    holding [1.5] and takes two seconds. *)
Definition exec_ok (history : list Harness.Invocation)
    (inv : Harness.Invocation) : Harness.Outcome :=
  {| Harness.returncode := 0;
     Harness.stdout := "1.5" ++ nl;
     Harness.started := PyFloat.float_of_int 1;
     Harness.finished := PyFloat.float_of_int 3 |}.

(** The same binaries, except that every child exits with status 1. *)
Definition exec_exit1 (history : list Harness.Invocation)
    (inv : Harness.Invocation) : Harness.Outcome :=
  {| Harness.returncode := 1;
     Harness.stdout := "1.5" ++ nl;
     Harness.started := PyFloat.float_of_int 1;
     Harness.finished := PyFloat.float_of_int 3 |}.

(** Binaries that succeed, the solvers printing [output]; the judges,
    which are the children with SOLUTION in their environment, print
    their score. *)
Definition exec_prints (output : string)
    (history : list Harness.Invocation) (inv : Harness.Invocation)
    : Harness.Outcome :=
  if bool_decide (is_Some (Harness.env inv !! "SOLUTION"))
  then exec_ok history inv
  else {| Harness.returncode := 0;
          Harness.stdout := output;
          Harness.started := PyFloat.float_of_int 1;
          Harness.finished := PyFloat.float_of_int 3 |}.

(** Only the judge binary exits with status 1; it still prints a score. *)
Definition exec_judge_exit1 (judge_path : string)
    (history : list Harness.Invocation) (inv : Harness.Invocation)
    : Harness.Outcome :=
  if bool_decide (Harness.argv inv = [judge_path])
  then exec_exit1 history inv else exec_ok history inv.

(** A world holding one instance file and the two datasets. *)
Definition world0 : Harness.World :=
  {| Harness.fs :=
       {[ "data/gen/gen_n100_d2.in" := "2 2 1" ++ nl;
          "iris/iris.data" :=
            "5.1,3.5,1.4,0.2,Iris-setosa" ++ nl
            ++ "7.0,3.2,4.7,1.4,Iris-versicolor" ++ nl ++ nl;
          "maas_imdb/maas_imdb.csv" :=
            "id,label,good,bad" ++ nl ++ "0,1,3,0" ++ nl ++ "1,0,0,2" ++ nl ]};
     Harness.environ := {[ "PATH" := "/usr/bin" ]};
     Harness.calls := [];
     Harness.results := [] |}.


End Demo.

(** ** The words of the specification, to compare the code with *)

Module Spec.
Import Py.

(** A blank line: nothing but whitespace. *)
Fixpoint blank (line : string) : bool :=
  match line with
  | EmptyString => true
  | String c r => isspace c && blank r
  end.

(** The number of non-blank lines of a text. *)
Definition nonblank_lines (text : string) : nat :=
  length (List.filter (fun line => negb (blank line)) (split newline text)).

(** The names the generator gives its instances ([gen] of test.py, the
    file name without its directories). *)
Definition synthetic_name (inp : string) : Prop :=
  exists size dimension : Z,
    inp = "gen_n" ++ str size ++ "_d" ++ str dimension ++ ".in".

(** The parameter the sweep gives the generator for a size: the fixed
    cost 1 for facility location, the floor of the square root of the
    size for clustering. *)
Definition sweep_parameter_of (target : Harness.Target) (size : Z) : Z :=
  match target with
  | Harness.fl => 1
  | Harness.cl => Z.sqrt size
  end.

(** A child that runs the generator was given a size and a dimension of
    the sweep and the parameter of the target for that size. *)
Definition generator_fed (Zexp : Z) (target : Harness.Target)
    (call : Harness.Invocation) : Prop :=
  Harness.argv call
  = [path_join Harness.BUILD_DIR [Harness.GENERATOR Zexp]] ->
  exists size dimension,
    In size Harness.SIZES /\ In dimension Harness.DIMENSIONS /\
    Harness.stdin call
    = str size ++ " " ++ str dimension ++ " "
      ++ str (sweep_parameter_of target size) ++ nl.

(** The lines the sweep feeds the generator on standard input: one for
    each size and each dimension, in the order of the two loops, each
    with the parameter of the target for the size. *)
Definition sweep_lines (target : Harness.Target) : list string :=
  flat_map
    (fun size =>
       flat_map
         (fun dimension =>
            [str size ++ " " ++ str dimension ++ " "
             ++ str (sweep_parameter_of target size) ++ nl])
         Harness.DIMENSIONS)
    Harness.SIZES.

(** A child that runs a judge has SOLUTION and nothing else in its
    environment. *)
Definition judge_isolated (Zexp : Z) (call : Harness.Invocation) : Prop :=
  Harness.argv call
  = [path_join Harness.BUILD_DIR [Harness.FACILITY_JUDGE Zexp]]
  \/ Harness.argv call
     = [path_join Harness.BUILD_DIR [Harness.CLUSTERING_JUDGE Zexp]] ->
  exists out, Harness.env call = {[ "SOLUTION" := out ]}.

(** The chart titles [plot_file] can give [plot_instance] for the files
    of [FILES]: one per allowed dimension and one per allowed size. *)
Definition configured_titles : list string :=
  flat_map
    (fun filename =>
       match Graphs.plot_name filename with
       | Ok name =>
           (map (fun d => replace "$$" ("d=" ++ str d) name)
              Graphs.PLOT_DIMENSIONS
            ++ map (fun n => replace "$$" ("n=" ++ str n) name)
                 Graphs.PLOT_SIZES)%list
       | Raise _ => []
       end)
    Graphs.FILES.

(** Every configured title with every metric name. *)
Definition configured_charts : list (string * string) :=
  flat_map
    (fun title => map (fun val_name => (title, val_name)) Graphs.CL_VALUES)
    configured_titles.

(** The characters of a lower-case file name without punctuation:
    letters, digits, the underscore and the dot of the extension. *)
Definition filename_char (c : ascii) : bool :=
  let n := nat_of_ascii c in
  (((97 <=? n) && (n <=? 122)) || ((48 <=? n) && (n <=? 57))
   || (n =? 95) || (n =? 46))%nat.

End Spec.

(** ** Predicates the proofs are stated with *)

Module Preds.
Import Py.

(** Every character of [s] satisfies [p]. *)
Fixpoint all_chars (p : ascii -> bool) (s : string) : bool :=
  match s with
  | EmptyString => true
  | String c r => p c && all_chars p r
  end.

(** The characters of a printed integer. *)
Definition decimal_char (c : ascii) : bool :=
  match digit_val c with
  | Some _ => true
  | None => Ascii.eqb c "-"
  end.

Definition is_not (sep : ascii) (c : ascii) : bool := negb (Ascii.eqb c sep).

(** Counting with a predicate that only looks at blankness: the head of
    the list and its tail are counted apart. *)
Definition hd_blank (l : list string) : bool :=
  match l with
  | [] => true
  | h :: _ => Spec.blank h
  end.

Definition tl_count (l : list string) : nat :=
  length (List.filter (fun line => negb (Spec.blank line)) (List.tl l)).

(** All the entries of all the buckets of a dictionary of lists. *)
Definition entries {K V : Type} (d : list (K * list V)) : list V :=
  concat (map snd d).

(** Every child a harness action starts satisfies [P]. *)
Definition starts (P : Harness.Invocation -> Prop) {A : Type}
    (m : St Harness.World A) : Prop :=
  forall w, exists new,
    Harness.calls (m w).1 = (Harness.calls w ++ new)%list /\ Forall P new.

(** A child that runs the generator. *)
Definition is_generator (Zexp : Z) (call : Harness.Invocation) : bool :=
  bool_decide (Harness.argv call
               = [path_join Harness.BUILD_DIR [Harness.GENERATOR Zexp]]).

(** What the generators among some children were fed, in the order in
    which they were started. *)
Definition generator_lines (Zexp : Z) (calls : list Harness.Invocation)
    : list string :=
  map Harness.stdin (List.filter (is_generator Zexp) calls).

(** The generators an action starts are fed [lines], in this order, when
    it returns, and the first of [lines] when it raises. *)
Definition feeds (Zexp : Z) (lines : list string) {A : Type}
    (m : St Harness.World A) : Prop :=
  forall w, exists new,
    Harness.calls (m w).1 = (Harness.calls w ++ new)%list
    /\ match (m w).2 with
       | Ok _ => generator_lines Zexp new = lines
       | Raise _ =>
           exists rest, lines = (generator_lines Zexp new ++ rest)%list
       end.

(** Every figure an action saves satisfies [P]. *)
Definition saves (P : Graphs.Figure -> Prop)
    (m : St (list Graphs.Figure) unit) : Prop :=
  forall saved, exists new,
    (m saved).1 = (saved ++ new)%list /\ Forall P new.

End Preds.


(** ** The rest of the two scripts *)

Module HarnessRest.
Import Py Harness.

(** The results file [main] opens in append mode:
    [f"results_{args.target}_z{Z}.csv"]. *)
Definition results_filename (target : Target) (Zexp : Z) : string :=
  "results_" ++ match target with fl => "fl" | cl => "cl" end
  ++ "_z" ++ str Zexp ++ ".csv".

End HarnessRest.

Module GraphsRest.
Import Py Graphs.

(** [get_color(args)]; [None] is the [None] the function returns when no
    branch of it applies. *)
Definition get_color (args : list string) : option string :=
  match args with
  | [] => Some "r"
  | a0 :: _ =>
      if String.eqb a0 "grid_hashing" then Some "b"
      else if String.eqb a0 "face_hashing" then Some "g"
      else None
  end.

Section Main.

(** [float(s)]; [None] is its [ValueError]. *)
Variable float_of_str : string -> option PrimFloat.float.
(** What matplotlib raises on [ax.plot] and on [plt.savefig]. *)
Variable ax_plot : Series -> option exn.
Variable plt_savefig : Figure -> option exn.

(** The body of [if __name__ == "__main__"] of graphs.py: [plot_file] on
    every file of [FILES]; [csvs] gives the rows of the files that
    exist.  [plot_file] works out the title before it opens the file. *)
Definition main (csvs : gmap string (list (list string)))
    : St (list Figure) unit :=
  for_each FILES (fun file =>
    match csvs !! file with
    | Some rows => plot_file float_of_str ax_plot plt_savefig file rows
    | None =>
        _ ← lift (plot_name file);
        raise (FileNotFoundError file)
    end).

End Main.
End GraphsRest.

(** ** Predicates the further properties are stated with *)

Module MorePreds.
Import Py Harness Graphs Preds.

(** *** Strings *)

Definition not_space (c : ascii) : bool := negb (isspace c).

(** A character [str.lower] changes (code points below 256). *)
Definition upper_case (c : ascii) : bool := negb (Ascii.eqb (lower_char c) c).

(** [s[:1]] *)
Definition initial (s : string) : string :=
  match s with
  | EmptyString => EmptyString
  | String c _ => String c EmptyString
  end.

(** *** The harness *)

(** An action leaves the file [path] as it found it. *)
Definition keeps_file (path : string) {A : Type} (m : M A) : Prop :=
  forall w, fs (m w).1 !! path = fs w !! path.

(** An action leaves the results as it found them. *)
Definition quiet {A : Type} (m : M A) : Prop :=
  forall w, results (m w).1 = results w.

(** An action only adds rows to the results: [n] of them when it
    returns, fewer when it raises. *)
Definition appends_rows (n : nat) {A : Type} (m : M A) : Prop :=
  forall w, exists rows,
    results (m w).1 = (results w ++ rows)%list
    /\ match (m w).2 with
       | Ok _ => length rows = n
       | Raise _ => (length rows < n)%nat
       end.

(** An action only adds rows to the results, and their first three
    cells are [keys], in this order, when it returns; when it raises
    they are the first three cells of a proper prefix of [keys]. *)
Definition writes_rows (keys : list (list Cell)) (m : M unit) : Prop :=
  forall w, exists rows,
    results (m w).1 = (results w ++ rows)%list
    /\ match (m w).2 with
       | Ok _ => map (take 3) rows = keys
       | Raise _ =>
           exists rest, rest <> [] /\ keys = (map (take 3) rows ++ rest)%list
       end.

(** The first three cells of the row of one run. *)
Definition row_key (inp : string) (v : string * list string) : list Cell :=
  [CStr (basename inp); CStr v.1; CStr (join " " v.2)].

(** The solver variants of a target, in the order the loops take them. *)
Definition variants (Zexp : Z) (target : Target)
    : list (string * list string) :=
  match target with
  | fl => zip (FACILITY_SOLUTIONS Zexp) FACILITY_SOLUTION_ARGS
  | cl => zip (CLUSTERING_SOLUTIONS Zexp) (CLUSTERING_SOLUTION_ARGS Zexp)
  end.

(** The instances [main] tests: the sweep, and for the clustering target
    the two datasets. *)
Definition instances (target : Target) : nat :=
  (length SIZES * length DIMENSIONS
   + match target with fl => 0 | cl => 2 end)%nat.

(** *** The renderer *)

(** The display name, as the renderer works it out from the solver and
    argument fields of a row of the harness. *)
Definition shown (solution : string) (args : list string) : res string :=
  classify solution (split_ws (join " " args)).

(** A display name with a colour and a marker in the style tables. *)
Definition styled (name : string) : Prop :=
  is_Some (SOLUTION_MARKER !! name) /\ is_Some (SOLUTION_COLORS !! name).

(** Every list of a dictionary of lists satisfies [Q]. *)
Definition all_lists {K V : Type} (Q : list V -> Prop)
    (d : list (K * list V)) : Prop :=
  Forall (fun kv => Q kv.2) d.

(** The errors the renderer raises: never a [KeyError]. *)
Definition index_or_value (e : exn) : Prop :=
  e = IndexError \/ exists why, e = ValueError why.

(** An action raises only errors that satisfy [E]. *)
Definition raises_only {S A : Type} (E : exn -> Prop) (m : St S A) : Prop :=
  forall s e, (m s).2 = Raise e -> E e.

(** The rows of a file whose instance name starts with gen. *)
Definition gen_rows (rows : list (list string)) : nat :=
  length (List.filter (fun line => startswith "gen" (hd "" line)) rows).

(** What the loop over the rows keeps: the entries of both dictionaries
    grow by the generator rows, no key comes twice, and every entry has
    a styled display name. *)
Definition buckets_inv (st0 : Buckets * Buckets) (rows : list (list string))
    (st : Buckets * Buckets) : Prop :=
  length (entries st.1) = (length (entries st0.1) + gen_rows rows)%nat
  /\ length (entries st.2) = (length (entries st0.2) + gen_rows rows)%nat
  /\ (NoDup (map fst st0.1) -> NoDup (map fst st.1))
  /\ (NoDup (map fst st0.2) -> NoDup (map fst st.2))
  /\ (all_lists (Forall (fun v => styled (label v))) st0.1 ->
      all_lists (Forall (fun v => styled (label v))) st.1)
  /\ (all_lists (Forall (fun v => styled (label v))) st0.2 ->
      all_lists (Forall (fun v => styled (label v))) st.2).

(** The metric names [plot_instance] charts for a bucket: by the width
    of its first tuple. *)
Definition metrics (first : Entry) : list string :=
  if (2 + length (params first) =? 4)%nat then FL_VALUES else CL_VALUES.

(** An entry the renderer can chart for [n] metrics. *)
Definition chartable (n : nat) (v : Entry) : Prop :=
  styled (label v) /\ (n <= length (params v))%nat.

(** The characters [figname] never leaves in a file name: the keys of
    [REPLACE] and the upper-case letters. *)
Definition kept_out (c : ascii) : bool :=
  match REPLACE_get REPLACE c with
  | Some _ => true
  | None => upper_case c
  end.

(** The title [plot_file] gives the chart of an axis value. *)
Definition chart_title (name axis : string) (value : Z) : string :=
  replace "$$" (axis ++ "=" ++ str value) name.

(** A figure [plot_file] may save for a file: its title is the template
    of the file with an allowed dimension or an allowed size, its metric
    is one of the three, and its file is named after both. *)
Definition allowed_chart (filename : string) (f : Figure) : Prop :=
  (exists name,
     plot_name filename = Ok name
     /\ ((exists d, In d PLOT_DIMENSIONS /\ f_title f = chart_title name "d" d)
         \/ (exists n, In n PLOT_SIZES /\ f_title f = chart_title name "n" n)))
  /\ In (f_ylabel f) CL_VALUES
  /\ f_path f = path_join IMG_DIR [figname (f_title f) (f_ylabel f)].

(** An error matplotlib raised, on an [ax.plot] call or on
    [plt.savefig]. *)
Definition raised_by_matplotlib (ax_plot : Series -> option exn)
    (plt_savefig : Figure -> option exn) (e : exn) : Prop :=
  (exists series, ax_plot series = Some e)
  \/ (exists f, plt_savefig f = Some e).

(** A figure of the bucket [values] under [title]: its file is named
    after the title and its metric, and it has one series per solver,
    in the reverse of the order in which the solvers first appear. *)
Definition figure_of (title : string) (values : list Entry) (f : Figure)
    : Prop :=
  f_title f = title
  /\ f_path f = path_join IMG_DIR [figname title (f_ylabel f)]
  /\ map s_label (f_series f) = rev (map fst (by_solution values)).

(** A figure of the configured set. *)
Definition configured_chart (f : Figure) : Prop :=
  In (f_title f, f_ylabel f) Spec.configured_charts
  /\ f_path f = path_join IMG_DIR [figname (f_title f) (f_ylabel f)].

End MorePreds.

(** * Properties *)

(** ** Python strings *)

Module PyFacts.
Import Py Preds.

Lemma rstrip_empty (s : string) : is_empty (rstrip s) = Spec.blank s.
Proof.
  induction s as [|c r IH]; simpl; [reflexivity|].
  rewrite <- IH. destruct (isspace c), (is_empty (rstrip r)); reflexivity.
Qed.

Lemma blank_lstrip (s : string) : Spec.blank (lstrip s) = Spec.blank s.
Proof.
  induction s as [|c r IH]; simpl; [reflexivity|].
  destruct (isspace c) eqn:Hc; simpl; [exact IH | now rewrite Hc].
Qed.

(** [r.strip()] is falsy exactly on the blank strings. *)
Lemma strip_empty (s : string) : is_empty (strip s) = Spec.blank s.
Proof. unfold strip. now rewrite rstrip_empty, blank_lstrip. Qed.

Lemma app_inj_l (p a b : string) : p ++ a = p ++ b -> a = b.
Proof.
  induction p as [|c p IH]; simpl; intros H; [exact H|].
  injection H as H. auto.
Qed.

Lemma count_hd_tl (l : list string) :
  length (List.filter (fun line => negb (Spec.blank line)) l)
  = ((if hd_blank l then 0 else 1) + tl_count l)%nat.
Proof.
  destruct l as [|h t]; [reflexivity|].
  unfold tl_count; simpl. destruct (Spec.blank h); reflexivity.
Qed.

Lemma readlines_split (s : string) :
  hd_blank (readlines s) = hd_blank (split newline s)
  /\ tl_count (readlines s) = tl_count (split newline s).
Proof.
  induction s as [|c r [IHh IHt]]; [split; reflexivity|].
  simpl. destruct (Ascii.eqb c newline) eqn:Hc.
  - apply Ascii.eqb_eq in Hc; subst c. split; [reflexivity|].
    change (tl_count (String newline EmptyString :: readlines r))
      with (length (List.filter (fun line => negb (Spec.blank line))
                      (readlines r))).
    change (tl_count (EmptyString :: split newline r))
      with (length (List.filter (fun line => negb (Spec.blank line))
                      (split newline r))).
    rewrite !count_hd_tl, IHh, IHt. reflexivity.
  - destruct (readlines r) as [|h t], (split newline r) as [|h' t'];
      simpl in *; unfold tl_count in *; simpl in *.
    + split; reflexivity.
    + rewrite <- IHh, andb_true_r. split; [reflexivity | exact IHt].
    + rewrite IHh, andb_true_r. split; [reflexivity | exact IHt].
    + rewrite IHh. split; [reflexivity | exact IHt].
Qed.

(** The count the harness takes over [readlines] is the number of
    non-blank lines. *)
Lemma count_centers_spec (text : string) :
  Harness.count_centers (readlines text) = Spec.nonblank_lines text.
Proof.
  unfold Harness.count_centers, Spec.nonblank_lines.
  erewrite (List.filter_ext _ (fun line => negb (Spec.blank line)));
    [|intros; now rewrite strip_empty].
  rewrite !count_hd_tl. destruct (readlines_split text) as [-> ->].
  reflexivity.
Qed.

(** The operations on the inputs the two scripts give them. *)

Example strip_example : strip ("  1.5" ++ nl) = "1.5".
Proof. reflexivity. Qed.

Example split_ws_example :
  split_ws "grid_hashing  60042651f648e052 "
  = ["grid_hashing"; "60042651f648e052"].
Proof. reflexivity. Qed.

Example split_ws_empty_example : split_ws "" = [].
Proof. reflexivity. Qed.

Example split_example :
  split "_" (replace "." "_" "gen_n100_d2.in") = ["gen"; "n100"; "d2"; "in"].
Proof. reflexivity. Qed.

Example split_empty_example : split "," "" = [""].
Proof. reflexivity. Qed.

Example readlines_example :
  readlines ("1 2" ++ nl ++ nl ++ "3 4") = ["1 2" ++ nl; nl; "3 4"].
Proof. reflexivity. Qed.

Example replace_example : replace "aa" "b" "aaaaa" = "bba".
Proof. reflexivity. Qed.

Example removesuffix_example :
  removesuffix ".in" "data/gen/gen_n100_d2.in" = "data/gen/gen_n100_d2".
Proof. reflexivity. Qed.

Example removesuffix_absent_example :
  removesuffix ".in" "data/iris.input" = "data/iris.input".
Proof. reflexivity. Qed.

Example int_example :
  int " +1_000 " = Some 1000 /\ int "1__0" = None
  /\ int (String (ascii_of_nat 28) "12") = None
  /\ int (String (ascii_of_nat 160) "12") = Some 12.
Proof. repeat split; vm_compute; reflexivity. Qed.

Example universal_newlines_example :
  let cr := String carriage_return "" in
  readlines (universal_newlines ("a" ++ cr ++ nl ++ "b" ++ cr ++ "c" ++ nl
                                 ++ cr ++ "d"))
  = ["a" ++ nl; "b" ++ nl; "c" ++ nl; nl; "d"].
Proof. reflexivity. Qed.

Example str_example : str (-15) = "-15" /\ str 0 = "0".
Proof. split; reflexivity. Qed.

Example basename_example :
  basename "data/gen/gen_n100_d2.in" = "gen_n100_d2.in".
Proof. reflexivity. Qed.

Example path_join_example :
  path_join "data" ["gen"; "gen_n100_d2.in"] = "data/gen/gen_n100_d2.in".
Proof. reflexivity. Qed.

Example output_path_example :
  Harness.output_path "data/gen/gen_n100_d2.in" "facility_set_z1"
    ["grid_hashing"; "60042651f648e052"]
  = "data/gen/gen_n100_d2.facility_set_z1.grid_hashing.60042651f648e052.out".
Proof. reflexivity. Qed.

Example output_path_no_args_example :
  Harness.output_path "data/gen/gen_n100_d2.in" "mettu_plaxton_z1" []
  = "data/gen/gen_n100_d2.mettu_plaxton_z1..out".
Proof. reflexivity. Qed.

End PyFacts.


(** ** Printing and reading integers *)

Module DecimalFacts.
Import Py Preds.

Lemma all_chars_impl (p q : ascii -> bool) (s : string) :
  (forall c, p c = true -> q c = true) ->
  all_chars p s = true -> all_chars q s = true.
Proof.
  intros Hpq. induction s as [|c r IH]; simpl; [reflexivity|].
  rewrite !andb_true_iff. intros [Hc Hr]. auto.
Qed.

Lemma all_chars_app (p : ascii -> bool) (a b : string) :
  all_chars p (a ++ b) = all_chars p a && all_chars p b.
Proof.
  induction a as [|c r IH]; simpl; [reflexivity|].
  now rewrite IH, andb_assoc.
Qed.

Lemma all_chars_uint (d : Decimal.uint) :
  all_chars decimal_char (NilEmpty.string_of_uint d) = true.
Proof. induction d; simpl; auto. Qed.

Lemma str_pos (p : positive) :
  str (Z.pos p) = NilEmpty.string_of_uint (Pos.to_uint p).
Proof.
  unfold str. simpl. unfold NilZero.string_of_uint.
  pose proof (DecimalPos.Unsigned.to_uint_nonnil p) as Hp.
  destruct (Pos.to_uint p); [contradiction | reflexivity ..].
Qed.

Lemma str_neg (p : positive) :
  str (Z.neg p) = String "-" (NilEmpty.string_of_uint (Pos.to_uint p)).
Proof.
  unfold str. simpl. unfold NilZero.string_of_uint.
  pose proof (DecimalPos.Unsigned.to_uint_nonnil p) as Hp.
  destruct (Pos.to_uint p); [contradiction | reflexivity ..].
Qed.

(** A printed integer is made of digits and at most a minus sign. *)
Lemma all_chars_str (z : Z) : all_chars decimal_char (str z) = true.
Proof.
  destruct z as [|p|p]; [reflexivity| |].
  - rewrite str_pos. apply all_chars_uint.
  - rewrite str_neg. simpl. apply all_chars_uint.
Qed.

Lemma int_digits_acc (d : Decimal.uint) (acc : positive) :
  int_digits (Z.pos acc) true (NilEmpty.string_of_uint d)
  = Some (Z.pos (Pos.of_uint_acc d acc)).
Proof.
  revert acc. induction d; intros acc; simpl; [reflexivity| ..];
    unfold digit_val; simpl; rewrite <- IHd; f_equal;
    try match goal with
        | |- context [Z.of_nat (nat_of_ascii ?c)] =>
            let v := eval vm_compute in (Z.of_nat (nat_of_ascii c)) in
            change (Z.of_nat (nat_of_ascii c)) with v
        end; lia.
Qed.

Lemma int_digits_uint (d : Decimal.uint) (after_digit : bool) :
  after_digit = true \/ d <> Decimal.Nil ->
  int_digits 0 after_digit (NilEmpty.string_of_uint d)
  = Some (Z.of_N (Pos.of_uint d)).
Proof.
  revert after_digit. induction d; intros b Hb; simpl;
    [destruct Hb as [->|Hb]; [reflexivity | contradiction]| ..];
    unfold digit_val; simpl;
    first [apply IHd; now left | apply (int_digits_acc d)].
Qed.

Lemma lstrip_id (s : string) :
  all_chars (fun c => negb (isspace c)) s = true -> lstrip s = s.
Proof.
  destruct s as [|c r]; simpl; [reflexivity|].
  destruct (isspace c); [discriminate | reflexivity].
Qed.

Lemma rstrip_id (s : string) :
  all_chars (fun c => negb (isspace c)) s = true -> rstrip s = s.
Proof.
  induction s as [|c r IH]; simpl; [reflexivity|].
  rewrite andb_true_iff. intros [Hc Hr]. rewrite (IH Hr).
  destruct (isspace c); [discriminate | reflexivity].
Qed.

Lemma decimal_char_not_space (c : ascii) :
  decimal_char c = true -> negb (isspace c) = true.
Proof.
  destruct c as [[] [] [] [] [] [] [] []]; vm_compute; congruence.
Qed.

Lemma strip_str (z : Z) : strip (str z) = str z.
Proof.
  assert (all_chars (fun c => negb (isspace c)) (str z) = true) as H.
  { eapply all_chars_impl, all_chars_str. apply decimal_char_not_space. }
  unfold strip. now rewrite (lstrip_id _ H), (rstrip_id _ H).
Qed.

Lemma int_lstrip_id (s : string) :
  all_chars (fun c => negb (int_space c)) s = true -> int_lstrip s = s.
Proof.
  destruct s as [|c r]; simpl; [reflexivity|].
  destruct (int_space c); [discriminate | reflexivity].
Qed.

Lemma int_rstrip_id (s : string) :
  all_chars (fun c => negb (int_space c)) s = true -> int_rstrip s = s.
Proof.
  induction s as [|c r IH]; simpl; [reflexivity|].
  rewrite andb_true_iff. intros [Hc Hr]. rewrite (IH Hr).
  destruct (int_space c); [discriminate | reflexivity].
Qed.

Lemma decimal_char_not_int_space (c : ascii) :
  decimal_char c = true -> negb (int_space c) = true.
Proof.
  destruct c as [[] [] [] [] [] [] [] []]; vm_compute; congruence.
Qed.

(** The sign and the digits of a printed integer read back. *)
Lemma int_parse_str (z : Z) : int_parse (str z) = Some z.
Proof.
  assert (all_chars (fun c => negb (int_space c)) (str z) = true) as Hs.
  { eapply all_chars_impl, all_chars_str. apply decimal_char_not_int_space. }
  unfold int_parse. rewrite (int_lstrip_id _ Hs), (int_rstrip_id _ Hs).
  clear Hs. destruct z as [|p|p]; [reflexivity| |].
  - rewrite str_pos.
    pose proof (DecimalPos.Unsigned.to_uint_nonnil p) as Hp.
    pose proof (DecimalPos.Unsigned.of_to p) as Hof.
    pose proof (int_digits_uint (Pos.to_uint p) false (or_intror Hp)) as H.
    rewrite Hof in H. simpl in H.
    destruct (Pos.to_uint p); [contradiction | exact H ..].
  - rewrite str_neg.
    pose proof (DecimalPos.Unsigned.to_uint_nonnil p) as Hp.
    pose proof (DecimalPos.Unsigned.of_to p) as Hof.
    rewrite (int_digits_uint (Pos.to_uint p) false (or_intror Hp)), Hof.
    reflexivity.
Qed.

Lemma count_digits_length (s : string) :
  (count_digits s <= String.length s)%nat.
Proof.
  induction s as [|c r IH]; simpl; [lia|].
  destruct (digit_val c); lia.
Qed.

(** Reading back a printed integer that is within the limit on the
    number of digits. *)
Lemma int_str (z : Z) :
  (String.length (str z) <= MAX_STR_DIGITS)%nat -> int (str z) = Some z.
Proof.
  intros Hlen. unfold int.
  pose proof (count_digits_length (str z)) as Hc.
  destruct (Nat.ltb_spec MAX_STR_DIGITS (count_digits (str z))) as [Hlt|_];
    [lia|].
  apply int_parse_str.
Qed.

End DecimalFacts.

(** ** Lines, separators and joins *)

Module LineFacts.
Import Py Preds DecimalFacts.




(** Splitting at a separator that comes after a part free of it. *)
Lemma split_app (sep : ascii) (a b : string) :
  all_chars (is_not sep) a = true ->
  split sep (a ++ String sep b) = a :: split sep b.
Proof.
  induction a as [|c r IH]; simpl.
  - intros _. now rewrite Ascii.eqb_refl.
  - rewrite andb_true_iff. intros [Hc Hr]. unfold is_not in Hc.
    apply negb_true_iff in Hc. rewrite Hc, (IH Hr). reflexivity.
Qed.

Lemma split_single (sep : ascii) (a : string) :
  all_chars (is_not sep) a = true -> split sep a = [a].
Proof.
  induction a as [|c r IH]; simpl; [reflexivity|].
  rewrite andb_true_iff. intros [Hc Hr]. unfold is_not in Hc.
  apply negb_true_iff in Hc. rewrite Hc, (IH Hr). reflexivity.
Qed.




Lemma append_assoc (a b c : string) : (a ++ b) ++ c = a ++ b ++ c.
Proof.
  induction a as [|x a IH]; [reflexivity|].
  change (String x ((a ++ b) ++ c) = String x (a ++ b ++ c)). now f_equal.
Qed.

Lemma append_empty_r (a : string) : a ++ "" = a.
Proof.
  induction a as [|x a IH]; [reflexivity|].
  change (String x (a ++ "") = String x a). now f_equal.
Qed.



Lemma decimal_char_not (sep : ascii) :
  decimal_char sep = false ->
  forall c, decimal_char c = true -> is_not sep c = true.
Proof.
  intros Hsep c Hc. unfold is_not. apply negb_true_iff.
  destruct (Ascii.eqb c sep) eqn:E; [|reflexivity].
  apply Ascii.eqb_eq in E. congruence.
Qed.

Lemma str_free (sep : ascii) (z : Z) :
  decimal_char sep = false -> all_chars (is_not sep) (str z) = true.
Proof.
  intros Hsep. eapply all_chars_impl, all_chars_str.
  now apply decimal_char_not.
Qed.

End LineFacts.

(** ** The state monad *)

Module StFacts.

Lemma bind_inv {S A B : Type} (m : St S A) (f : A -> St S B) s s' r :
  (m ≫= f) s = (s', r) ->
  (exists e, m s = (s', Raise e) /\ r = Raise e)
  \/ (exists s1 a, m s = (s1, Ok a) /\ f a s1 = (s', r)).
Proof.
  unfold mbind, St_bind. destruct (m s) as [s1 [a|e]]; intros H.
  - right. eauto.
  - left. injection H as <- <-. eauto.
Qed.

Lemma bind_ok {S A B : Type} (m : St S A) (f : A -> St S B) s s' b :
  (m ≫= f) s = (s', Ok b) ->
  exists s1 a, m s = (s1, Ok a) /\ f a s1 = (s', Ok b).
Proof.
  intros H. apply bind_inv in H as [(e & _ & He)|H]; [discriminate | exact H].
Qed.

Lemma bind_raise {S A B : Type} (m : St S A) (f : A -> St S B) s s' e :
  m s = (s', Raise e) -> (m ≫= f) s = (s', Raise e).
Proof. unfold mbind, St_bind. now intros ->. Qed.

Lemma bind_step {S A B : Type} (m : St S A) (f : A -> St S B) s s1 a :
  m s = (s1, Ok a) -> (m ≫= f) s = f a s1.
Proof. unfold mbind, St_bind. now intros ->. Qed.

End StFacts.

(** ** The harness *)

Module HarnessFacts.
Import Py Harness StFacts.

(** A loop whose body appends one row per completed turn appends as many
    rows as it has turns. *)
Lemma for_zip_strict_rows {A B : Type} (Q : list Cell -> Prop)
    (xs : list A) (ys : list B) (body : A -> B -> M unit) :
  (forall a b w w',
     body a b w = (w', Ok tt) ->
     exists row, results w' = (results w ++ [row])%list /\ Q row) ->
  forall w w',
    for_zip_strict xs ys body w = (w', Ok tt) ->
    exists rows,
      results w' = (results w ++ rows)%list
      /\ length rows = length xs /\ Forall Q rows.
Proof.
  intros Hbody. revert ys.
  induction xs as [|a xs IH]; intros [|b ys] w w' H; simpl in H;
    try discriminate H.
  - injection H as <-. exists []. rewrite app_nil_r.
    split; [reflexivity|]. split; [reflexivity | constructor].
  - apply bind_ok in H as (w1 & [] & H1 & H).
    apply Hbody in H1 as (row & Hrow & HQ).
    apply IH in H as (rows & Hrows & Hlen & HQs).
    exists (row :: rows). rewrite Hrows, Hrow, <- app_assoc.
    split; [reflexivity|]. split; [simpl; now rewrite Hlen|].
    now constructor.
Qed.
Section Facts.

Variable Zexp : Z.
Variable exec : list Invocation -> Invocation -> Outcome.
Variable float_of_str : string -> option PrimFloat.float.
Variable format_4f : PrimFloat.float -> string.
Variable decode : string -> option string.
Variable locale_decode : string -> option string.

(** What [solve] has done when it returns. *)
Lemma solve_ok inp solution args w w' out t :
  solve exec inp solution args w = (w', Ok (out, t)) ->
  exists input,
    fs w !! inp = Some input /\
    let call := solver_call w input solution args in
    let o := exec (calls w) call in
    returncode o = 0 /\
    out = output_path inp solution args /\
    t = PrimFloat.sub (finished o) (started o) /\
    w' = put_file out (stdout o) (add_call call w).
Proof.
  unfold solve, read_file, Popen, write_file, py_assert.
  unfold mbind, St_bind, mret, St_ret, raise.
  destruct (fs w !! inp) as [input|] eqn:Hin; [|discriminate].
  simpl. fold (solver_call w input solution args).
  destruct (returncode _ =? 0) eqn:Hrc; [|discriminate].
  intros H; injection H as <- <- <-. exists input.
  repeat split; auto. now apply Z.eqb_eq.
Qed.

(** [solve] never touches the results file. *)
Lemma solve_results inp solution args w w' r :
  solve exec inp solution args w = (w', r) -> results w' = results w.
Proof.
  unfold solve, read_file, Popen, write_file, py_assert.
  unfold mbind, St_bind, mret, St_ret, raise.
  destruct (fs w !! inp) as [input|] eqn:Hin.
  - simpl. destruct (returncode _ =? 0); intros H; injection H as <- _;
      reflexivity.
  - intros H; injection H as <- _; reflexivity.
Qed.

(** [judge] on an instance that exists: one child, and the score is its
    decoded, stripped output read as a float. *)
Lemma judge_run j inp out w input :
  fs w !! inp = Some input ->
  judge exec float_of_str decode j inp out w =
    (add_call (judge_call input j out) w,
     match decode (stdout (exec (calls w) (judge_call input j out))) with
     | None => Raise UnicodeDecodeError
     | Some text =>
         match float_of_str (strip text) with
         | None => Raise (ValueError (Not_a_float (strip text)))
         | Some v => Ok v
         end
     end).
Proof.
  intros Hin. unfold judge, read_file, Popen.
  unfold mbind, St_bind, mret, St_ret, raise. rewrite Hin. simpl.
  fold (judge_call input j out).
  destruct (decode _) as [text|]; [|reflexivity].
  destruct (float_of_str _); reflexivity.
Qed.

Lemma judge_missing j inp out w :
  fs w !! inp = None ->
  judge exec float_of_str decode j inp out w
  = (w, Raise (FileNotFoundError inp)).
Proof.
  intros Hin. unfold judge, read_file. unfold mbind, St_bind. now rewrite Hin.
Qed.

(** [judge] changes neither the files nor the results nor [os.environ]. *)
Lemma judge_frame j inp out w w' r :
  judge exec float_of_str decode j inp out w = (w', r) ->
  fs w' = fs w /\ results w' = results w /\ environ w' = environ w.
Proof.
  destruct (fs w !! inp) as [input|] eqn:Hin.
  - rewrite (judge_run _ _ _ _ _ Hin). intros H; injection H as <- _. auto.
  - rewrite (judge_missing _ _ _ _ Hin). intros H; injection H as <- _. auto.
Qed.

(** The row a completed facility-location run appends. *)
Lemma facility_location_run_ok inp solution args w w' :
  facility_location_run Zexp exec float_of_str format_4f decode
    inp solution args w = (w', Ok tt) ->
  exists result sol_time,
    results w' =
      (results w ++
       [[CStr (basename inp); CStr solution; CStr (join " " args);
         CStr result; CFloat sol_time]])%list.
Proof.
  intros H. unfold facility_location_run in H.
  apply bind_ok in H as (w1 & [out t] & Hs & H).
  apply bind_ok in H as (w2 & score & Hj & H).
  apply solve_results in Hs. apply judge_frame in Hj as (_ & Hr & _).
  injection H as <-. simpl. rewrite Hr, Hs. eauto.
Qed.

(** A read in text mode, step by step: the world stays as it is. *)
Lemma read_text_run path w :
  read_text locale_decode path w =
    (w, match fs w !! path with
        | None => Raise (FileNotFoundError path)
        | Some content =>
            match locale_decode content with
            | None => Raise UnicodeDecodeError
            | Some text => Ok (universal_newlines text)
            end
        end).
Proof.
  unfold read_text, read_file, mbind, St_bind.
  destruct (fs w !! path) as [content|]; [|reflexivity].
  destruct (locale_decode content); reflexivity.
Qed.

(** The row a completed clustering run appends, and the file its cluster
    count was taken from: the output of the solver, decoded and with its
    newlines translated. *)
Lemma clustering_run_ok inp solution args w w' :
  clustering_run Zexp exec float_of_str format_4f decode locale_decode
    inp solution args w = (w', Ok tt) ->
  exists content text result sol_time,
    fs w' !! output_path inp solution args = Some content /\
    locale_decode content = Some text /\
    results w' =
      (results w ++
       [[CStr (basename inp); CStr solution; CStr (join " " args);
         CInt (Z.of_nat
                 (count_centers (readlines (universal_newlines text))));
         CStr result; CFloat sol_time]])%list.
Proof.
  intros H. unfold clustering_run in H.
  apply bind_ok in H as (w1 & [out t] & Hs & H).
  apply bind_ok in H as (w1' & text & Hread & H).
  apply bind_ok in H as (w2 & score & Hj & H).
  apply solve_ok in Hs as (input & _ & _ & -> & _ & ->).
  rewrite read_text_run in Hread. cbn [fs put_file] in Hread.
  rewrite lookup_insert_eq in Hread.
  destruct (locale_decode _) as [text0|] eqn:Hdec; [|discriminate Hread].
  injection Hread as <- <-.
  apply judge_frame in Hj as (Hf & Hr & _). simpl in Hf, Hr.
  injection H as <-. simpl. rewrite Hr, Hf.
  eexists _, text0, _, _. split; [apply lookup_insert_eq|].
  split; [exact Hdec | reflexivity].
Qed.

(** A run that raises leaves the results file as it was. *)
Lemma facility_location_run_raise inp solution args w w' e :
  facility_location_run Zexp exec float_of_str format_4f decode
    inp solution args w = (w', Raise e) ->
  results w' = results w.
Proof.
  intros H. unfold facility_location_run in H.
  apply bind_inv in H as [(e1 & Hs & _)|(w1 & [out t] & Hs & H)];
    [now apply solve_results in Hs|].
  apply solve_results in Hs.
  apply bind_inv in H as [(e1 & Hj & _)|(w2 & score & Hj & H)];
    apply judge_frame in Hj as (_ & Hr & _); [congruence | discriminate].
Qed.

Lemma clustering_run_raise inp solution args w w' e :
  clustering_run Zexp exec float_of_str format_4f decode locale_decode
    inp solution args w = (w', Raise e) ->
  results w' = results w.
Proof.
  intros H. unfold clustering_run in H.
  apply bind_inv in H as [(e1 & Hs & _)|(w1 & [out t] & Hs & H)];
    [now apply solve_results in Hs|].
  apply solve_results in Hs.
  apply bind_inv in H as [(e1 & Hread & _)|(w1' & text & Hread & H)].
  - rewrite read_text_run in Hread. injection Hread as <- _. congruence.
  - assert (w1' = w1) as ->.
    { rewrite read_text_run in Hread. now injection Hread as <- _. }
    apply bind_inv in H as [(e1 & Hj & _)|(w2 & score & Hj & H)];
      apply judge_frame in Hj as (_ & Hr & _); [congruence | discriminate].
Qed.

(** [gen], step by step: one child, its output in the instance file, and
    the assertion on its exit status. *)
Lemma gen_run size dimension k w :
  gen Zexp exec size dimension k w =
    let call := generator_call Zexp w size dimension k in
    let o := exec (calls w) call in
    (put_file (gen_path size dimension) (stdout o) (add_call call w),
     if returncode o =? 0 then Ok (gen_path size dimension)
     else Raise AssertionError).
Proof.
  unfold gen, Popen, write_file, py_assert.
  unfold mbind, St_bind, mret, St_ret, raise. cbv zeta.
  change (default (environ w) None) with (environ w).
  fold (generator_call Zexp w size dimension k).
  fold (gen_path size dimension).
  destruct (returncode _ =? 0); reflexivity.
Qed.

(** [gen] asserts on the exit status of the generator. *)
Lemma gen_nonzero_exit size dimension k w :
  returncode (exec (calls w) (generator_call Zexp w size dimension k)) <> 0 ->
  (gen Zexp exec size dimension k w).2 = Raise AssertionError.
Proof.
  intros Hrc. rewrite gen_run. cbv zeta. cbn [snd].
  apply Z.eqb_neq in Hrc. now rewrite Hrc.
Qed.

(** [solve] asserts on the exit status of the solver. *)
Lemma solve_nonzero_exit inp solution args w input :
  fs w !! inp = Some input ->
  returncode (exec (calls w) (solver_call w input solution args)) <> 0 ->
  (solve exec inp solution args w).2 = Raise AssertionError.
Proof.
  intros Hin Hrc. unfold solve, read_file, Popen, write_file, py_assert.
  unfold mbind, St_bind, mret, St_ret, raise. rewrite Hin. cbv zeta.
  change (default (environ w) None) with (environ w).
  fold (solver_call w input solution args).
  apply Z.eqb_neq in Hrc. now rewrite Hrc.
Qed.

(** [judge] never looks at the exit status of the judge. *)
Lemma judge_any_exit j inp out w input text score :
  fs w !! inp = Some input ->
  decode (stdout (exec (calls w) (judge_call input j out))) = Some text ->
  float_of_str (strip text) = Some score ->
  (judge exec float_of_str decode j inp out w).2 = Ok score.
Proof.
  intros Hin Hd Hf. rewrite (judge_run _ _ _ _ _ Hin). simpl.
  now rewrite Hd, Hf.
Qed.

(** An error of the judge ends the run it is part of: the run raises the
    same error in the world the judge left, and no row is written. *)
Lemma judge_error_ends_facility_run inp solution args w0 w out t w' e :
  solve exec inp solution args w0 = (w, Ok (out, t)) ->
  judge exec float_of_str decode (FACILITY_JUDGE Zexp) inp out w
    = (w', Raise e) ->
  facility_location_run Zexp exec float_of_str format_4f decode
    inp solution args w0 = (w', Raise e).
Proof.
  intros Hs Hj. unfold facility_location_run.
  rewrite (bind_step _ _ _ _ _ Hs). now apply bind_raise.
Qed.

(** The same for clustering, when the output of the solver can be read
    as text, so that the judge is reached. *)
Lemma judge_error_ends_clustering_run inp solution args w0 w out t w' e :
  solve exec inp solution args w0 = (w, Ok (out, t)) ->
  (exists content text,
     fs w !! out = Some content /\ locale_decode content = Some text) ->
  judge exec float_of_str decode (CLUSTERING_JUDGE Zexp) inp out w
    = (w', Raise e) ->
  clustering_run Zexp exec float_of_str format_4f decode locale_decode
    inp solution args w0 = (w', Raise e).
Proof.
  intros Hs (content & text & Hout & Hdec) Hj. unfold clustering_run.
  rewrite (bind_step _ _ _ _ _ Hs).
  erewrite bind_step; [|rewrite read_text_run, Hout, Hdec; reflexivity].
  now apply bind_raise.
Qed.

(** An output of the solver that cannot be read as text ends the
    clustering run before the judge: no child after the solver, no
    row. *)
Lemma undecodable_output_ends_clustering_run inp solution args w0 w out t
    content :
  solve exec inp solution args w0 = (w, Ok (out, t)) ->
  fs w !! out = Some content -> locale_decode content = None ->
  clustering_run Zexp exec float_of_str format_4f decode locale_decode
    inp solution args w0 = (w, Raise UnicodeDecodeError).
Proof.
  intros Hs Hout Hdec. unfold clustering_run.
  rewrite (bind_step _ _ _ _ _ Hs). apply bind_raise.
  now rewrite read_text_run, Hout, Hdec.
Qed.

(** An error in the body ends a loop at once. *)
Lemma for_zip_strict_abort {A B : Type} (a : A) (b : B) xs ys
    (body : A -> B -> M unit) w w' e :
  body a b w = (w', Raise e) ->
  for_zip_strict (a :: xs) (b :: ys) body w = (w', Raise e).
Proof. intros H. simpl. now apply bind_raise. Qed.

Lemma for_each_abort {S A : Type} (a : A) xs (body : A -> St S unit) s s' e :
  body a s = (s', Raise e) ->
  for_each (a :: xs) body s = (s', Raise e).
Proof. intros H. simpl. now apply bind_raise. Qed.

End Facts.
End HarnessFacts.

(** ** The children a run starts *)

Module CallFacts.
Import Py Harness StFacts HarnessFacts Preds.

Lemma starts_none (P : Invocation -> Prop) {A : Type} (m : M A) :
  (forall w, calls (m w).1 = calls w) -> starts P m.
Proof.
  intros H w. exists []. rewrite app_nil_r. split; [apply H | constructor].
Qed.

Lemma starts_bind (P : Invocation -> Prop) {A B : Type} (m : M A)
    (f : A -> M B) :
  starts P m -> (forall a, starts P (f a)) -> starts P (m ≫= f).
Proof.
  intros Hm Hf w. unfold mbind, St_bind.
  destruct (Hm w) as (new1 & H1 & HP1).
  destruct (m w) as [w1 [a|e]]; simpl in H1.
  - destruct (Hf a w1) as (new2 & H2 & HP2).
    exists (new1 ++ new2)%list. rewrite H2, H1, app_assoc.
    split; [reflexivity | now apply Forall_app].
  - exists new1. split; [exact H1 | exact HP1].
Qed.

Lemma starts_for_each (P : Invocation -> Prop) {A : Type} (xs : list A)
    (body : A -> M unit) :
  (forall a, In a xs -> starts P (body a)) -> starts P (for_each xs body).
Proof.
  induction xs as [|a rest IH]; intros Hbody; simpl.
  - now apply starts_none.
  - apply starts_bind; [apply Hbody; now left|].
    intros _. apply IH. intros b Hb. apply Hbody. now right.
Qed.

Lemma starts_for_zip_strict (P : Invocation -> Prop) {A B : Type}
    (xs : list A) (ys : list B) (body : A -> B -> M unit) :
  (forall a b, In a xs -> In b ys -> starts P (body a b)) ->
  starts P (for_zip_strict xs ys body).
Proof.
  revert ys. induction xs as [|a rest IH]; intros [|b ys] Hbody; simpl;
    try now apply starts_none.
  apply starts_bind; [apply Hbody; now left|].
  intros _. apply IH. intros a' b' Ha Hb. apply Hbody; now right.
Qed.

Lemma generator_lines_app Zexp (a b : list Invocation) :
  generator_lines Zexp (a ++ b)
  = (generator_lines Zexp a ++ generator_lines Zexp b)%list.
Proof.
  unfold generator_lines. now rewrite List.filter_app, map_app.
Qed.

(** An action that starts no generator feeds none. *)
Lemma feeds_none Zexp {A : Type} (m : M A) :
  starts (fun call => is_generator Zexp call = false) m -> feeds Zexp [] m.
Proof.
  intros H w. destruct (H w) as (new & Hnew & Hall). exists new.
  split; [exact Hnew|].
  assert (generator_lines Zexp new = []) as ->.
  { unfold generator_lines. clear Hnew.
    induction Hall as [|c l Hc Hl IH]; [reflexivity|].
    cbn [List.filter]. now rewrite Hc. }
  destruct (m w).2; [reflexivity | now exists []].
Qed.

Lemma feeds_bind Zexp {A B : Type} l1 l2 (m : M A) (f : A -> M B) :
  feeds Zexp l1 m -> (forall a, feeds Zexp l2 (f a)) ->
  feeds Zexp (l1 ++ l2) (m ≫= f).
Proof.
  intros Hm Hf w. unfold mbind, St_bind.
  destruct (Hm w) as (new1 & H1 & Hl1).
  destruct (m w) as [w1 [a|e]]; cbn [fst snd] in *.
  - destruct (Hf a w1) as (new2 & H2 & Hl2).
    exists (new1 ++ new2)%list. rewrite H2, H1, app_assoc.
    split; [reflexivity|]. rewrite generator_lines_app, Hl1.
    destruct (f a w1).2.
    + now rewrite Hl2.
    + destruct Hl2 as (rest & ->). exists rest. now rewrite app_assoc.
  - exists new1. split; [exact H1|].
    destruct Hl1 as (rest & ->). exists (rest ++ l2)%list.
    now rewrite app_assoc.
Qed.

Lemma feeds_for_each Zexp {A : Type} (k : A -> list string) (xs : list A)
    (body : A -> M unit) :
  (forall a, In a xs -> feeds Zexp (k a) (body a)) ->
  feeds Zexp (flat_map k xs) (for_each xs body).
Proof.
  induction xs as [|a xs IH]; intros Hbody.
  - intros w. exists []. rewrite app_nil_r. split; reflexivity.
  - cbn [for_each flat_map]. apply feeds_bind; [apply Hbody; now left|].
    intros _. apply IH. intros b Hb. apply Hbody. now right.
Qed.

Section Calls.
Variable Zexp : Z.
Variable exec : list Invocation -> Invocation -> Outcome.
Variable float_of_str : string -> option PrimFloat.float.
Variable format_4f : PrimFloat.float -> string.
Variable decode : string -> option string.
Variable locale_decode : string -> option string.
Variable csv_reader : string -> option (list (list string)).
Variable libm_pow : PrimFloat.float -> PrimFloat.float -> PrimFloat.float.
Variable P : Invocation -> Prop.

Lemma starts_Popen argv stdin env_arg :
  (forall e, P {| argv := argv; stdin := stdin; env := e |}) ->
  starts P (Popen exec argv stdin env_arg).
Proof.
  intros H w. eexists [_]. split; [reflexivity|]. constructor; [apply H|].
  constructor.
Qed.

Lemma starts_read_file path : starts P (read_file path).
Proof.
  apply starts_none. intros w. unfold read_file.
  now destruct (fs w !! path).
Qed.

Lemma starts_read_text path : starts P (read_text locale_decode path).
Proof.
  apply starts_none. intros w. now rewrite read_text_run.
Qed.

Lemma starts_gen size dimension k :
  (forall e, P {| argv := [path_join BUILD_DIR [GENERATOR Zexp]];
                  stdin := str size ++ " " ++ str dimension ++ " "
                           ++ str k ++ nl;
                  env := e |}) ->
  starts P (gen Zexp exec size dimension k).
Proof.
  intros H. unfold gen. apply starts_bind; [now apply starts_Popen|].
  intros o. apply starts_none. intros w.
  unfold write_file, py_assert, mbind, St_bind, mret, St_ret, raise. simpl.
  now destruct (returncode o =? 0).
Qed.

Lemma starts_solve inp solution args :
  (forall input e, P {| argv := path_join BUILD_DIR [solution] :: args;
                        stdin := input; env := e |}) ->
  starts P (solve exec inp solution args).
Proof.
  intros H. unfold solve. apply starts_bind; [apply starts_read_file|].
  intros input. apply starts_bind; [now apply starts_Popen|].
  intros o. apply starts_none. intros w.
  unfold write_file, py_assert, mbind, St_bind, mret, St_ret, raise. simpl.
  now destruct (returncode o =? 0).
Qed.

Lemma starts_judge j inp out :
  (forall input, P (judge_call input j out)) ->
  starts P (judge exec float_of_str decode j inp out).
Proof.
  intros H w. destruct (fs w !! inp) as [input|] eqn:Hin.
  - rewrite (judge_run exec _ _ _ _ _ _ _ Hin). eexists [_].
    split; [reflexivity|]. constructor; [apply H | constructor].
  - rewrite (judge_missing exec _ _ _ _ _ _ Hin). exists [].
    rewrite app_nil_r. split; [reflexivity | constructor].
Qed.

Lemma starts_test target inp :
  (forall solution args input e,
     In solution (FACILITY_SOLUTIONS Zexp ++ CLUSTERING_SOLUTIONS Zexp) ->
     P {| argv := path_join BUILD_DIR [solution] :: args;
          stdin := input; env := e |}) ->
  (forall j input out,
     j = FACILITY_JUDGE Zexp \/ j = CLUSTERING_JUDGE Zexp ->
     P (judge_call input j out)) ->
  starts P
    (test Zexp exec float_of_str format_4f decode locale_decode target inp).
Proof.
  intros Hs Hj. destruct target; simpl.
  - apply starts_for_zip_strict. intros solution args Hsol _.
    unfold facility_location_run.
    apply starts_bind;
      [apply starts_solve; intros; apply Hs, in_or_app; now left|].
    intros [out t]. apply starts_bind; [apply starts_judge; auto|].
    intros score. now apply starts_none.
  - apply starts_for_zip_strict. intros solution args Hsol _.
    unfold clustering_run.
    apply starts_bind;
      [apply starts_solve; intros; apply Hs, in_or_app; now right|].
    intros [out t]. apply starts_bind; [apply starts_read_text|].
    intros text. apply starts_bind; [apply starts_judge; auto|].
    intros score. now apply starts_none.
Qed.

Lemma starts_gen_iris : starts P gen_iris.
Proof.
  apply starts_none. intros w. unfold gen_iris, read_file, write_file.
  unfold mbind, St_bind, mret, St_ret.
  now destruct (fs w !! _).
Qed.

Lemma starts_gen_imdb : starts P (gen_imdb csv_reader).
Proof.
  apply starts_none. intros w. unfold gen_imdb, read_file, write_file, lift.
  unfold mbind, St_bind, mret, St_ret, raise.
  destruct (fs w !! _); [|reflexivity].
  destruct (csv_reader _) as [[|titles [|first more]]|]; reflexivity.
Qed.

End Calls.
End CallFacts.

(** ** The harness: rows, exit codes, output paths and the judge *)

Module HarnessClaims.
Import Py Harness StFacts HarnessFacts CallFacts Preds.

Section Claims.

Variable Zexp : Z.
Variable exec : list Invocation -> Invocation -> Outcome.
Variable float_of_str : string -> option PrimFloat.float.
Variable format_4f : PrimFloat.float -> string.
Variable decode : string -> option string.
Variable locale_decode : string -> option string.

(** C1, as amended: every completed (instance, solver, args) run appends
    exactly one row to the results; the row has 5 fields for the
    facility-location target and 6 fields for the clustering target, whose
    fourth field is the number of non-blank lines of the output file of
    that solver run, read as text (decoded in the encoding of the locale,
    a carriage return ending a line as a newline does); a run that raises
    appends no row, and a clustering run whose solver output does not
    decode raises [UnicodeDecodeError]; and a completed [test] appends as
    many rows as the target has solver variants, each of that width. *)
Theorem recorder_row_shape inp solution args w :
  (forall w',
     facility_location_run Zexp exec float_of_str format_4f decode
       inp solution args w = (w', Ok tt) ->
     exists row,
       results w' = (results w ++ [row])%list /\ length row = 5%nat)
  /\ (forall w',
     clustering_run Zexp exec float_of_str format_4f decode locale_decode
       inp solution args w = (w', Ok tt) ->
     exists row content text,
       results w' = (results w ++ [row])%list /\ length row = 6%nat /\
       fs w' !! output_path inp solution args = Some content /\
       locale_decode content = Some text /\
       row !! 3%nat
       = Some (CInt (Z.of_nat
                       (Spec.nonblank_lines (universal_newlines text)))))
  /\ (forall w' e,
     facility_location_run Zexp exec float_of_str format_4f decode
       inp solution args w = (w', Raise e)
     \/ clustering_run Zexp exec float_of_str format_4f decode locale_decode
       inp solution args w = (w', Raise e) ->
     results w' = results w)
  /\ (forall w1 out t content,
     solve exec inp solution args w = (w1, Ok (out, t)) ->
     fs w1 !! out = Some content -> locale_decode content = None ->
     clustering_run Zexp exec float_of_str format_4f decode locale_decode
       inp solution args w = (w1, Raise UnicodeDecodeError))
  /\ (forall target w0 w',
     test Zexp exec float_of_str format_4f decode locale_decode target inp w0
       = (w', Ok tt) ->
     exists rows,
       results w' = (results w0 ++ rows)%list
       /\ length rows
          = length (match target with
                    | fl => FACILITY_SOLUTIONS Zexp
                    | cl => CLUSTERING_SOLUTIONS Zexp
                    end)
       /\ Forall (fun row =>
                    length row = match target with fl => 5 | cl => 6 end%nat)
            rows).
Proof.
  split; [|split; [|split; [|split]]].
  - intros w' H. apply facility_location_run_ok in H as (result & t & H).
    eexists. split; [exact H | reflexivity].
  - intros w' H.
    apply clustering_run_ok in H as (content & text & result & t & Hf & Hd & H).
    eexists _, content, text. split; [exact H|]. split; [reflexivity|].
    split; [exact Hf|]. split; [exact Hd|].
    simpl. now rewrite PyFacts.count_centers_spec.
  - intros w' e [H|H].
    + eapply facility_location_run_raise, H.
    + eapply clustering_run_raise, H.
  - intros w1 out t content Hs Hout Hdec.
    eapply undecodable_output_ends_clustering_run; eassumption.
  - intros [|] w0 w' H; simpl in H.
    + eapply for_zip_strict_rows; [|exact H].
      intros sol a w1 w2 Hrun.
      apply facility_location_run_ok in Hrun as (result & t & Hrun).
      eexists. split; [exact Hrun | reflexivity].
    + eapply for_zip_strict_rows; [|exact H].
      intros sol a w1 w2 Hrun.
      apply clustering_run_ok
        in Hrun as (content & text & result & t & _ & _ & Hrun).
      eexists. split; [exact Hrun | reflexivity].
Qed.

(** C4: [solve] returns the path [output_path] computes from the input
    path, the solver and the dot-joined arguments, whatever the world and
    the binaries; the three facility-location variants have three
    pairwise distinct output paths on every instance, and a completed
    [test_facility_location] appends three rows that start with the
    instance name, the solver and the joined arguments, the three
    (solver, arguments) pairs being pairwise distinct. *)
Theorem output_path_determined inp :
  (forall solution args w w' out t,
     solve exec inp solution args w = (w', Ok (out, t)) ->
     out = output_path inp solution args)
  /\ NoDup (zip_with (output_path inp)
              (FACILITY_SOLUTIONS Zexp) FACILITY_SOLUTION_ARGS)
  /\ length (zip_with (output_path inp)
              (FACILITY_SOLUTIONS Zexp) FACILITY_SOLUTION_ARGS) = 3%nat
  /\ NoDup (zip_with (fun solution args => (solution, join " " args))
              (FACILITY_SOLUTIONS Zexp) FACILITY_SOLUTION_ARGS)
  /\ (forall w w',
     test_facility_location Zexp exec float_of_str format_4f decode inp w
       = (w', Ok tt) ->
     exists rows,
       results w' = (results w ++ rows)%list /\
       map (take 3) rows =
         zip_with
           (fun solution args =>
              [CStr (basename inp); CStr solution; CStr (join " " args)])
           (FACILITY_SOLUTIONS Zexp) FACILITY_SOLUTION_ARGS).
Proof.
  split; [|split; [|split; [|split]]].
  - intros solution args w w' out t H.
    now apply solve_ok in H as (input & _ & _ & -> & _).
  - unfold FACILITY_SOLUTIONS, FACILITY_SOLUTION_ARGS, output_path. simpl.
    repeat constructor; rewrite ?elem_of_cons, ?elem_of_nil;
      intros H; repeat destruct H as [H|H]; try exact H;
      apply PyFacts.app_inj_l in H; try discriminate H.
    injection H as H. apply PyFacts.app_inj_l in H. discriminate H.
  - reflexivity.
  - unfold FACILITY_SOLUTIONS, FACILITY_SOLUTION_ARGS. simpl.
    repeat constructor; rewrite ?elem_of_cons, ?elem_of_nil;
      intros H; repeat destruct H as [H|H]; try exact H; discriminate H.
  - intros w w' H. unfold test_facility_location in H.
    unfold FACILITY_SOLUTIONS, FACILITY_SOLUTION_ARGS in *. simpl in H.
    apply bind_ok in H as (w1 & [] & H1 & H).
    apply bind_ok in H as (w2 & [] & H2 & H).
    apply bind_ok in H as (w3 & [] & H3 & H).
    injection H as <-.
    apply facility_location_run_ok in H1 as (r1 & t1 & H1).
    apply facility_location_run_ok in H2 as (r2 & t2 & H2).
    apply facility_location_run_ok in H3 as (r3 & t3 & H3).
    rewrite H3, H2, H1. rewrite <- !app_assoc. simpl.
    eexists. split; [reflexivity|]. reflexivity.
Qed.

(** C8: when the instance file exists, [judge] starts exactly one child,
    which reads the instance on standard input and finds the solver
    output path in the variable SOLUTION of its environment; the score is
    the decoded, stripped standard output read as a float; when that text
    is not a float the [ValueError] of the parse comes out of [judge], and
    when the bytes do not decode the [UnicodeDecodeError] does; the run
    the judge is part of raises the same error in the world the judge
    left (no second child, no row); a clustering run reaches its judge
    when the output of the solver can be read as text, and otherwise
    ends before it with the [UnicodeDecodeError] of that read. *)
Theorem judge_protocol j inp out w input :
  fs w !! inp = Some input ->
  let call := judge_call input j out in
  let o := exec (calls w) call in
  let r := judge exec float_of_str decode j inp out w in
  stdin call = input
  /\ env call !! "SOLUTION" = Some out
  /\ calls r.1 = (calls w ++ [call])%list
  /\ (forall text score,
        decode (stdout o) = Some text ->
        float_of_str (strip text) = Some score -> r.2 = Ok score)
  /\ (forall text,
        decode (stdout o) = Some text ->
        float_of_str (strip text) = None ->
        r.2 = Raise (ValueError (Not_a_float (strip text))))
  /\ (decode (stdout o) = None -> r.2 = Raise UnicodeDecodeError)
  /\ (forall w0 solution args t w' e,
        solve exec inp solution args w0 = (w, Ok (out, t)) ->
        (judge exec float_of_str decode (FACILITY_JUDGE Zexp) inp out w
           = (w', Raise e) ->
         facility_location_run Zexp exec float_of_str format_4f decode
           inp solution args w0 = (w', Raise e)
         /\ results w' = results w0)
        /\ ((exists content text,
               fs w !! out = Some content
               /\ locale_decode content = Some text) ->
            judge exec float_of_str decode (CLUSTERING_JUDGE Zexp) inp out w
              = (w', Raise e) ->
            clustering_run Zexp exec float_of_str format_4f decode
              locale_decode inp solution args w0 = (w', Raise e)
            /\ results w' = results w0)
        /\ (forall content,
              fs w !! out = Some content -> locale_decode content = None ->
              clustering_run Zexp exec float_of_str format_4f decode
                locale_decode inp solution args w0
              = (w, Raise UnicodeDecodeError)
              /\ results w = results w0)).
Proof.
  intros Hin call o r. subst r. rewrite (judge_run exec _ _ _ _ _ _ _ Hin).
  fold call. fold o. simpl.
  split; [reflexivity|]. split; [apply lookup_singleton_eq|].
  split; [reflexivity|].
  split; [|split; [|split]].
  - intros text score -> ->. reflexivity.
  - intros text -> ->. reflexivity.
  - intros ->. reflexivity.
  - intros w0 solution args t w' e Hs. split; [|split].
    + intros Hj.
      pose proof (judge_error_ends_facility_run Zexp exec float_of_str
                    format_4f decode _ _ _ _ _ _ _ _ _ Hs Hj) as Hrun.
      split; [exact Hrun|].
      eapply facility_location_run_raise, Hrun.
    + intros Htext Hj.
      pose proof (judge_error_ends_clustering_run Zexp exec float_of_str
                    format_4f decode locale_decode _ _ _ _ _ _ _ _ _
                    Hs Htext Hj) as Hrun.
      split; [exact Hrun|].
      eapply clustering_run_raise, Hrun.
    + intros content Hout Hdec.
      pose proof (undecodable_output_ends_clustering_run Zexp exec
                    float_of_str format_4f decode locale_decode _ _ _ _ _ _ _
                    _ Hs Hout Hdec) as Hrun.
      split; [exact Hrun|].
      eapply clustering_run_raise, Hrun.
Qed.

(** No solver is started under the name of a judge. *)
Lemma solver_is_not_judge solution args :
  In solution (FACILITY_SOLUTIONS Zexp ++ CLUSTERING_SOLUTIONS Zexp) ->
  path_join BUILD_DIR [solution] :: args
  <> [path_join BUILD_DIR [FACILITY_JUDGE Zexp]]
  /\ path_join BUILD_DIR [solution] :: args
     <> [path_join BUILD_DIR [CLUSTERING_JUDGE Zexp]].
Proof.
  unfold FACILITY_SOLUTIONS, CLUSTERING_SOLUTIONS, FACILITY_JUDGE,
    CLUSTERING_JUDGE.
  intros Hin. apply in_app_or in Hin.
  destruct (Zexp =? 1); simpl in Hin;
    repeat (destruct Hin as [Hin|Hin]); subst; try contradiction;
    split; intros H; discriminate H.
Qed.

(** Every judge of a whole run has SOLUTION and nothing else in its
    environment. *)
Lemma main_starts_judges csv_reader libm_pow target :
  starts (Spec.judge_isolated Zexp)
    (main Zexp exec float_of_str format_4f decode
       locale_decode csv_reader libm_pow target).
Proof.
  assert (forall inp,
            starts (Spec.judge_isolated Zexp)
              (test Zexp exec float_of_str format_4f decode
                 locale_decode target inp))
    as Htest.
  { intros inp. apply starts_test.
    - intros solution args input e Hin Hargv. simpl in Hargv.
      destruct (solver_is_not_judge solution args Hin) as [H1 H2].
      destruct Hargv; contradiction.
    - intros j input out _ _. now exists out. }
  unfold main. apply starts_bind; [|intros _; apply starts_bind].
  - destruct target; [now apply starts_none|].
    apply starts_bind; [apply starts_gen_iris | intros inp; apply Htest].
  - apply starts_for_each. intros size Hsize.
    apply starts_for_each. intros dimension Hdim.
    apply starts_bind; [|intros inp; apply Htest].
    assert (forall k, starts (Spec.judge_isolated Zexp)
                        (gen Zexp exec size dimension k)) as Hgen.
    { intros k. apply starts_gen. intros e [H|H]; discriminate H. }
    destruct target; [apply Hgen|].
    unfold sweep_input. apply starts_bind; [|intros k; apply Hgen].
    apply starts_none. intros w. unfold int_pow_half.
    destruct (PyFloat.trunc _); [reflexivity|].
    now destruct (PrimFloat.is_nan _).
  - intros _. destruct target; [now apply starts_none|].
    apply starts_bind; [apply starts_gen_imdb | intros inp; apply Htest].
Qed.
(** C9: every child [judge] starts runs in an environment that holds the
    variable SOLUTION, set to the solver output path, and nothing else,
    whatever the environment of the harness is; and in a whole run every
    child that runs a judge binary has such an environment. *)
Theorem judge_environment j inp out w :
  (exists new,
     calls (judge exec float_of_str decode j inp out w).1
       = (calls w ++ new)%list
     /\ (is_Some (fs w !! inp) -> length new = 1%nat)
     /\ Forall (fun call =>
                  env call = {[ "SOLUTION" := out ]}
                  /\ forall name value,
                       env call !! name = Some value ->
                       name = "SOLUTION" /\ value = out) new)
  /\ (forall csv_reader libm_pow target w0,
        exists new,
          calls (main Zexp exec float_of_str format_4f decode
             locale_decode csv_reader
                   libm_pow target w0).1 = (calls w0 ++ new)%list
          /\ Forall (Spec.judge_isolated Zexp) new).
Proof.
  split; [|intros csv_reader libm_pow target; apply main_starts_judges].
  destruct (fs w !! inp) as [input|] eqn:Hin.
  - rewrite (judge_run exec _ _ _ _ _ _ _ Hin). simpl.
    exists [judge_call input j out]. split; [reflexivity|].
    split; [reflexivity|]. constructor; [|constructor].
    split; [reflexivity|]. intros var val Hvar. simpl in Hvar.
    apply lookup_singleton_Some in Hvar as [<- <-]. auto.
  - rewrite (judge_missing exec _ _ _ _ _ _ Hin). simpl.
    exists []. rewrite app_nil_r. split; [reflexivity|].
    split; [intros [? ?]; discriminate | constructor].
Qed.

End Claims.

(** A completed facility-location run on the example world: one row of
    five fields; and a completed clustering run whose solver prints two
    centers, the first ended by a carriage return: one row of six
    fields, with the count 2. *)
Lemma recorder_row_shape_witness :
  (exists row,
     results
       (facility_location_run 1 Demo.exec_ok Demo.float_of_str Demo.format_4f
          Demo.decode "data/gen/gen_n100_d2.in" "mettu_plaxton_z1" []
          Demo.world0).1
     = (results Demo.world0 ++ [row])%list /\ length row = 5%nat)
  /\ (exists row,
        results
          (clustering_run 1
             (Demo.exec_prints
                ("1 2" ++ String carriage_return "" ++ "3 4" ++ nl))
             Demo.float_of_str Demo.format_4f Demo.decode Demo.locale_decode
             "data/gen/gen_n100_d2.in" "clustering_z1"
             ["grid_hashing"; "60042651f648e052"] Demo.world0).1
        = (results Demo.world0 ++ [row])%list
        /\ length row = 6%nat /\ row !! 3%nat = Some (CInt 2)).
Proof.
  split.
  - apply (proj1 (recorder_row_shape 1 Demo.exec_ok Demo.float_of_str
                    Demo.format_4f Demo.decode Demo.locale_decode
                    "data/gen/gen_n100_d2.in" "mettu_plaxton_z1" []
                    Demo.world0)).
    rewrite (surjective_pairing (facility_location_run _ _ _ _ _ _ _ _ _))
      at 1.
    f_equal.
  - destruct (proj1 (proj2
                (recorder_row_shape 1
                   (Demo.exec_prints
                      ("1 2" ++ String carriage_return "" ++ "3 4" ++ nl))
                   Demo.float_of_str Demo.format_4f Demo.decode
                   Demo.locale_decode "data/gen/gen_n100_d2.in"
                   "clustering_z1" ["grid_hashing"; "60042651f648e052"]
                   Demo.world0))
                (clustering_run 1
                   (Demo.exec_prints
                      ("1 2" ++ String carriage_return "" ++ "3 4" ++ nl))
                   Demo.float_of_str Demo.format_4f Demo.decode
                   Demo.locale_decode "data/gen/gen_n100_d2.in"
                   "clustering_z1" ["grid_hashing"; "60042651f648e052"]
                   Demo.world0).1)
      as (row & content & text & Hrow & Hlen & Hfile & Hdec & Hcount).
    + rewrite (surjective_pairing (clustering_run _ _ _ _ _ _ _ _ _ _)) at 1.
      f_equal.
    + vm_compute in Hfile. injection Hfile as <-.
      injection Hdec as <-.
      exists row. split; [exact Hrow|]. split; [exact Hlen|].
      rewrite Hcount. reflexivity.
Defined.

(** The same solver output in a locale whose encoding is ASCII, with a
    byte above the ASCII range: the read of the output raises and no row
    is written. *)
Example undecodable_output_example :
  let run :=
    clustering_run 1 (Demo.exec_prints (String (ascii_of_nat 255) nl))
      Demo.float_of_str Demo.format_4f Demo.decode Demo.ascii_decode
      "data/gen/gen_n100_d2.in" "clustering_z1"
      ["grid_hashing"; "60042651f648e052"] Demo.world0 in
  run.2 = Raise UnicodeDecodeError /\ results run.1 = [] /\
  length (calls run.1) = 1%nat.
Proof. cbv zeta. repeat split; vm_compute; reflexivity. Qed.

(** C1 as the specification words it (4 fields for facility location, 5
    for clustering) fails on the example world: the rows have 5 and 6
    fields. *)
Lemma recorder_row_shape_counterexample :
  ~ (forall w',
       facility_location_run 1 Demo.exec_ok Demo.float_of_str Demo.format_4f
         Demo.decode "data/gen/gen_n100_d2.in" "mettu_plaxton_z1" []
         Demo.world0 = (w', Ok tt) ->
       exists row,
         results w' = (results Demo.world0 ++ [row])%list
         /\ length row = 4%nat)
  /\ ~ (forall w',
       clustering_run 1 Demo.exec_ok Demo.float_of_str Demo.format_4f
         Demo.decode Demo.locale_decode "data/gen/gen_n100_d2.in" "clustering_z1"
         ["grid_hashing"; "60042651f648e052"] Demo.world0 = (w', Ok tt) ->
       exists row,
         results w' = (results Demo.world0 ++ [row])%list
         /\ length row = 5%nat).
Proof.
  split; intros H.
  - destruct (H (facility_location_run 1 Demo.exec_ok Demo.float_of_str
                   Demo.format_4f Demo.decode "data/gen/gen_n100_d2.in"
                   "mettu_plaxton_z1" [] Demo.world0).1)
      as (row & Hrow & Hlen).
    + rewrite (surjective_pairing
                 (facility_location_run _ _ _ _ _ _ _ _ _)) at 1.
      f_equal.
    + vm_compute in Hrow. injection Hrow as <-. discriminate Hlen.
  - destruct (H (clustering_run 1 Demo.exec_ok Demo.float_of_str
                   Demo.format_4f Demo.decode Demo.locale_decode "data/gen/gen_n100_d2.in"
                   "clustering_z1" ["grid_hashing"; "60042651f648e052"]
                   Demo.world0).1)
      as (row & Hrow & Hlen).
    + rewrite (surjective_pairing (clustering_run _ _ _ _ _ _ _ _ _ _)) at 1.
      f_equal.
    + vm_compute in Hrow. injection Hrow as <-. discriminate Hlen.
Qed.

(** C2 at the failing input: with binaries that all exit with status 1,
    [gen] and [solve] raise [AssertionError], but [judge] returns the score
    the judge printed; and when only the judge binary exits with status 1,
    [test_facility_location] completes and records its three rows. *)
Theorem judge_exit_status_unchecked :
  let inp := "data/gen/gen_n100_d2.in" in
  let out := "data/gen/gen_n100_d2.mettu_plaxton_z1..out" in
  let judge_path := "build/facility_set_cost_z1" in
  (gen 1 Demo.exec_exit1 100 2 1 Demo.world0).2 = Raise AssertionError
  /\ (solve Demo.exec_exit1 inp "mettu_plaxton_z1" [] Demo.world0).2
     = Raise AssertionError
  /\ returncode
       (Demo.exec_exit1 [] (judge_call ("2 2 1" ++ nl)
                              "facility_set_cost_z1" out)) = 1
  /\ is_ok (judge Demo.exec_exit1 Demo.float_of_str Demo.decode
              "facility_set_cost_z1" inp out Demo.world0).2 = true
  /\ (let r := test_facility_location 1 (Demo.exec_judge_exit1 judge_path)
                 Demo.float_of_str Demo.format_4f Demo.decode inp
                 Demo.world0 in
      r.2 = Ok tt /\ length (results r.1) = 3%nat
      /\ Forall (fun call =>
                   argv call = [judge_path] ->
                   returncode (Demo.exec_judge_exit1 judge_path [] call) = 1)
           (calls r.1)
      /\ length (List.filter (fun call =>
                   bool_decide (argv call = [judge_path])) (calls r.1))
         = 3%nat).
Proof.
  cbv zeta. repeat split; try (vm_compute; reflexivity).
  apply Forall_forall. intros call _ Hargv.
  unfold Demo.exec_judge_exit1. rewrite bool_decide_eq_true_2 by exact Hargv.
  reflexivity.
Qed.

(** The three rows of the example world. *)
Lemma output_path_determined_witness :
  exists rows,
    results (test_facility_location 1 Demo.exec_ok Demo.float_of_str
               Demo.format_4f Demo.decode "data/gen/gen_n100_d2.in"
               Demo.world0).1
    = (results Demo.world0 ++ rows)%list
    /\ map (take 3) rows =
       [ [CStr "gen_n100_d2.in"; CStr "mettu_plaxton_z1"; CStr ""];
         [CStr "gen_n100_d2.in"; CStr "facility_set_z1";
          CStr "grid_hashing 60042651f648e052"];
         [CStr "gen_n100_d2.in"; CStr "facility_set_z1";
          CStr "face_hashing 60042651f648e052"] ].
Proof.
  apply (proj2 (proj2 (proj2 (proj2
    (output_path_determined 1 Demo.exec_ok Demo.float_of_str Demo.format_4f
       Demo.decode "data/gen/gen_n100_d2.in"))))).
  rewrite (surjective_pairing (test_facility_location _ _ _ _ _ _ _)) at 1.
  f_equal.
Defined.

(** The judge protocol on the example world. *)
Lemma judge_protocol_witness :
  calls (judge Demo.exec_ok Demo.float_of_str Demo.decode
           "facility_set_cost_z1" "data/gen/gen_n100_d2.in" "s.out"
           Demo.world0).1
  = [judge_call ("2 2 1" ++ nl) "facility_set_cost_z1" "s.out"].
Proof.
  exact (proj1 (proj2 (proj2
    (judge_protocol 1 Demo.exec_ok Demo.float_of_str Demo.format_4f
       Demo.decode Demo.locale_decode "facility_set_cost_z1"
       "data/gen/gen_n100_d2.in" "s.out" Demo.world0 ("2 2 1" ++ nl)
       eq_refl)))).
Defined.

End HarnessClaims.

(** ** The sweep of the sizes *)

Module SweepClaims.
Import Py Harness StFacts HarnessFacts CallFacts Preds.

(** Truncating any faithful rounding of the root of a sweep size gives
    the integer square root. *)
Lemma trunc_faithful_sqrt (n : Z) (r : PrimFloat.float) :
  In n SIZES -> PyFloat.faithful_sqrt n r -> PyFloat.trunc r = Some (Z.sqrt n).
Proof.
  unfold SIZES. simpl. intros Hn Hr.
  repeat (destruct Hn as [<-|Hn];
    [destruct Hr as [->|[[-> Hc]|[-> Hc]]];
     try (vm_compute in Hc; discriminate Hc); vm_compute; reflexivity|]).
  contradiction.
Qed.

Section Claims.

Variable Zexp : Z.
Variable exec : list Invocation -> Invocation -> Outcome.
Variable float_of_str : string -> option PrimFloat.float.
Variable format_4f : PrimFloat.float -> string.
Variable decode : string -> option string.
Variable locale_decode : string -> option string.
Variable csv_reader : string -> option (list (list string)).
Variable libm_pow : PrimFloat.float -> PrimFloat.float -> PrimFloat.float.

Section Faithful.

Hypothesis pow_faithful :
  Forall (fun n =>
            PyFloat.faithful_sqrt n
              (libm_pow (PyFloat.float_of_int n) PyFloat.half)) SIZES.

(** The [if]/[elif] of the sweep calls [gen] with the parameter of the
    target. *)
Lemma sweep_input_gen target size dimension w :
  In size SIZES ->
  sweep_input Zexp exec libm_pow target size dimension w
  = gen Zexp exec size dimension (Spec.sweep_parameter_of target size) w.
Proof.
  intros Hsize. destruct target; [reflexivity|].
  unfold sweep_input, int_pow_half. simpl.
  pose proof pow_faithful as Hpow. rewrite Forall_forall in Hpow.
  rewrite (trunc_faithful_sqrt size _ Hsize
             (Hpow size (proj2 (list_elem_of_In _ _) Hsize))).
  reflexivity.
Qed.

(** No solver is started under the name of the generator. *)
Lemma solver_is_not_generator solution args :
  In solution (FACILITY_SOLUTIONS Zexp ++ CLUSTERING_SOLUTIONS Zexp) ->
  path_join BUILD_DIR [solution] :: args
  <> [path_join BUILD_DIR [GENERATOR Zexp]].
Proof.
  unfold FACILITY_SOLUTIONS, CLUSTERING_SOLUTIONS, GENERATOR.
  intros Hin H. apply in_app_or in Hin.
  destruct (Zexp =? 1); simpl in Hin;
    repeat (destruct Hin as [Hin|Hin]); subst; try contradiction;
    discriminate H.
Qed.

(** Every generator of a whole run is fed a sweep size, a sweep
    dimension and the parameter of the target. *)
Lemma main_starts_generators target :
  starts (Spec.generator_fed Zexp target)
    (main Zexp exec float_of_str format_4f decode
       locale_decode csv_reader libm_pow target).
Proof.
  assert (forall inp,
            starts (Spec.generator_fed Zexp target)
              (test Zexp exec float_of_str format_4f decode
                 locale_decode target inp))
    as Htest.
  { intros inp. apply starts_test.
    - intros solution args input e Hin Hargv. simpl in Hargv.
      now apply solver_is_not_generator in Hargv.
    - intros j input out [->| ->] Hargv; discriminate Hargv. }
  unfold main. apply starts_bind; [|intros _; apply starts_bind].
  - destruct target; [now apply starts_none|].
    apply starts_bind; [|intros inp; apply Htest].
    apply starts_gen_iris.
  - apply starts_for_each. intros size Hsize.
    apply starts_for_each. intros dimension Hdim.
    apply starts_bind; [|intros inp; apply Htest].
    intros w. rewrite (sweep_input_gen target size dimension w Hsize).
    revert w. apply starts_gen. intros e _. exists size, dimension.
    split; [exact Hsize|]. split; [exact Hdim | reflexivity].
  - intros _. destruct target; [now apply starts_none|].
    apply starts_bind; [|intros inp; apply Htest].
    apply starts_gen_imdb.
Qed.

(** [gen] feeds its generator one line. *)
Lemma gen_feeds size dimension k :
  feeds Zexp [str size ++ " " ++ str dimension ++ " " ++ str k ++ nl]
    (gen Zexp exec size dimension k).
Proof.
  intros w. rewrite gen_run. cbv zeta.
  exists [generator_call Zexp w size dimension k]. split; [reflexivity|].
  assert (generator_lines Zexp [generator_call Zexp w size dimension k]
          = [str size ++ " " ++ str dimension ++ " " ++ str k ++ nl]) as ->.
  { unfold generator_lines, is_generator. cbn [List.filter].
    rewrite bool_decide_eq_true_2 by reflexivity. reflexivity. }
  cbn [snd]. destruct (returncode _ =? 0); [reflexivity | now exists []].
Qed.

(** The tests of an instance start no generator. *)
Lemma test_feeds target inp :
  feeds Zexp []
    (test Zexp exec float_of_str format_4f decode locale_decode target inp).
Proof.
  apply feeds_none, starts_test.
  - intros solution args input e Hin. unfold is_generator.
    apply bool_decide_eq_false_2. cbn [argv].
    now apply solver_is_not_generator.
  - intros j input out [->| ->]; unfold is_generator;
      apply bool_decide_eq_false_2; intros H; discriminate H.
Qed.

(** The generators of a whole run are fed the lines of the sweep. *)
Lemma main_feeds target :
  feeds Zexp (Spec.sweep_lines target)
    (main Zexp exec float_of_str format_4f decode locale_decode csv_reader
       libm_pow target).
Proof.
  assert (forall m : M string,
            starts (fun call => is_generator Zexp call = false) m ->
            feeds Zexp ([] ++ []) (m ≫= test Zexp exec float_of_str format_4f
                                       decode locale_decode target))
    as Hdata.
  { intros m Hm. apply feeds_bind; [now apply feeds_none|].
    intros inp. apply test_feeds. }
  unfold main.
  change (Spec.sweep_lines target)
    with ([] ++ Spec.sweep_lines target ++ [])%list at 1.
  rewrite app_nil_r. apply feeds_bind; [|intros _].
  - destruct target.
    + apply feeds_none. now apply starts_none.
    + apply (Hdata gen_iris). apply starts_gen_iris.
  - rewrite <- (app_nil_r (Spec.sweep_lines target)).
    apply feeds_bind; [|intros _].
    + unfold Spec.sweep_lines. apply feeds_for_each. intros size Hsize.
      apply feeds_for_each. intros dimension _.
      apply (feeds_bind Zexp [_] []); [|intros inp; apply test_feeds].
      intros w. rewrite (sweep_input_gen target size dimension w Hsize).
      apply gen_feeds.
    + destruct target.
      * apply feeds_none. now apply starts_none.
      * apply (Hdata (gen_imdb csv_reader)). apply starts_gen_imdb.
Qed.

End Faithful.

(** C10: on a C library whose [pow] rounds the square roots of the sweep
    sizes faithfully (an error below one unit in the last place), for
    every size of the sweep the clustering target calls [gen] with the
    parameter [Z.sqrt size], the floor of the square root, and the
    facility-location target with the fixed cost 1; [gen] feeds the
    generator the size, the dimension and that parameter on one line of
    standard input; every generator a whole run starts is fed a sweep
    size, a sweep dimension and the parameter of the target for that
    size; and a whole run that returns has started the generator once
    for each of the 27 pairs of a size and a dimension of the sweep, in
    the order of the loops, each fed its line, and no other generator; a
    run that raises has started the generators of the first pairs. *)
Theorem sweep_parameter target :
  Forall (fun n =>
            PyFloat.faithful_sqrt n
              (libm_pow (PyFloat.float_of_int n) PyFloat.half)) SIZES ->
  (forall size dimension w,
     In size SIZES ->
     sweep_input Zexp exec libm_pow target size dimension w
     = gen Zexp exec size dimension
         (match target with fl => 1 | cl => Z.sqrt size end) w)
  /\ (forall size dimension k w,
        calls (gen Zexp exec size dimension k w).1
          = (calls w ++ [generator_call Zexp w size dimension k])%list
        /\ stdin (generator_call Zexp w size dimension k)
           = str size ++ " " ++ str dimension ++ " " ++ str k ++ nl)
  /\ (forall w,
        exists new,
          calls (main Zexp exec float_of_str format_4f decode locale_decode
                   csv_reader libm_pow target w).1 = (calls w ++ new)%list
          /\ Forall (Spec.generator_fed Zexp target) new)
  /\ (forall w,
        let run := main Zexp exec float_of_str format_4f decode
                     locale_decode csv_reader libm_pow target w in
        exists new,
          calls run.1 = (calls w ++ new)%list
          /\ match run.2 with
             | Ok _ => generator_lines Zexp new = Spec.sweep_lines target
             | Raise _ =>
                 exists rest,
                   Spec.sweep_lines target
                   = (generator_lines Zexp new ++ rest)%list
             end)
  /\ length (Spec.sweep_lines target)
     = (length SIZES * length DIMENSIONS)%nat
  /\ Spec.sweep_lines fl !! 0%nat = Some ("100 2 1" ++ nl)
  /\ Spec.sweep_lines cl !! 26%nat = Some ("1000000 10 1000" ++ nl).
Proof.
  intros Hpow. split; [|split; [|split; [|split; [|split; [|split]]]]];
    [| | | |now destruct target|reflexivity|reflexivity].
  - intros size dimension w Hsize.
    rewrite (sweep_input_gen Hpow target size dimension w Hsize).
    now destruct target.
  - intros size dimension k w. rewrite gen_run. split; reflexivity.
  - apply (main_starts_generators Hpow).
  - intros w. cbv zeta. apply (main_feeds Hpow).
Qed.

End Claims.

(** The sweep parameter for the size 500 with a correctly rounded square
    root, and a whole facility-location run with binaries that succeed:
    it returns, and its generators were fed the 27 lines of the sweep. *)
Lemma sweep_parameter_witness :
  sweep_input 1 Demo.exec_ok Demo.libm_pow cl 500 2 Demo.world0
  = gen 1 Demo.exec_ok 500 2 22 Demo.world0
  /\ (let run := main 1 Demo.exec_ok Demo.float_of_str Demo.format_4f
                   Demo.decode Demo.locale_decode Demo.csv_reader
                   Demo.libm_pow fl Demo.world0 in
      run.2 = Ok tt
      /\ generator_lines 1 (calls run.1) = Spec.sweep_lines fl).
Proof.
  assert (Forall (fun n =>
                    PyFloat.faithful_sqrt n
                      (Demo.libm_pow (PyFloat.float_of_int n) PyFloat.half))
            SIZES) as Hpow.
  { unfold SIZES. repeat constructor. }
  split.
  - refine (proj1 (sweep_parameter 1 Demo.exec_ok Demo.float_of_str
                     Demo.format_4f Demo.decode Demo.locale_decode
                     Demo.csv_reader Demo.libm_pow cl Hpow)
              500 2 Demo.world0 _).
    unfold SIZES. simpl. tauto.
  - cbv zeta.
    assert ((main 1 Demo.exec_ok Demo.float_of_str Demo.format_4f
               Demo.decode Demo.locale_decode Demo.csv_reader Demo.libm_pow
               fl Demo.world0).2 = Ok tt) as Hok by (vm_compute; reflexivity).
    split; [exact Hok|].
    destruct (proj1 (proj2 (proj2 (proj2
                (sweep_parameter 1 Demo.exec_ok Demo.float_of_str
                   Demo.format_4f Demo.decode Demo.locale_decode
                   Demo.csv_reader Demo.libm_pow fl Hpow)))) Demo.world0)
      as (new & Hnew & Hlines).
    cbv zeta in Hnew, Hlines. rewrite Hok in Hlines.
    rewrite Hnew. exact Hlines.
Defined.

End SweepClaims.

(** ** The two datasets *)

Module DatasetClaims.
Import Py Harness StFacts HarnessFacts Preds DecimalFacts LineFacts.



Section Claims.
Variable csv_reader : string -> option (list (list string)).


End Claims.



End DatasetClaims.

(** ** The plot renderer *)

Module GraphsFacts.
Import Py Graphs StFacts Preds DecimalFacts LineFacts.

Lemma dict_get_append_eq {K V : Type} `{EqDecision K} (k : K) (v : V)
    (d : list (K * list V)) :
  dict_get k (dict_append k v d) = (dict_get k d ++ [v])%list.
Proof.
  induction d as [|[k' vs] rest IH]; simpl.
  - now rewrite decide_True.
  - destruct (decide (k = k')) as [->|Hne]; simpl.
    + now rewrite decide_True.
    + now rewrite decide_False.
Qed.

Lemma dict_get_append_ne {K V : Type} `{EqDecision K} (k k0 : K) (v : V)
    (d : list (K * list V)) :
  k0 <> k -> dict_get k0 (dict_append k v d) = dict_get k0 d.
Proof.
  intros Hne. induction d as [|[k' vs] rest IH]; simpl.
  - now rewrite decide_False.
  - destruct (decide (k = k')) as [->|Hne']; simpl.
    + now rewrite !decide_False.
    + destruct (decide (k0 = k')); [reflexivity | exact IH].
Qed.

Lemma entries_append {K V : Type} `{EqDecision K} (k : K) (v : V)
    (d : list (K * list V)) :
  length (entries (dict_append k v d)) = S (length (entries d)).
Proof.
  unfold entries. induction d as [|[k' vs] rest IH]; simpl; [reflexivity|].
  destruct (decide (k = k')); simpl.
  - rewrite !length_app. simpl. lia.
  - rewrite !length_app, IH. lia.
Qed.

Section Facts.
Variable float_of_str : string -> option PrimFloat.float.

Lemma add_rows_app st before after :
  add_rows float_of_str st (before ++ after)
  = st' ← add_rows float_of_str st before; add_rows float_of_str st' after.
Proof.
  revert st. induction before as [|line rest IH]; intros st; simpl;
    [reflexivity|].
  destruct (add_row float_of_str st line) as [st'|e]; simpl; [apply IH|].
  reflexivity.
Qed.

(** A row the loop body leaves the buckets alone on can be taken out of
    the file. *)
Lemma add_rows_skip st before line after :
  (forall st', add_row float_of_str st' line = Ok st') ->
  add_rows float_of_str st (before ++ line :: after)
  = add_rows float_of_str st (before ++ after).
Proof.
  intros Hskip. rewrite !add_rows_app.
  destruct (add_rows float_of_str st before) as [st'|e]; simpl;
    [|reflexivity].
  now rewrite Hskip.
Qed.

(** The loop body on a row whose solver is classified, by the name of
    the instance. *)
Lemma add_row_classified by_dimension by_size inp solution args params shown :
  classify solution (split_ws args) = Ok shown ->
  add_row float_of_str (by_dimension, by_size)
    (inp :: solution :: args :: params)
  = if startswith "gen" inp then
      '(n, d) ← name_fields inp;
      ps ← floats float_of_str params;
      Ok (dict_append d {| x := n; label := shown; params := ps |}
            by_dimension,
          dict_append n {| x := d; label := shown; params := ps |} by_size)
    else Ok (by_dimension, by_size).
Proof.
  intros Hclass. unfold add_row, name_fields. rewrite Hclass.
  unfold mbind at 1, res_bind at 1.
  destruct (startswith "gen" inp); [|reflexivity].
  destruct (split "_" (replace "." "_" inp)) as [|a [|n [|d [|b [|? ?]]]]];
    try reflexivity.
  destruct (int (tail n)) as [n'|]; [|reflexivity].
  destruct (int (tail d)) as [d'|]; reflexivity.
Qed.

(** The errors of reading the numeric fields are [ValueError]s. *)
Lemma floats_raise params e :
  floats float_of_str params = Raise e -> exists why, e = ValueError why.
Proof.
  unfold floats. revert e.
  induction params as [|p rest IH]; intros e; simpl; [discriminate|].
  destruct (float_of_str p); simpl; [|intros [= <-]; eauto].
  destruct (map_res _ rest) as [vs|e2]; simpl; [discriminate|].
  intros [= <-]. now apply IH.
Qed.

End Facts.

(** The errors of reading a name are [ValueError]s. *)
Lemma name_fields_raise inp e :
  name_fields inp = Raise e -> exists why, e = ValueError why.
Proof.
  unfold name_fields.
  destruct (split "_" (replace "." "_" inp)) as [|a [|n [|d [|b [|? ?]]]]];
    try (intros [= <-]; eauto).
  destruct (int (tail n)) as [n'|]; [|intros [= <-]; eauto].
  destruct (int (tail d)) as [d'|]; [discriminate | intros [= <-]; eauto].
Qed.

(** Replacing a character leaves a part free of it alone. *)
Lemma replace_from_free (c0 : ascii) (new a b : string) :
  all_chars (is_not c0) a = true ->
  replace_from (String c0 "") new 0 (a ++ b)
  = a ++ replace_from (String c0 "") new 0 b.
Proof.
  induction a as [|c r IH]; [reflexivity|].
  simpl. rewrite andb_true_iff. intros [Hc Hr].
  change (String c r ++ b) with (String c (r ++ b)).
  change (String c r ++ replace_from (String c0 "") new 0 b)
    with (String c (r ++ replace_from (String c0 "") new 0 b)).
  rewrite <- (IH Hr). simpl.
  destruct (ascii_dec c0 c) as [->|_]; [|reflexivity].
  unfold is_not in Hc. now rewrite Ascii.eqb_refl in Hc.
Qed.

(** The name [gen] gives an instance, taken apart as [plot_file] does. *)
Lemma gen_name_parts (size dimension : Z) :
  split "_" (replace "." "_"
               ("gen_n" ++ str size ++ "_d" ++ str dimension ++ ".in"))
  = ["gen"; "n" ++ str size; "d" ++ str dimension; "in"].
Proof.
  unfold replace. cbn [is_empty].
  rewrite (replace_from_free "." "_" "gen_n") by reflexivity.
  rewrite (replace_from_free "." "_" (str size)) by now apply str_free.
  rewrite (replace_from_free "." "_" "_d") by reflexivity.
  rewrite (replace_from_free "." "_" (str dimension)) by now apply str_free.
  change (replace_from "." "_" 0 ".in") with "_in".
  change ("gen_n" ++ str size ++ "_d" ++ str dimension ++ "_in")
    with ("gen" ++ String "_" ("n" ++ str size ++ "_d" ++ str dimension ++ "_in")).
  rewrite split_app by reflexivity. f_equal.
  replace ("n" ++ str size ++ "_d" ++ str dimension ++ "_in")
    with (("n" ++ str size) ++ String "_" ("d" ++ str dimension ++ "_in"))
    by now rewrite append_assoc.
  rewrite split_app
    by (rewrite all_chars_app, str_free by reflexivity; reflexivity).
  f_equal.
  replace ("d" ++ str dimension ++ "_in")
    with (("d" ++ str dimension) ++ String "_" "in")
    by now rewrite append_assoc.
  rewrite split_app
    by (rewrite all_chars_app, str_free by reflexivity; reflexivity).
  reflexivity.
Qed.

(** The names of the generator read back, within the limit on the
    number of digits of [int]. *)
Lemma name_fields_gen (size dimension : Z) :
  (String.length (str size) <= MAX_STR_DIGITS)%nat ->
  (String.length (str dimension) <= MAX_STR_DIGITS)%nat ->
  name_fields ("gen_n" ++ str size ++ "_d" ++ str dimension ++ ".in")
  = Ok (size, dimension).
Proof.
  intros Hsize Hdim. unfold name_fields. rewrite gen_name_parts.
  change (tail ("n" ++ str size)) with (str size).
  change (tail ("d" ++ str dimension)) with (str dimension).
  now rewrite !int_str.
Qed.

Lemma saves_for_each {A : Type} (P : Figure -> Prop) (xs : list A)
    (body : A -> St (list Figure) unit) :
  (forall a, saves P (body a)) -> saves P (for_each xs body).
Proof.
  intros Hbody. induction xs as [|a rest IH]; intros saved; simpl.
  - exists []. rewrite app_nil_r. split; [reflexivity | constructor].
  - unfold mbind, St_bind. destruct (Hbody a saved) as (new1 & H1 & HP1).
    destruct (body a saved) as [saved1 [[]|e]]; simpl in H1; subst saved1.
    + destruct (IH (saved ++ new1)%list) as (new2 & H2 & HP2).
      exists (new1 ++ new2)%list. rewrite H2, app_assoc.
      split; [reflexivity | now apply Forall_app].
    + exists new1. split; [reflexivity | exact HP1].
Qed.

Section Render.
Variable float_of_str : string -> option PrimFloat.float.
Variable ax_plot : Series -> option exn.
Variable plt_savefig : Figure -> option exn.

(** The file of a figure is named after its title and its metric. *)
Lemma plot_instance_saves title values :
  saves (fun f => f_path f = path_join IMG_DIR [figname title (f_ylabel f)]
                  /\ f_title f = title)
    (plot_instance ax_plot plt_savefig title values).
Proof.
  unfold plot_instance. destruct values as [|first rest].
  - intros saved. exists []. rewrite app_nil_r.
    split; [reflexivity | constructor].
  - apply saves_for_each. intros [val_number val_name] saved.
    unfold mbind, St_bind, lift, savefig.
    destruct (map_res _ _) as [series|e]; simpl.
    + destruct (plt_savefig _); simpl.
      * exists []. rewrite app_nil_r. split; [reflexivity | constructor].
      * eexists [_]. split; [reflexivity|]. repeat constructor.
    + exists []. rewrite app_nil_r. split; [reflexivity | constructor].
Qed.
End Render.

End GraphsFacts.

Module GraphsClaims.
Import Py Graphs StFacts Preds DecimalFacts LineFacts GraphsFacts Spec.

Lemma NoDup_map_injective {A B : Type} (f : A -> B) (l : list A) (a b : A) :
  NoDup (map f l) -> In a l -> In b l -> f a = f b -> a = b.
Proof.
  induction l as [|c l IH]; simpl; [contradiction|].
  rewrite NoDup_cons. intros [Hc Hl] [<-|Ha] [<-|Hb] Hf; auto.
  - exfalso. apply Hc. rewrite Hf. apply list_elem_of_In. now apply in_map.
  - exfalso. apply Hc. rewrite <- Hf. apply list_elem_of_In. now apply in_map.
Qed.

Section Claims.
Variable float_of_str : string -> option PrimFloat.float.
Variable ax_plot : Series -> option exn.
Variable plt_savefig : Figure -> option exn.

(** C3: a row whose argument field splits into exactly two tokens, the
    first of which is neither grid_hashing nor face_hashing, gets no
    display name: its classification raises the [ValueError] with the text
    "Unrecognized argument: " followed by the token, whatever the solver
    field is; so do the loop body, the loop over a file whose earlier
    rows went through, and [plot_file], which then saves no figure. *)
Theorem unrecognized_argument_raises inp solution args params st :
  length (split_ws args) = 2%nat ->
  let tok := hd "" (split_ws args) in
  let line := inp :: solution :: args :: params in
  tok <> "grid_hashing" -> tok <> "face_hashing" ->
  classify solution (split_ws args)
    = Raise (ValueError (Unrecognized_argument tok))
  /\ message (Unrecognized_argument tok)
     = Some ("Unrecognized argument: " ++ tok)
  /\ add_row float_of_str st line
     = Raise (ValueError (Unrecognized_argument tok))
  /\ (forall st0 st1 before after,
        add_rows float_of_str st0 before = Ok st1 ->
        add_rows float_of_str st0 (before ++ line :: after)
        = Raise (ValueError (Unrecognized_argument tok)))
  /\ (forall filename st1 before after saved,
        is_ok (plot_name filename) = true ->
        add_rows float_of_str ([], []) before = Ok st1 ->
        plot_file float_of_str ax_plot plt_savefig filename
          (before ++ line :: after) saved
        = (saved, Raise (ValueError (Unrecognized_argument tok)))).
Proof.
  intros Hlen tok line Hgrid Hface.
  assert (classify solution (split_ws args)
          = Raise (ValueError (Unrecognized_argument tok))) as Hclass.
  { unfold classify, tok. rewrite Hlen. simpl.
    destruct (split_ws args) as [|a0 rest]; [discriminate Hlen|]. simpl in *.
    destruct (String.eqb a0 "grid_hashing") eqn:E1;
      [apply String.eqb_eq in E1; contradiction|].
    destruct (String.eqb a0 "face_hashing") eqn:E2;
      [apply String.eqb_eq in E2; contradiction|].
    reflexivity. }
  assert (forall st', add_row float_of_str st' line
          = Raise (ValueError (Unrecognized_argument tok))) as Hrow.
  { intros [bd bs]. unfold add_row, line. now rewrite Hclass. }
  split; [exact Hclass|]. split; [reflexivity|]. split; [apply Hrow|].
  assert (forall st0 st1 before after,
            add_rows float_of_str st0 before = Ok st1 ->
            add_rows float_of_str st0 (before ++ line :: after)
            = Raise (ValueError (Unrecognized_argument tok))) as Hrows.
  { intros st0 st1 before after Hbefore.
    rewrite add_rows_app, Hbefore. simpl. now rewrite Hrow. }
  split; [exact Hrows|].
  intros filename st1 before after saved Hname Hbefore.
  unfold plot_file, lift. unfold mbind at 1, St_bind.
  destruct (plot_name filename) as [name|e]; [|discriminate Hname].
  unfold mbind at 1, St_bind. now rewrite (Hrows _ _ _ _ Hbefore).
Qed.

(** C5, as amended: of the rows whose solver is classified, a row whose
    instance name does not start with gen is skipped (the buckets are
    left as they were, and the file without the row gives the same
    buckets and the same plots); a row whose instance name starts with
    gen is taken for a row of the generator: when the name, its dots
    replaced by underscores, splits at the underscores into four parts
    whose second and third, without their first character, read as the
    integers [size] and [dimension], and the parameters read as floats,
    the row is appended to the bucket [dimension] of [by_dimension] and
    to the bucket [size] of [by_size] and to no other bucket, each
    dictionary gaining exactly one entry; otherwise the loop body
    raises a [ValueError] and the row is in no bucket.  The names of the
    generator, gen_n<size>_d<dimension>.in, are read as their size and
    dimension when these print in at most 4300 characters; names such as
    gen_x100_y2.in are read as well. *)
Theorem bucket_placement by_dimension by_size inp solution args params shown :
  classify solution (split_ws args) = Ok shown ->
  let line := inp :: solution :: args :: params in
  (startswith "gen" inp = false ->
     add_row float_of_str (by_dimension, by_size) line
       = Ok (by_dimension, by_size)
     /\ (forall st before after,
          add_rows float_of_str st (before ++ line :: after)
          = add_rows float_of_str st (before ++ after))
     /\ (forall filename before after,
          plot_file float_of_str ax_plot plt_savefig filename
            (before ++ line :: after)
          = plot_file float_of_str ax_plot plt_savefig filename
              (before ++ after)))
  /\ (forall size dimension ps,
     startswith "gen" inp = true ->
     name_fields inp = Ok (size, dimension) ->
     floats float_of_str params = Ok ps ->
     exists bd bs,
       add_row float_of_str (by_dimension, by_size) line = Ok (bd, bs)
       /\ dict_get dimension bd
          = (dict_get dimension by_dimension
             ++ [{| x := size; label := shown; params := ps |}])%list
       /\ (forall d, d <> dimension ->
              dict_get d bd = dict_get d by_dimension)
       /\ length (entries bd) = S (length (entries by_dimension))
       /\ dict_get size bs
          = (dict_get size by_size
             ++ [{| x := dimension; label := shown; params := ps |}])%list
       /\ (forall n, n <> size -> dict_get n bs = dict_get n by_size)
       /\ length (entries bs) = S (length (entries by_size)))
  /\ (forall e,
     startswith "gen" inp = true ->
     name_fields inp = Raise e
     \/ (is_ok (name_fields inp) = true
         /\ floats float_of_str params = Raise e) ->
     (exists why, e = ValueError why)
     /\ (forall st, add_row float_of_str st line = Raise e)
     /\ (forall st0 st1 before after,
          add_rows float_of_str st0 before = Ok st1 ->
          add_rows float_of_str st0 (before ++ line :: after) = Raise e)
     /\ (forall filename st1 before after saved,
          is_ok (plot_name filename) = true ->
          add_rows float_of_str ([], []) before = Ok st1 ->
          plot_file float_of_str ax_plot plt_savefig filename
            (before ++ line :: after) saved
          = (saved, Raise e)))
  /\ (forall size dimension,
     inp = "gen_n" ++ str size ++ "_d" ++ str dimension ++ ".in" ->
     (String.length (str size) <= MAX_STR_DIGITS)%nat ->
     (String.length (str dimension) <= MAX_STR_DIGITS)%nat ->
     startswith "gen" inp = true
     /\ name_fields inp = Ok (size, dimension))
  /\ name_fields "gen_x100_y2.in" = Ok (100, 2)
  /\ name_fields "generic_a7_b5.csv" = Ok (7, 5).
Proof.
  intros Hclass line.
  assert (forall st, add_row float_of_str st line
          = if startswith "gen" inp then
              '(n, d) ← name_fields inp;
              ps ← floats float_of_str params;
              Ok (dict_append d {| x := n; label := shown; params := ps |}
                    st.1,
                  dict_append n {| x := d; label := shown; params := ps |}
                    st.2)
            else Ok st) as Hrow.
  { intros [bd bs]. now apply add_row_classified. }
  split; [|split; [|split; [|split; [|split]]]].
  - intros Hgen.
    assert (forall st', add_row float_of_str st' line = Ok st') as Hskip.
    { intros st'. now rewrite Hrow, Hgen. }
    split; [apply Hskip|]. split.
    + intros st before after. now apply add_rows_skip.
    + intros filename before after. unfold plot_file.
      now rewrite (add_rows_skip _ _ _ _ after Hskip).
  - intros size dimension ps Hgen Hname Hps.
    eexists _, _. split.
    { rewrite Hrow, Hgen, Hname. simpl. rewrite Hps. reflexivity. }
    split; [apply dict_get_append_eq|].
    split; [intros d Hd; now apply dict_get_append_ne|].
    split; [apply entries_append|].
    split; [apply dict_get_append_eq|].
    split; [intros n Hn; now apply dict_get_append_ne|].
    apply entries_append.
  - intros e Hgen Hwhy.
    assert (exists why, e = ValueError why) as He.
    { destruct Hwhy as [Hname|[_ Hps]];
        [now apply name_fields_raise in Hname | now apply floats_raise in Hps]. }
    assert (forall st, add_row float_of_str st line = Raise e) as Hraise.
    { intros st. rewrite Hrow, Hgen.
      destruct Hwhy as [Hname|[Hname Hps]].
      - now rewrite Hname.
      - destruct (name_fields inp) as [[n d]|e']; [|discriminate Hname].
        simpl. now rewrite Hps. }
    assert (forall st0 st1 before after,
              add_rows float_of_str st0 before = Ok st1 ->
              add_rows float_of_str st0 (before ++ line :: after) = Raise e)
      as Hrows.
    { intros st0 st1 before after Hbefore.
      rewrite add_rows_app, Hbefore. simpl. now rewrite Hraise. }
    split; [exact He|]. split; [exact Hraise|]. split; [exact Hrows|].
    intros filename st1 before after saved Hname Hbefore.
    unfold plot_file, lift. unfold mbind at 1, St_bind.
    destruct (plot_name filename) as [name|e']; [|discriminate Hname].
    unfold mbind at 1, St_bind. now rewrite (Hrows _ _ _ _ Hbefore).
  - intros size dimension -> Hsize Hdim.
    split; [reflexivity | now apply name_fields_gen].
  - vm_compute. reflexivity.
  - vm_compute. reflexivity.
Qed.

(** C6: the file of a figure of [plot_instance] is [figname] of the
    title and the metric name, a function of these two alone; the title
    of the specification with the metric "Time [s]" gives
    facility_location_time_d2_z1.svg; on the 36 configured charts (every
    title of the three files with every metric) distinct charts have
    distinct file names, and each name is made of lower-case letters,
    digits and underscores and ends in .svg. *)
Theorem figname_injective :
  (forall title values saved,
     exists new,
       (plot_instance ax_plot plt_savefig title values saved).1
       = (saved ++ new)%list
       /\ Forall (fun f =>
                    f_path f = path_join IMG_DIR [figname title (f_ylabel f)]
                    /\ f_title f = title) new)
  /\ figname "Facility Location (d=2, z=1)" "Time [s]"
     = "facility_location_time_d2_z1.svg"
  /\ length configured_charts = 36%nat
  /\ NoDup configured_charts
  /\ (forall a b,
        In a configured_charts -> In b configured_charts ->
        figname a.1 a.2 = figname b.1 b.2 -> a = b)
  /\ Forall (fun chart =>
               all_chars filename_char (figname chart.1 chart.2) = true
               /\ endswith ".svg" (figname chart.1 chart.2) = true)
       configured_charts.
Proof.
  split; [intros title values; apply plot_instance_saves|].
  split; [reflexivity|]. split; [reflexivity|].
  split; [apply (bool_decide_unpack _); vm_compute; reflexivity|].
  split.
  - intros a b. apply (NoDup_map_injective (fun c => figname c.1 c.2)).
    apply (bool_decide_unpack _). vm_compute. reflexivity.
  - apply (bool_decide_unpack _). vm_compute. reflexivity.
Qed.

End Claims.

(** An unknown first token on an example row. *)
Lemma unrecognized_argument_raises_witness :
  add_row Demo.float_of_str ([], [])
    ["gen_n100_d2.in"; "facility_set_z1"; "gridx_hashing 60042651f648e052";
     "1.5"; "0.25"]
  = Raise (ValueError (Unrecognized_argument "gridx_hashing")).
Proof.
  refine (proj1 (proj2 (proj2
    (unrecognized_argument_raises Demo.float_of_str Demo.ax_plot
       Demo.plt_savefig "gen_n100_d2.in"
       "facility_set_z1" "gridx_hashing 60042651f648e052" ["1.5"; "0.25"]
       ([], []) eq_refl _ _)))).
  - intros H. discriminate H.
  - intros H. discriminate H.
Defined.

(** A generator row on empty buckets: one entry in each dictionary. *)
Lemma bucket_placement_witness :
  exists bd bs,
    add_row Demo.float_of_str ([], [])
      ["gen_n100_d2.in"; "mettu_plaxton_z1"; ""; "1.5"; "0.25"]
    = Ok (bd, bs)
    /\ length (entries bd) = 1%nat /\ length (entries bs) = 1%nat.
Proof.
  destruct (proj1 (proj2 (bucket_placement Demo.float_of_str Demo.ax_plot
                     Demo.plt_savefig [] []
                     "gen_n100_d2.in" "mettu_plaxton_z1" "" ["1.5"; "0.25"]
                     "Mettu-Plaxton" eq_refl)) 100 2 _ eq_refl eq_refl eq_refl)
    as (bd & bs & Hrow & _ & _ & Hbd & _ & _ & Hbs).
  exists bd, bs. split; [exact Hrow|]. split; [exact Hbd | exact Hbs].
Defined.

(** C5 as the specification words it fails twice.  On the instance name
    gen.in: it is not a name of the generator, its solver is classified,
    and yet the row is not skipped: the loop body raises; nor is the
    row, which the test of [plot_file] takes for a generator row, put in
    a bucket.  On the instance name gen_x100_y2.in: it is not a name of
    the generator either, and the row is put in the buckets of the
    dimension 2 and of the size 100. *)
Lemma bucket_placement_counterexample :
  let line := ["gen.in"; "mettu_plaxton_z1"; ""; "1.5"; "0.25"] in
  let line2 := ["gen_x100_y2.in"; "mettu_plaxton_z1"; ""; "1.5"; "0.25"] in
  ~ Spec.synthetic_name "gen.in"
  /\ classify "mettu_plaxton_z1" (split_ws "") = Ok "Mettu-Plaxton"
  /\ add_row Demo.float_of_str ([], []) line
     = Raise (ValueError Unpack_mismatch)
  /\ ~ (~ Spec.synthetic_name "gen.in" ->
        add_row Demo.float_of_str ([], []) line = Ok ([], []))
  /\ ~ (startswith "gen" "gen.in" = true ->
        exists st, add_row Demo.float_of_str ([], []) line = Ok st)
  /\ ~ Spec.synthetic_name "gen_x100_y2.in"
  /\ (exists bd bs,
        add_row Demo.float_of_str ([], []) line2 = Ok (bd, bs)
        /\ map fst bd = [2] /\ map fst bs = [100])
  /\ ~ (~ Spec.synthetic_name "gen_x100_y2.in" ->
        add_row Demo.float_of_str ([], []) line2 = Ok ([], [])).
Proof.
  cbv zeta.
  assert (~ Spec.synthetic_name "gen.in") as Hname.
  { intros (size & dimension & H). discriminate H. }
  assert (~ Spec.synthetic_name "gen_x100_y2.in") as Hname2.
  { intros (size & dimension & H). discriminate H. }
  split; [exact Hname|]. split; [reflexivity|]. split; [reflexivity|].
  split; [|split; [|split; [exact Hname2|split]]].
  - intros H. specialize (H Hname). discriminate H.
  - intros H. destruct (H eq_refl) as [st Hst]. discriminate Hst.
  - eexists _, _. split; [vm_compute; reflexivity|]. split; reflexivity.
  - intros H. specialize (H Hname2). vm_compute in H. discriminate H.
Qed.

End GraphsClaims.

(** ** From the harness to the renderer: the argument field *)

Module RoundTrips.
Import Py Harness Graphs Preds DecimalFacts LineFacts GraphsFacts MorePreds.

Lemma split_ws_from_word (tok a rest : string) :
  all_chars not_space a = true ->
  split_ws_from tok (a ++ rest) = split_ws_from (tok ++ a) rest.
Proof.
  revert tok. induction a as [|c r IH]; intros tok.
  - intros _. now rewrite append_empty_r.
  - simpl. rewrite andb_true_iff. unfold not_space at 1.
    intros [Hc Hr]. apply negb_true_iff in Hc.
    change (String c r ++ rest) with (String c (r ++ rest)). simpl.
    rewrite Hc, (IH _ Hr).
    now rewrite append_assoc.
Qed.

Lemma is_empty_app (a b : string) :
  is_empty a = false -> is_empty (a ++ b) = false.
Proof. now destruct a. Qed.

(** X1: the argument field of a row, which the harness writes as the
    arguments joined by one space, splits back into the arguments in the
    renderer when none of them is empty or holds whitespace. *)
Theorem split_ws_join (args : list string) :
  Forall (fun a => is_empty a = false /\ all_chars not_space a = true) args ->
  split_ws (join " " args) = args.
Proof.
  unfold split_ws, join. induction 1 as [|a rest [Ha Hs] Hrest IH];
    [reflexivity|].
  destruct rest as [|b rest].
  - change (String.concat " " [a]) with a.
    rewrite <- (append_empty_r a) at 1.
    rewrite split_ws_from_word by exact Hs.
    change ("" ++ a) with a. cbn [split_ws_from]. now rewrite Ha.
  - change (String.concat " " (a :: b :: rest))
      with (a ++ String " " (String.concat " " (b :: rest))).
    rewrite split_ws_from_word by exact Hs.
    change ("" ++ a) with a. cbn [split_ws_from].
    change (isspace " ") with true. cbv iota. rewrite Ha. now rewrite IH.
Qed.

Lemma str_inj (a b : Z) : str a = str b -> a = b.
Proof.
  intros H. pose proof (int_parse_str a) as Ha.
  rewrite H, int_parse_str in Ha. now injection Ha.
Qed.

(** The arguments of the hashing variants come back. *)
Lemma split_ws_join_witness :
  split_ws (join " " ["grid_hashing"; "60042651f648e052"])
  = ["grid_hashing"; "60042651f648e052"].
Proof.
  apply (split_ws_join ["grid_hashing"; "60042651f648e052"]).
  repeat constructor.
Defined.

End RoundTrips.

(** ** The configured variants, as the renderer shows them *)

Module VariantFacts.
Import Py Harness Graphs Preds DecimalFacts LineFacts GraphsFacts MorePreds RoundTrips.

Lemma scikit_not_z1 (Zexp : Z) :
  Zexp <> 1 -> String.eqb ("scikit_z" ++ str Zexp) "scikit_z1" = false.
Proof.
  intros Hz. apply String.eqb_neq. intros H. apply Hz.
  apply str_inj. now injection H.
Qed.

(** X2: every solver variant the harness is configured with, for every
    exponent, is given a display name by the renderer from the solver
    and argument fields of its rows, and every such name has a colour
    and a marker in the style tables. *)
Theorem configured_variants_shown (Zexp : Z) :
  zip_with shown (FACILITY_SOLUTIONS Zexp) FACILITY_SOLUTION_ARGS
  = [Ok "Mettu-Plaxton"; Ok "Grid hashing"; Ok "Face hashing"]
  /\ zip_with shown (CLUSTERING_SOLUTIONS Zexp) (CLUSTERING_SOLUTION_ARGS Zexp)
     = ((if Zexp =? 1
         then [Ok "K-medoids alternate (scikit-learn-extra)";
               Ok "K-medoids PAM (scikit-learn-extra)"]
         else [Ok "K-means++ (scikit-learn)"])
        ++ [Ok "Grid hashing"; Ok "Face hashing"])%list
  /\ Forall (fun r => exists name,
                 r = Ok name /\ is_Some (SOLUTION_COLORS !! name)
                 /\ is_Some (SOLUTION_MARKER !! name))
       (zip_with shown (FACILITY_SOLUTIONS Zexp) FACILITY_SOLUTION_ARGS
        ++ zip_with shown (CLUSTERING_SOLUTIONS Zexp)
             (CLUSTERING_SOLUTION_ARGS Zexp))%list.
Proof.
  assert (zip_with shown (FACILITY_SOLUTIONS Zexp) FACILITY_SOLUTION_ARGS
          = [Ok "Mettu-Plaxton"; Ok "Grid hashing"; Ok "Face hashing"]) as Hf.
  { reflexivity. }
  assert (zip_with shown (CLUSTERING_SOLUTIONS Zexp)
            (CLUSTERING_SOLUTION_ARGS Zexp)
          = ((if Zexp =? 1
              then [Ok "K-medoids alternate (scikit-learn-extra)";
                    Ok "K-medoids PAM (scikit-learn-extra)"]
              else [Ok "K-means++ (scikit-learn)"])
             ++ [Ok "Grid hashing"; Ok "Face hashing"])%list) as Hc.
  { unfold CLUSTERING_SOLUTIONS, CLUSTERING_SOLUTION_ARGS.
    destruct (Zexp =? 1) eqn:Hz.
    - apply Z.eqb_eq in Hz. subst Zexp. reflexivity.
    - apply Z.eqb_neq in Hz. cbn [repeat app zip_with].
      f_equal. unfold shown, classify.
      change (split_ws (join " " [""])) with (@nil string).
      cbn [length Nat.eqb].
      change (startswith "mettu_plaxton" ("scikit_z" ++ str Zexp)) with false.
      change (startswith "scikit" ("scikit_z" ++ str Zexp)) with true.
      cbv iota. now rewrite scikit_not_z1. }
  split; [exact Hf|]. split; [exact Hc|].
  rewrite Hf, Hc. apply Forall_app. split.
  - repeat constructor; eexists; (split; [reflexivity|]);
      split; vm_compute; eauto.
  - destruct (Zexp =? 1); repeat constructor; eexists;
      (split; [reflexivity|]); split; vm_compute; eauto.
Qed.

End VariantFacts.

(** ** The names of instances and of results files *)

Module NameFacts.
Import Py Harness Graphs Preds DecimalFacts LineFacts GraphsFacts RoundTrips HarnessFacts HarnessRest.

Lemma gen_path_basename (size dimension : Z) :
  basename (gen_path size dimension)
  = "gen_n" ++ str size ++ "_d" ++ str dimension ++ ".in".
Proof.
  unfold basename.
  change (gen_path size dimension)
    with ("data" ++ String "/" ("gen" ++ String "/"
           ("gen_n" ++ str size ++ "_d" ++ str dimension ++ ".in"))).
  rewrite split_app by reflexivity. rewrite split_app by reflexivity.
  rewrite split_single; [reflexivity|].
  change ("gen_n" ++ str size ++ "_d" ++ str dimension ++ ".in")
    with ("gen_n" ++ (str size ++ ("_d" ++ (str dimension ++ ".in")))).
  now rewrite !all_chars_app, !str_free by reflexivity.
Qed.

(** X3: for a size and a dimension that print in at most 4300
    characters (the limit of [int] on the number of digits), whenever
    [gen] returns, it returns the path
    data/gen/gen_n<size>_d<dimension>.in; the base name of that path,
    which the harness writes to the results, is a generator name, passes
    the test of the renderer, and the renderer reads the size and the
    dimension of the instance back from it. *)
Theorem gen_name_round_trip Zexp exec size dimension k w path :
  (String.length (str size) <= MAX_STR_DIGITS)%nat ->
  (String.length (str dimension) <= MAX_STR_DIGITS)%nat ->
  (gen Zexp exec size dimension k w).2 = Ok path ->
  path = gen_path size dimension
  /\ Spec.synthetic_name (basename path)
  /\ startswith "gen" (basename path) = true
  /\ name_fields (basename path) = Ok (size, dimension).
Proof.
  intros Hsize Hdim Hgen.
  assert (path = gen_path size dimension) as ->.
  { rewrite gen_run in Hgen. cbv zeta in Hgen. cbn [snd] in Hgen.
    destruct (returncode _ =? 0); [now injection Hgen | discriminate Hgen]. }
  rewrite gen_path_basename. split; [reflexivity|]. split; [|split].
  - now exists size, dimension.
  - reflexivity.
  - now apply name_fields_gen.
Qed.

(** The instance of size 100 and dimension 2, with a generator that
    succeeds. *)
Lemma gen_name_round_trip_witness :
  (gen 1 Demo.exec_ok 100 2 1 Demo.world0).2 = Ok "data/gen/gen_n100_d2.in"
  /\ name_fields (basename "data/gen/gen_n100_d2.in") = Ok (100, 2).
Proof.
  assert ((gen 1 Demo.exec_ok 100 2 1 Demo.world0).2
          = Ok "data/gen/gen_n100_d2.in") as Hgen by reflexivity.
  split; [exact Hgen|].
  refine (proj2 (proj2 (proj2
    (gen_name_round_trip 1 Demo.exec_ok 100 2 1 Demo.world0 _ _ _ Hgen)))).
  - apply Nat.leb_le. reflexivity.
  - apply Nat.leb_le. reflexivity.
Defined.

Lemma contains_app_free (a b : string) :
  all_chars (is_not "f") a = true ->
  contains "fl" (a ++ b) = contains "fl" b.
Proof.
  induction a as [|c r IH]; [reflexivity|].
  simpl all_chars. rewrite andb_true_iff. intros [Hc Hr].
  change (String c r ++ b) with (String c (r ++ b)).
  cbn [contains]. rewrite (IH Hr).
  unfold String.prefix. destruct (ascii_dec "f" c) as [<-|_]; [|reflexivity].
  discriminate Hc.
Qed.

Lemma length_append (a b : string) :
  String.length (a ++ b) = (String.length a + String.length b)%nat.
Proof.
  induction a as [|c r IH]; [reflexivity|].
  change (String c r ++ b) with (String c (r ++ b)). simpl. now rewrite IH.
Qed.

Lemma get_append_r (a b : string) (n : nat) :
  String.get (String.length a + n) (a ++ b) = String.get n b.
Proof.
  induction a as [|c r IH]; [reflexivity|].
  change (String c r ++ b) with (String c (r ++ b)). simpl. exact IH.
Qed.

Lemma get_append_l (a b : string) (n : nat) :
  (n < String.length a)%nat -> String.get n (a ++ b) = String.get n a.
Proof.
  revert n. induction a as [|c r IH]; intros n Hn; [simpl in Hn; lia|].
  change (String c r ++ b) with (String c (r ++ b)).
  destruct n as [|n]; [reflexivity|]. simpl. apply IH. simpl in Hn. lia.
Qed.

Lemma str_length (z : Z) : (1 <= String.length (str z))%nat.
Proof.
  destruct z as [|p|p].
  - simpl. lia.
  - rewrite str_pos.
    pose proof (DecimalPos.Unsigned.to_uint_nonnil p) as Hp.
    destruct (Pos.to_uint p); [contradiction|simpl; lia ..].
  - rewrite str_neg. simpl. lia.
Qed.

Lemma get_some (s : string) (n : nat) :
  (n < String.length s)%nat -> exists c, String.get n s = Some c.
Proof.
  revert n. induction s as [|c r IH]; intros n Hn; [simpl in Hn; lia|].
  destruct n as [|n]; [now exists c|]. simpl. apply IH. simpl in Hn. lia.
Qed.

(** X4: from the name of the results file of the harness the renderer
    works out the title of the target, and for the exponent it shows the
    last character of [z] as printed: the exponent itself when this is
    one digit. *)
Theorem results_filename_plot_name (target : Target) (Zexp : Z) :
  exists c,
    String.get (String.length (str Zexp) - 1) (str Zexp) = Some c
    /\ plot_name (results_filename target Zexp)
       = Ok (match target with
             | fl => "Facility Location"
             | cl => "Clustering"
             end ++ " ($$, z=" ++ String c "" ++ ")")
    /\ (0 <= Zexp <= 9 -> str Zexp = String c "").
Proof.
  pose proof (str_length Zexp) as Hlen.
  destruct (get_some (str Zexp) (String.length (str Zexp) - 1)) as [c Hc];
    [lia|].
  exists c. split; [exact Hc|]. split.
  - assert (forall stem,
              String.length stem = 12%nat ->
              index_from_end 5 (stem ++ str Zexp ++ ".csv") = Some c) as Hz.
    { intros stem Hstem. unfold index_from_end.
      rewrite !length_append, Hstem. cbn [String.length].
      destruct (_ <? 5)%nat eqn:Hlt; [apply Nat.ltb_lt in Hlt; lia|].
      replace (12 + (String.length (str Zexp) + 4) - 5)%nat
        with (String.length stem + (String.length (str Zexp) - 1))%nat by lia.
      rewrite get_append_r, get_append_l by lia. exact Hc. }
    unfold plot_name. destruct target.
    + change (results_filename fl Zexp)
        with ("results_fl_z" ++ str Zexp ++ ".csv").
      rewrite Hz by reflexivity. reflexivity.
    + change (results_filename cl Zexp)
        with ("results_cl_z" ++ str Zexp ++ ".csv").
      rewrite Hz by reflexivity.
      assert (contains "fl" ("results_cl_z" ++ str Zexp ++ ".csv") = false)
        as ->; [|reflexivity].
      change ("results_cl_z" ++ str Zexp ++ ".csv")
        with ("results_cl_z" ++ (str Zexp ++ ".csv")).
      rewrite contains_app_free by reflexivity.
      rewrite contains_app_free by now apply str_free.
      reflexivity.
  - intros Hz.
    assert (Zexp = 0 \/ Zexp = 1 \/ Zexp = 2 \/ Zexp = 3 \/ Zexp = 4
            \/ Zexp = 5 \/ Zexp = 6 \/ Zexp = 7 \/ Zexp = 8 \/ Zexp = 9)
      as Hcases by lia.
    repeat (destruct Hcases as [->|Hcases];
            [simpl in Hc; injection Hc as <-; reflexivity|]).
    subst. simpl in Hc. injection Hc as <-. reflexivity.
Qed.

(** The results of the clustering target with exponent 2. *)
Lemma results_filename_plot_name_witness :
  plot_name (results_filename cl 2) = Ok "Clustering ($$, z=2)".
Proof.
  destruct (results_filename_plot_name cl 2) as (c & Hc & Hname & _).
  simpl in Hc. injection Hc as <-. exact Hname.
Defined.

End NameFacts.

(** ** The groups of a chart *)

Module GroupFacts.
Import Py Graphs Preds DecimalFacts LineFacts GraphsFacts StFacts MorePreds.

Lemma classify_styled solution args name :
  classify solution args = Ok name -> styled name.
Proof.
  unfold classify, styled.
  destruct (length args =? 2)%nat.
  - destruct args as [|a0 rest]; [discriminate|].
    destruct (String.eqb a0 "grid_hashing");
      [intros [= <-]; vm_compute; eauto|].
    destruct (String.eqb a0 "face_hashing");
      [intros [= <-]; vm_compute; eauto | discriminate].
  - destruct (startswith "mettu_plaxton" solution);
      [intros [= <-]; vm_compute; eauto|].
    destruct (startswith "scikit" solution); [|discriminate].
    destruct (String.eqb solution "scikit_z1");
      [|intros [= <-]; vm_compute; eauto].
    destruct args as [|a0 rest]; [discriminate|].
    destruct (String.eqb a0 "alternate"); intros [= <-]; vm_compute; eauto.
Qed.

Lemma all_lists_append {K V : Type} `{EqDecision K} (Q : V -> Prop)
    (k : K) (v : V) (d : list (K * list V)) :
  Q v -> all_lists (Forall Q) d -> all_lists (Forall Q) (dict_append k v d).
Proof.
  intros Hv. unfold all_lists.
  induction 1 as [|[k' vs] rest Hvs Hrest IH]; simpl.
  - repeat constructor. exact Hv.
  - destruct (decide (k = k')).
    + constructor; [|exact Hrest]. simpl in *. apply Forall_app. auto.
    + constructor; [exact Hvs | exact IH].
Qed.

Lemma keys_append {K V : Type} `{EqDecision K} (P : K -> Prop)
    (k : K) (v : V) (d : list (K * list V)) :
  P k -> Forall P (map fst d) -> Forall P (map fst (dict_append k v d)).
Proof.
  intros Hk. induction d as [|[k' vs] rest IH]; simpl; intros Hd.
  - repeat constructor. exact Hk.
  - inversion Hd; subst. destruct (decide (k = k')); simpl.
    + now constructor.
    + constructor; [assumption | now apply IH].
Qed.

Lemma keys_nodup_append {K V : Type} `{EqDecision K}
    (k : K) (v : V) (d : list (K * list V)) :
  NoDup (map fst d) -> NoDup (map fst (dict_append k v d)).
Proof.
  induction d as [|[k' vs] rest IH]; simpl; intros Hd.
  - repeat constructor. intros H0. inversion H0.
  - apply NoDup_cons in Hd as [Hk' Hrest].
    destruct (decide (k = k')); simpl; apply NoDup_cons.
    + split; assumption.
    + split; [|now apply IH].
      intros Hin. apply Hk'.
      clear -Hin n. induction rest as [|[k2 v2] rest IH]; simpl in *.
      * apply list_elem_of_singleton in Hin. congruence.
      * destruct (decide (k = k2)); simpl in *; [exact Hin|].
        apply elem_of_cons in Hin as [->|Hin]; [left|right; now apply IH].
Qed.

Lemma dict_get_member {K V : Type} `{EqDecision K}
    (k : K) (vs : list V) (d : list (K * list V)) :
  NoDup (map fst d) -> In (k, vs) d -> dict_get k d = vs.
Proof.
  induction d as [|[k' vs'] rest IH]; simpl; [contradiction|].
  intros Hd [Heq|Hin].
  - injection Heq as -> ->. now rewrite decide_True.
  - apply NoDup_cons in Hd as [Hk' Hrest].
    destruct (decide (k = k')) as [->|_]; [|now apply IH].
    exfalso. apply Hk'. apply list_elem_of_In.
    change k' with (fst (k', vs)). now apply in_map.
Qed.

Lemma by_solution_from (values : list Entry) d0 l :
  dict_get l
    (fold_left (fun solutions val => dict_append (label val) val solutions)
       values d0)
  = (dict_get l d0
     ++ List.filter (fun v => String.eqb (label v) l) values)%list.
Proof.
  revert d0. induction values as [|v rest IH]; intros d0; simpl.
  - now rewrite app_nil_r.
  - rewrite IH. destruct (String.eqb (label v) l) eqn:E.
    + apply String.eqb_eq in E. subst l.
      rewrite dict_get_append_eq, <- app_assoc. reflexivity.
    + apply String.eqb_neq in E.
      rewrite dict_get_append_ne by congruence. reflexivity.
Qed.

Lemma by_solution_keys_from (P : string -> Prop) (values : list Entry) d0 :
  Forall (fun v => P (label v)) values ->
  Forall P (map fst d0) ->
  Forall P (map fst
    (fold_left (fun solutions val => dict_append (label val) val solutions)
       values d0)).
Proof.
  intros Hv. revert d0. induction Hv as [|v rest Hl Hrest IH]; intros d0 Hd;
    simpl; [exact Hd|].
  apply IH. now apply keys_append.
Qed.

Lemma by_solution_nodup_from (values : list Entry) d0 :
  NoDup (map fst d0) ->
  NoDup (map fst
    (fold_left (fun solutions val => dict_append (label val) val solutions)
       values d0)).
Proof.
  revert d0. induction values as [|v rest IH]; intros d0 Hd; simpl;
    [exact Hd|].
  apply IH. now apply keys_nodup_append.
Qed.

Lemma nonempty_append {K V : Type} `{EqDecision K}
    (k : K) (v : V) (d : list (K * list V)) :
  all_lists (fun vs : list V => vs <> []) d ->
  all_lists (fun vs : list V => vs <> []) (dict_append k v d).
Proof.
  unfold all_lists. induction 1 as [|[k' vs] rest Hk Hd IH]; simpl.
  - constructor; [simpl; discriminate | constructor].
  - destruct (decide (k = k')); constructor; simpl in *; auto.
    intros H0. destruct vs; discriminate H0.
Qed.

Lemma by_solution_nonempty_from (values : list Entry) d0 :
  all_lists (fun vs : list Entry => vs <> []) d0 ->
  all_lists (fun vs : list Entry => vs <> [])
    (fold_left (fun solutions val => dict_append (label val) val solutions)
       values d0).
Proof.
  revert d0. induction values as [|v rest IH]; intros d0 Hd; simpl;
    [exact Hd|].
  apply IH. now apply nonempty_append.
Qed.

(** X5: the groups [plot_instance] draws its series from have distinct
    solver names; the group of a name holds the entries of the bucket
    with that name, in the order of the bucket, and is never empty; and
    every entry of the bucket has a group. *)
Theorem by_solution_groups (values : list Entry) :
  NoDup (map fst (by_solution values))
  /\ (forall l,
        dict_get l (by_solution values)
        = List.filter (fun v => String.eqb (label v) l) values)
  /\ (forall l vs,
        In (l, vs) (by_solution values) ->
        vs = List.filter (fun v => String.eqb (label v) l) values
        /\ vs <> [])
  /\ (forall v, In v values -> In (label v) (map fst (by_solution values))).
Proof.
  assert (NoDup (map fst (by_solution values))) as Hnd.
  { apply by_solution_nodup_from. constructor. }
  assert (forall l,
            dict_get l (by_solution values)
            = List.filter (fun v => String.eqb (label v) l) values) as Hget.
  { intros l. unfold by_solution. now rewrite by_solution_from. }
  assert (forall l vs, In (l, vs) (by_solution values) -> vs <> []) as Hne.
  { intros l vs Hin.
    pose proof (by_solution_nonempty_from values [] (List.Forall_nil _))
      as Hall.
    unfold all_lists in Hall. rewrite Forall_forall in Hall.
    apply (Hall (l, vs)). now apply list_elem_of_In. }
  split; [exact Hnd|]. split; [exact Hget|]. split.
  - intros l vs Hin. split; [|now apply (Hne l)].
    rewrite <- Hget. symmetry. now apply dict_get_member.
  - intros v Hv.
    destruct (dict_get (label v) (by_solution values)) as [|e es] eqn:Hd.
    + rewrite Hget in Hd.
      assert (In v (List.filter (fun v0 => String.eqb (label v0) (label v))
                      values)) as Hin.
      { apply filter_In. split; [exact Hv | apply String.eqb_refl]. }
      rewrite Hd in Hin. contradiction.
    + clear -Hd. induction (by_solution values) as [|[k vs] d IH];
        simpl in *; [discriminate|].
      destruct (decide (label v = k)); [now left | right; now apply IH].
Qed.

End GroupFacts.

(** ** The loop over the rows of a file *)

Module BucketFacts.
Import Py Graphs Preds DecimalFacts LineFacts GraphsFacts StFacts MorePreds GroupFacts.

Section Rows.
Variable float_of_str : string -> option PrimFloat.float.

(** What the loop body did when it returns. *)
Lemma add_row_ok st line st' :
  add_row float_of_str st line = Ok st' ->
  exists inp solution args params name,
    line = inp :: solution :: args :: params
    /\ classify solution (split_ws args) = Ok name
    /\ ((startswith "gen" inp = false /\ st' = st)
        \/ (startswith "gen" inp = true
            /\ exists n d ps,
                 floats float_of_str params = Ok ps
                 /\ st' = (dict_append d
                             {| x := n; label := name; params := ps |} st.1,
                           dict_append n
                             {| x := d; label := name; params := ps |} st.2))).
Proof.
  destruct st as [bd bs]. unfold add_row.
  destruct line as [|inp [|solution [|args params]]]; try discriminate.
  destruct (classify solution (split_ws args)) as [name|e] eqn:Hc;
    [|discriminate].
  unfold mbind at 1, res_bind at 1.
  intros H. exists inp, solution, args, params, name.
  split; [reflexivity|]. split; [exact Hc|].
  destruct (startswith "gen" inp); [right | left].
  - split; [reflexivity|].
    destruct (split "_" (replace "." "_" inp)) as [|a [|n [|d [|b [|? ?]]]]];
      try discriminate H.
    destruct (int (tail n)) as [n'|]; [|discriminate H].
    destruct (int (tail d)) as [d'|]; [|discriminate H].
    simpl in H. destruct (floats float_of_str params) as [ps|e];
      [|discriminate H].
    simpl in H. injection H as <-. now exists n', d', ps.
  - split; [reflexivity|]. now injection H.
Qed.

(** The errors of the loop body. *)
Lemma add_row_raise st line e :
  add_row float_of_str st line = Raise e -> index_or_value e.
Proof.
  destruct st as [bd bs]. unfold add_row, index_or_value.
  destruct line as [|inp [|solution [|args params]]];
    try (intros [= <-]; eauto).
  destruct (classify solution (split_ws args)) as [name|e'] eqn:Hc.
  - unfold mbind at 1, res_bind at 1.
    destruct (startswith "gen" inp); [|discriminate].
    destruct (split "_" (replace "." "_" inp)) as [|a [|n [|d [|b [|? ?]]]]];
      try (intros [= <-]; eauto).
    destruct (int (tail n)) as [n'|]; [|intros [= <-]; eauto].
    destruct (int (tail d)) as [d'|]; [|intros [= <-]; eauto].
    simpl. destruct (floats float_of_str params) as [ps|e'] eqn:Hf;
      [discriminate|].
    simpl. intros [= <-]. right.
    clear -Hf. unfold floats in Hf. revert e' Hf.
    induction params as [|p rest IH]; intros e' Hf; simpl in Hf;
      [discriminate|].
    destruct (float_of_str p); simpl in Hf; [|injection Hf as <-; eauto].
    destruct (map_res _ rest) as [vs|e2]; simpl in Hf; [discriminate|].
    injection Hf as <-. now apply IH.
  - simpl. intros [= <-]. clear -Hc. unfold classify in Hc.
    destruct (length _ =? 2)%nat.
    + destruct (split_ws args) as [|a0 r]; [injection Hc as <-; now left|].
      destruct (String.eqb a0 "grid_hashing"); [discriminate|].
      destruct (String.eqb a0 "face_hashing"); [discriminate|].
      injection Hc as <-. eauto.
    + destruct (startswith "mettu_plaxton" solution); [discriminate|].
      destruct (startswith "scikit" solution);
        [|injection Hc as <-; eauto].
      destruct (String.eqb solution "scikit_z1"); [|discriminate].
      destruct (split_ws args); [injection Hc as <-; now left | discriminate].
Qed.

Lemma add_rows_inv rows st0 st :
  add_rows float_of_str st0 rows = Ok st -> buckets_inv st0 rows st.
Proof.
  revert st0. induction rows as [|line rest IH]; intros st0 H; simpl in H.
  - injection H as <-. unfold buckets_inv, gen_rows. simpl.
    split; [lia|]. split; [lia|]. auto.
  - destruct (add_row float_of_str st0 line) as [st1|e] eqn:Hrow;
      [|discriminate H].
    simpl in H. apply IH in H. unfold buckets_inv in H.
    apply add_row_ok in Hrow
      as (inp & solution & args & params & name & -> & Hc & Hcase).
    pose proof (classify_styled _ _ _ Hc) as Hstyled.
    destruct H as (H1 & H2 & H3 & H4 & H5 & H6).
    unfold buckets_inv, gen_rows in *. cbn [hd List.filter].
    destruct Hcase as [[Hgen ->]|[Hgen (n & d & ps & Hps & ->)]];
      rewrite Hgen.
    + split; [exact H1|]. split; [exact H2|]. auto.
    + cbn [fst snd] in *. rewrite !entries_append in *.
      split; [cbn [length]; lia|]. split; [cbn [length]; lia|].
      split; [intros Hnd; now apply H3, keys_nodup_append|].
      split; [intros Hnd; now apply H4, keys_nodup_append|].
      split; intros Hall.
      * apply H5, all_lists_append; [exact Hstyled | exact Hall].
      * apply H6, all_lists_append; [exact Hstyled | exact Hall].
Qed.

(** X6: when the loop over the rows of a file returns, each of the two
    dictionaries holds one entry per row whose instance name starts
    with gen, no key twice, and every entry has a display name with a
    colour and a marker. *)
Theorem add_rows_counts rows by_dimension by_size :
  add_rows float_of_str ([], []) rows = Ok (by_dimension, by_size) ->
  length (entries by_dimension) = gen_rows rows
  /\ length (entries by_size) = gen_rows rows
  /\ NoDup (map fst by_dimension) /\ NoDup (map fst by_size)
  /\ Forall (fun v => styled (label v))
       (entries by_dimension ++ entries by_size)%list.
Proof.
  intros H. apply add_rows_inv in H as (H1 & H2 & H3 & H4 & H5 & H6).
  cbn [fst snd entries map concat length] in *.
  split; [exact H1|]. split; [exact H2|].
  split; [apply H3; constructor|]. split; [apply H4; constructor|].
  assert (forall d : Buckets,
            all_lists (Forall (fun v => styled (label v))) d ->
            Forall (fun v => styled (label v)) (entries d)) as Hall.
  { intros d. unfold all_lists, entries.
    induction 1 as [|kv rest Hkv Hrest IH]; simpl; [constructor|].
    apply Forall_app. split; assumption. }
  apply Forall_app. split; apply Hall.
  - apply H5. apply List.Forall_nil.
  - apply H6. apply List.Forall_nil.
Qed.

End Rows.

(** A file with one generator row and one dataset row. *)
Lemma add_rows_counts_witness :
  exists by_dimension by_size,
    add_rows Demo.float_of_str ([], [])
      [ ["gen_n100_d2.in"; "mettu_plaxton_z1"; ""; "1.5"; "0.25"];
        ["iris.in"; "scikit_z1"; "pam"; "3"; "1.5"; "0.25"] ]
    = Ok (by_dimension, by_size)
    /\ length (entries by_dimension) = 1%nat
    /\ length (entries by_size) = 1%nat.
Proof.
  destruct (add_rows Demo.float_of_str ([], [])
              [ ["gen_n100_d2.in"; "mettu_plaxton_z1"; ""; "1.5"; "0.25"];
                ["iris.in"; "scikit_z1"; "pam"; "3"; "1.5"; "0.25"] ])
    as [[by_dimension by_size]|e] eqn:H; [|vm_compute in H; discriminate H].
  exists by_dimension, by_size. split; [reflexivity|].
  destruct (add_rows_counts Demo.float_of_str _ _ _ H) as (H1 & H2 & _).
  split; [exact H1 | exact H2].
Defined.

End BucketFacts.

(** ** The figures of a bucket *)

Module SeriesFacts.
Import Py Graphs Preds DecimalFacts LineFacts GraphsFacts StFacts MorePreds GroupFacts BucketFacts.

Lemma map_res_ok {A B : Type} (f : A -> res B) (R : A -> B -> Prop)
    (l : list A) :
  Forall (fun a => exists b, f a = Ok b /\ R a b) l ->
  exists bs, map_res f l = Ok bs /\ Forall2 R l bs.
Proof.
  induction 1 as [|a l (b & Hb & HR) Hl (bs & Hbs & HRs)]; simpl.
  - exists []. split; [reflexivity | constructor].
  - rewrite Hb. simpl. rewrite Hbs. simpl. exists (b :: bs).
    split; [reflexivity | now constructor].
Qed.

Lemma map_res_raise {A B : Type} (f : A -> res B) (E : exn -> Prop)
    (l : list A) e :
  (forall a e', In a l -> f a = Raise e' -> E e') ->
  map_res f l = Raise e -> E e.
Proof.
  induction l as [|a l IH]; simpl; intros Hf; [discriminate|].
  destruct (f a) as [b|e'] eqn:Ha; simpl.
  - destruct (map_res f l) as [bs|e2]; simpl; [discriminate|].
    intros [= <-]. apply IH; [|reflexivity]. intros a' e' Hin. apply Hf.
    now right.
  - intros [= <-]. apply (Hf a); [now left | exact Ha].
Qed.

Lemma map_res_cases {A B : Type} (f : A -> res B) (R : A -> B -> Prop)
    (E : exn -> Prop) (l : list A) :
  Forall (fun a => (exists b, f a = Ok b /\ R a b)
                   \/ (exists e, f a = Raise e /\ E e)) l ->
  (exists bs, map_res f l = Ok bs /\ Forall2 R l bs)
  \/ (exists e, map_res f l = Raise e /\ E e).
Proof.
  induction 1 as [|a l [(b & Hb & HR)|(e & He & HE)] Hl IH]; simpl.
  - left. exists []. split; [reflexivity | constructor].
  - rewrite Hb. simpl. destruct IH as [(bs & Hbs & HRs)|(e & He & HE)].
    + rewrite Hbs. simpl. left. exists (b :: bs).
      split; [reflexivity | now constructor].
    + rewrite He. simpl. right. eauto.
  - rewrite He. simpl. right. eauto.
Qed.

Lemma groups_chartable (n : nat) (values : list Entry) :
  Forall (chartable n) values ->
  Forall (fun g => styled g.1 /\
                   Forall (fun v => (n <= length (params v))%nat) g.2)
    (by_solution values).
Proof.
  intros Hv. unfold by_solution.
  pose proof (by_solution_keys_from styled values []) as Hk.
  assert (forall d0,
     all_lists (Forall (fun v : Entry => (n <= length (params v))%nat)) d0 ->
     all_lists (Forall (fun v : Entry => (n <= length (params v))%nat))
       (fold_left (fun solutions val => dict_append (label val) val solutions)
          values d0)) as Hl.
  { clear Hk. induction Hv as [|v rest [_ Hn] Hrest IH]; intros d0 Hd; simpl;
      [exact Hd|].
    apply IH. now apply all_lists_append. }
  specialize (Hl [] (List.Forall_nil _)).
  specialize (Hk (Forall_impl _ _ _ Hv (fun v H => proj1 H))
                (List.Forall_nil _)).
  unfold all_lists in Hl.
  revert Hk Hl. generalize (fold_left
    (fun solutions val => dict_append (label val) val solutions) values []).
  intros d. induction d as [|[k vs] d IH]; simpl; intros Hk Hl;
    [constructor|].
  inversion Hk; inversion Hl; subst. constructor; [split; assumption|].
  now apply IH.
Qed.

Section Library.
Variable ax_plot : Series -> option exn.
Variable plt_savefig : Figure -> option exn.

(** One [ax.plot] of a styled solver with enough parameters: its
    arguments are worked out, and what fails, if anything, is the call. *)
Lemma plot_series_styled (val_number : nat) (name : string)
    (vals : list Entry) :
  styled name ->
  Forall (fun v => (val_number < length (params v))%nat) vals ->
  (exists s,
     plot_series ax_plot val_number (name, vals) = Ok s
     /\ s_label s = name /\ s_xs s = map x vals)
  \/ (exists e,
        plot_series ax_plot val_number (name, vals) = Raise e
        /\ exists s, ax_plot s = Some e).
Proof.
  intros [[marker Hm] [color Hc]] Hvals. unfold plot_series.
  destruct (map_res_ok
              (fun v => of_option IndexError (params v !! val_number))
              (fun _ _ => True) vals) as (ys & Hys & Hlen).
  { eapply Forall_impl; [exact Hvals|]. intros v Hv. simpl in Hv.
    destruct (lookup_lt_is_Some_2 (params v) val_number Hv) as [y Hy].
    exists y. now rewrite Hy. }
  rewrite Hys, Hm, Hc. simpl.
  destruct (ax_plot _) as [e|] eqn:Hax.
  - right. exists e. split; [reflexivity|]. eauto.
  - left. eexists. split; [reflexivity|]. split; reflexivity.
Qed.

(** The errors of one [ax.plot] of a styled solver: no [KeyError]. *)
Lemma plot_series_raise (val_number : nat) (name : string)
    (vals : list Entry) e :
  styled name -> plot_series ax_plot val_number (name, vals) = Raise e ->
  e = IndexError \/ exists s, ax_plot s = Some e.
Proof.
  intros [[marker Hm] [color Hc]]. unfold plot_series.
  destruct (map_res _ vals) as [ys|e'] eqn:Hys; simpl.
  - rewrite Hm. simpl. rewrite Hc. simpl.
    destruct (ax_plot _) as [e'|] eqn:Hax; intros H; [|discriminate H].
    injection H as <-. right. eauto.
  - intros [= <-]. left.
    eapply (map_res_raise _ (fun e => e = IndexError)); [|exact Hys].
    intros v e2 _. cbv beta.
    destruct (params v !! val_number); simpl; intros H;
      [discriminate H | now injection H as <-].
Qed.

(** One figure of a chartable bucket: it is saved, or matplotlib
    raises. *)
Lemma plot_instance_step (title val_name : string) (val_number : nat)
    (values : list Entry) saved (n : nat) :
  Forall (chartable n) values -> (val_number < n)%nat ->
  let step :=
    (series ← lift (map_res (plot_series ax_plot val_number)
                      (rev (by_solution values)));
     savefig plt_savefig
       {| f_path := path_join IMG_DIR [figname title val_name];
          f_title := title;
          f_xlabel := if contains "d=" title then "Input size (n)"
                      else "Dimension (d)";
          f_ylabel := val_name;
          f_series := series |}) saved in
  (exists fig,
     step = ((saved ++ [fig])%list, Ok tt)
     /\ f_ylabel fig = val_name /\ figure_of title values fig)
  \/ (exists e,
        step = (saved, Raise e)
        /\ raised_by_matplotlib ax_plot plt_savefig e).
Proof.
  intros Hv Hn. cbv zeta.
  destruct (map_res_cases (plot_series ax_plot val_number)
              (fun g s => s_label s = g.1)
              (fun e => exists s, ax_plot s = Some e)
              (rev (by_solution values)))
    as [(series & Hs & Hlab)|(e & Hs & He)].
  { apply Forall_rev. eapply Forall_impl; [apply groups_chartable, Hv|].
    intros [name vals] [Hst Hvals]. simpl in *.
    destruct (plot_series_styled val_number name vals Hst)
      as [(s & Hs & Hl & _)|(e & Hs & He)].
    - eapply Forall_impl; [exact Hvals|]. intros v Hlen. simpl in *. lia.
    - left. now exists s.
    - right. now exists e. }
  - unfold mbind, St_bind, lift, savefig. rewrite Hs.
    destruct (plt_savefig _) as [e|] eqn:Hsave.
    + right. exists e. split; [reflexivity|]. right. eauto.
    + left. eexists. split; [reflexivity|]. split; [reflexivity|].
      unfold figure_of. cbn [f_ylabel f_title f_path f_series].
      split; [reflexivity|]. split; [reflexivity|]. rewrite <- map_rev.
      clear -Hlab. induction Hlab as [|g s gs ss Hg Hgs IH]; simpl;
        [reflexivity | now rewrite Hg, IH].
  - right. exists e. unfold mbind, St_bind, lift. rewrite Hs.
    split; [reflexivity|]. now left.
Qed.

(** The figures of a chartable bucket for a list of metrics: all of
    them, or those before the one matplotlib raises on. *)
Lemma plot_metrics (title : string) (values : list Entry) (n : nat)
    (pairs : list (nat * string)) saved :
  Forall (chartable n) values ->
  Forall (fun p : nat * string => (p.1 < n)%nat) pairs ->
  let run :=
    for_each pairs
      (fun '(val_number, val_name) =>
         series ← lift (map_res (plot_series ax_plot val_number)
                          (rev (by_solution values)));
         savefig plt_savefig
           {| f_path := path_join IMG_DIR [figname title val_name];
              f_title := title;
              f_xlabel := if contains "d=" title then "Input size (n)"
                          else "Dimension (d)";
              f_ylabel := val_name;
              f_series := series |}) saved in
  exists figs,
    run.1 = (saved ++ figs)%list
    /\ Forall (figure_of title values) figs
    /\ match run.2 with
       | Ok _ => map f_ylabel figs = map snd pairs
       | Raise e =>
           raised_by_matplotlib ax_plot plt_savefig e
           /\ exists rest,
                rest <> []
                /\ map snd pairs = (map f_ylabel figs ++ rest)%list
       end.
Proof.
  intros Hv Hpairs. cbv zeta. revert saved.
  induction Hpairs as [|[val_number val_name] pairs Hn Hpairs IH];
    intros saved.
  - exists []. rewrite app_nil_r. split; [reflexivity|].
    split; [constructor | reflexivity].
  - cbn [for_each].
    destruct (plot_instance_step title val_name val_number values saved n
                Hv Hn) as [(fig & Hstep & Hy & Hfig)|(e & Hstep & He)];
      cbv zeta in Hstep.
    + rewrite (bind_step _ _ _ _ _ Hstep).
      destruct (IH (saved ++ [fig])%list) as (figs & Hst & Hfigs & Hres).
      exists (fig :: figs). rewrite Hst, <- app_assoc.
      split; [reflexivity|]. split; [now constructor|].
      destruct (for_each pairs _ (saved ++ [fig])%list).2 as [[]|e].
      * cbn [map snd]. now rewrite Hy, Hres.
      * destruct Hres as (He & rest & Hrest & Hmap).
        split; [exact He|]. exists rest. split; [exact Hrest|].
        cbn [map snd]. now rewrite Hy, Hmap.
    + rewrite (bind_raise _ _ _ _ _ Hstep). exists []. rewrite app_nil_r.
      split; [reflexivity|]. split; [constructor|].
      split; [exact He|]. eexists. split; [|reflexivity]. discriminate.
Qed.

(** X7: on a bucket whose entries all have a styled solver and as many
    parameters as the first entry calls for metrics, [plot_instance]
    raises nothing of its own.  It only adds figures, each named after
    the title and its metric, with one series per solver in the reverse
    of the order in which the solvers first appear.  When it returns it
    has saved one figure per metric, in the order of the metrics; when
    it raises, the error is one matplotlib raised on [ax.plot] or on
    [savefig], and the figures saved are those of the first metrics;
    and it returns when matplotlib raises nothing. *)
Theorem plot_instance_complete (title : string) (first : Entry)
    (rest : list Entry) saved :
  Forall (chartable (length (metrics first))) (first :: rest) ->
  let run := plot_instance ax_plot plt_savefig title (first :: rest) saved in
  exists figs,
    run.1 = (saved ++ figs)%list
    /\ Forall (figure_of title (first :: rest)) figs
    /\ match run.2 with
       | Ok _ => map f_ylabel figs = metrics first
       | Raise e =>
           raised_by_matplotlib ax_plot plt_savefig e
           /\ (length figs < length (metrics first))%nat
           /\ map f_ylabel figs = take (length figs) (metrics first)
       end
    /\ ((forall series, ax_plot series = None) ->
        (forall f, plt_savefig f = None) -> run.2 = Ok tt).
Proof.
  intros Hv. cbv zeta. unfold plot_instance. fold (metrics first).
  destruct (plot_metrics title (first :: rest) (length (metrics first))
              (enumerate 0 (metrics first)) saved Hv)
    as (figs & Hst & Hfigs & Hres).
  { unfold metrics. destruct (2 + length (params first) =? 4)%nat;
      repeat constructor; simpl; lia. }
  cbv zeta in Hst, Hres.
  assert (map snd (enumerate 0 (metrics first)) = metrics first) as Hsnd.
  { unfold metrics. now destruct (2 + length (params first) =? 4)%nat. }
  rewrite Hsnd in Hres.
  exists figs. split; [exact Hst|]. split; [exact Hfigs|].
  destruct (for_each (enumerate 0 (metrics first)) _ saved).2 as [[]|e].
  - split; [exact Hres | reflexivity].
  - destruct Hres as (He & tail & Htail & Hmap). split.
    + split; [exact He|]. rewrite Hmap, length_app, length_map. split.
      * destruct tail; [congruence | simpl; lia].
      * rewrite take_app_length'; [reflexivity | now rewrite length_map].
    + intros Hplot Hsave. destruct He as [[series He]|[f He]].
      * rewrite Hplot in He. discriminate He.
      * rewrite Hsave in He. discriminate He.
Qed.

End Library.

(** A bucket of one facility-location entry: two figures. *)
Lemma plot_instance_complete_witness :
  let first :=
    {| x := 100; label := "Mettu-Plaxton";
       params := [PyFloat.float_of_int 3; PyFloat.float_of_int 1] |} in
  exists figs,
    plot_instance Demo.ax_plot Demo.plt_savefig
      "Facility Location (d=2, z=1)" [first] []
    = (figs, Ok tt)
    /\ map f_ylabel figs = ["Cost"; "Time [s]"].
Proof.
  cbv zeta.
  assert ((plot_instance Demo.ax_plot Demo.plt_savefig
             "Facility Location (d=2, z=1)"
             [{| x := 100; label := "Mettu-Plaxton";
                 params := [PyFloat.float_of_int 3;
                            PyFloat.float_of_int 1] |}] []).2
          = Ok tt) as Hok by reflexivity.
  destruct (plot_instance_complete Demo.ax_plot Demo.plt_savefig
              "Facility Location (d=2, z=1)"
              {| x := 100; label := "Mettu-Plaxton";
                 params := [PyFloat.float_of_int 3; PyFloat.float_of_int 1] |}
              [] [])
    as (figs & Hrun & _ & Hmetrics & _).
  - constructor; [|constructor]. split; [|simpl; lia].
    split; vm_compute; eauto.
  - cbv zeta in Hrun, Hmetrics. rewrite Hok in Hmetrics.
    exists figs. split; [|exact Hmetrics].
    rewrite (surjective_pairing (plot_instance _ _ _ _ _)), Hrun, Hok.
    reflexivity.
Defined.

End SeriesFacts.

(** ** The figures of a file, and of all of them *)

Module ChartFacts.
Import Py Graphs Preds DecimalFacts LineFacts GraphsFacts StFacts MorePreds GroupFacts BucketFacts SeriesFacts GraphsRest.

Lemma raises_only_bind {S A B : Type} (E : exn -> Prop) (m : St S A)
    (f : A -> St S B) :
  raises_only E m -> (forall a, raises_only E (f a)) ->
  raises_only E (m ≫= f).
Proof.
  intros Hm Hf s e. unfold mbind, St_bind.
  destruct (m s) as [s1 [a|e1]] eqn:Hms.
  - apply Hf.
  - simpl. intros [= <-]. apply (Hm s). now rewrite Hms.
Qed.

Lemma raises_only_lift {S A B : Type} (E : exn -> Prop) (r : res A)
    (f : A -> St S B) :
  (forall e, r = Raise e -> E e) ->
  (forall a, r = Ok a -> raises_only E (f a)) ->
  raises_only E (lift r ≫= f).
Proof.
  intros He Hf s e. unfold mbind, St_bind, lift.
  destruct r as [a|e1]; [now apply Hf|].
  simpl. intros [= <-]. now apply He.
Qed.

Lemma raises_only_for_each {S A : Type} (E : exn -> Prop) (xs : list A)
    (body : A -> St S unit) :
  (forall a, In a xs -> raises_only E (body a)) ->
  raises_only E (for_each xs body).
Proof.
  induction xs as [|a rest IH]; intros Hbody; simpl.
  - intros s e H. discriminate H.
  - apply raises_only_bind; [apply Hbody; now left|].
    intros _. apply IH. intros b Hb. apply Hbody. now right.
Qed.

Lemma saves_bind (P : Figure -> Prop)
    (m : St (list Figure) unit) (f : unit -> St (list Figure) unit) :
  saves P m -> (forall a, saves P (f a)) -> saves P (m ≫= f).
Proof.
  intros Hm Hf saved. unfold mbind, St_bind.
  destruct (Hm saved) as (new1 & H1 & HP1).
  destruct (m saved) as [s1 [a|e]]; simpl in H1; subst s1.
  - destruct (Hf a (saved ++ new1)%list) as (new2 & H2 & HP2).
    exists (new1 ++ new2)%list. rewrite H2, app_assoc.
    split; [reflexivity | now apply Forall_app].
  - exists new1. split; [reflexivity | exact HP1].
Qed.

Lemma saves_for_each_in {A : Type} (P : Figure -> Prop) (xs : list A)
    (body : A -> St (list Figure) unit) :
  (forall a, In a xs -> saves P (body a)) -> saves P (for_each xs body).
Proof.
  induction xs as [|a rest IH]; intros Hbody; simpl.
  - intros saved. exists []. rewrite app_nil_r.
    split; [reflexivity | constructor].
  - apply (saves_bind P); [apply Hbody; now left|].
    intros _. apply IH. intros b Hb. apply Hbody. now right.
Qed.

Lemma saves_lift_bind {A : Type} (P : Figure -> Prop) (r : res A)
    (f : A -> St (list Figure) unit) :
  (forall a, r = Ok a -> saves P (f a)) -> saves P (lift r ≫= f).
Proof.
  intros Hf saved. unfold mbind, St_bind, lift.
  destruct r as [a|e]; [now apply Hf|].
  exists []. rewrite app_nil_r. split; [reflexivity | constructor].
Qed.

Section Render.
Variable float_of_str : string -> option PrimFloat.float.
Variable ax_plot : Series -> option exn.
Variable plt_savefig : Figure -> option exn.

Lemma plot_instance_charts title values :
  saves (fun f => f_title f = title /\ In (f_ylabel f) CL_VALUES
                  /\ f_path f
                     = path_join IMG_DIR [figname (f_title f) (f_ylabel f)])
    (plot_instance ax_plot plt_savefig title values).
Proof.
  unfold plot_instance. destruct values as [|first rest].
  - intros saved. exists []. rewrite app_nil_r.
    split; [reflexivity | constructor].
  - apply saves_for_each_in. intros [val_number val_name] Hin saved.
    assert (In val_name CL_VALUES) as Hm.
    { destruct (2 + length (params first) =? 4)%nat; simpl in Hin;
        repeat (destruct Hin as [[= <- <-]|Hin]); simpl; tauto. }
    unfold mbind, St_bind, lift, savefig.
    destruct (map_res _ _) as [series|e]; simpl.
    + destruct (plt_savefig _); simpl.
      * exists []. rewrite app_nil_r. split; [reflexivity | constructor].
      * eexists [_]. split; [reflexivity|].
        constructor; [|constructor]. split; [reflexivity|].
        split; [exact Hm | reflexivity].
    + exists []. rewrite app_nil_r. split; [reflexivity | constructor].
Qed.

(** The errors of a bucket of styled entries: whatever the width of the
    entries, an [IndexError] or an error of matplotlib. *)
Lemma plot_instance_raises title values :
  Forall (fun v => styled (label v)) values ->
  raises_only (fun e => e = IndexError
                        \/ raised_by_matplotlib ax_plot plt_savefig e)
    (plot_instance ax_plot plt_savefig title values).
Proof.
  intros Hv. unfold plot_instance. destruct values as [|first rest].
  - intros s e [= <-]. now left.
  - apply raises_only_for_each. intros [val_number val_name] _.
    intros s e. unfold mbind, St_bind, lift, savefig.
    destruct (map_res _ _) as [series|e'] eqn:Hs; simpl.
    + destruct (plt_savefig _) as [e'|] eqn:Hsave; simpl; [|discriminate].
      intros [= <-]. right. right. eauto.
    + intros [= <-].
      eapply (map_res_raise _
                (fun e => e = IndexError
                          \/ raised_by_matplotlib ax_plot plt_savefig e));
        [|exact Hs].
      intros [name vals] e2 Hin Hraise.
      apply plot_series_raise in Hraise as [->|Hplot];
        [now left | right; now left|].
      pose proof (by_solution_keys_from styled (first :: rest) [] Hv
                    (List.Forall_nil _)) as Hk.
      rewrite Forall_forall in Hk. apply Hk. apply list_elem_of_In.
      apply in_rev in Hin. change name with (fst (name, vals)).
      now apply in_map.
Qed.

Lemma add_rows_raise rows st e :
  add_rows float_of_str st rows = Raise e -> index_or_value e.
Proof.
  revert st. induction rows as [|line rest IH]; intros st; simpl;
    [discriminate|].
  destruct (add_row float_of_str st line) as [st1|e1] eqn:Hrow; simpl.
  - apply IH.
  - intros [= <-]. eapply add_row_raise, Hrow.
Qed.

(** X8: whatever the rows read from the file, every error [plot_file]
    raises is an [IndexError] or a [ValueError] of its own, or an error
    matplotlib raised on [ax.plot] or on [savefig]: every display name
    it looks up in the style tables is in them, so no [KeyError] comes
    of the lookups. *)
Theorem plot_file_errors filename rows saved e :
  (plot_file float_of_str ax_plot plt_savefig filename rows saved).2
  = Raise e ->
  index_or_value e \/ raised_by_matplotlib ax_plot plt_savefig e.
Proof.
  revert saved e.
  change (raises_only
            (fun e => index_or_value e
                      \/ raised_by_matplotlib ax_plot plt_savefig e)
            (plot_file float_of_str ax_plot plt_savefig filename rows)).
  unfold plot_file. apply raises_only_lift.
  { intros e. unfold plot_name.
    destruct (index_from_end 5 filename); simpl; [discriminate|].
    intros [= <-]. left. now left. }
  intros name _. apply raises_only_lift;
    [intros e He; left; eapply add_rows_raise, He|].
  intros [bd bs] Hrows.
  apply add_rows_inv in Hrows as (_ & _ & _ & _ & Hbd & Hbs).
  specialize (Hbd (List.Forall_nil _)). specialize (Hbs (List.Forall_nil _)).
  cbn [fst snd] in Hbd, Hbs. unfold all_lists in Hbd, Hbs.
  rewrite Forall_forall in Hbd, Hbs.
  assert (forall title vals,
            Forall (fun v => styled (label v)) vals ->
            raises_only
              (fun e => index_or_value e
                        \/ raised_by_matplotlib ax_plot plt_savefig e)
              (plot_instance ax_plot plt_savefig title vals)) as Hinst.
  { intros title vals Hvals s e He.
    apply (plot_instance_raises title vals Hvals) in He as [->|He];
      [left; now left | now right]. }
  apply raises_only_bind; [|intros _].
  - apply raises_only_for_each. intros [d vals] Hin.
    destruct (bool_decide _); [|intros s e; discriminate].
    apply Hinst. apply (Hbd (d, vals)). now apply list_elem_of_In.
  - apply raises_only_for_each. intros [n vals] Hin.
    destruct (bool_decide _); [|intros s e; discriminate].
    apply Hinst. apply (Hbs (n, vals)). now apply list_elem_of_In.
Qed.

(** The figures of [plot_file], for a property [Q] of the titles of
    the allowed axis values. *)
Lemma plot_file_titles (Q : string -> Prop) filename rows :
  (forall name d,
     plot_name filename = Ok name -> In d PLOT_DIMENSIONS ->
     Q (chart_title name "d" d)) ->
  (forall name n,
     plot_name filename = Ok name -> In n PLOT_SIZES ->
     Q (chart_title name "n" n)) ->
  saves (fun f => Q (f_title f) /\ In (f_ylabel f) CL_VALUES
                  /\ f_path f
                     = path_join IMG_DIR [figname (f_title f) (f_ylabel f)])
    (plot_file float_of_str ax_plot plt_savefig filename rows).
Proof.
  intros Hd Hn. unfold plot_file. apply saves_lift_bind. intros name Hname.
  apply saves_lift_bind. intros [bd bs] _.
  assert (forall title vals,
            Q title ->
            saves (fun f => Q (f_title f) /\ In (f_ylabel f) CL_VALUES
                            /\ f_path f
                               = path_join IMG_DIR
                                   [figname (f_title f) (f_ylabel f)])
              (plot_instance ax_plot plt_savefig title vals)) as Hinst.
  { intros title vals HQ saved.
    destruct (plot_instance_charts title vals saved) as (new & Hnew & HP).
    exists new. split; [exact Hnew|].
    eapply Forall_impl; [exact HP|]. intros f (Ht & Hy & Hp).
    rewrite Ht. split; [exact HQ|]. split; [exact Hy|]. now rewrite <- Ht. }
  assert (saves (fun f => Q (f_title f) /\ In (f_ylabel f) CL_VALUES
                          /\ f_path f
                             = path_join IMG_DIR
                                 [figname (f_title f) (f_ylabel f)])
            (mret tt : St (list Figure) unit)) as Hskip.
  { intros saved. exists []. rewrite app_nil_r.
    split; [reflexivity | constructor]. }
  apply saves_bind; [|intros _].
  - apply saves_for_each_in. intros [d vals] _.
    destruct (bool_decide (d ∈ PLOT_DIMENSIONS)) eqn:Hin; [|exact Hskip].
    apply bool_decide_eq_true in Hin. apply list_elem_of_In in Hin.
    apply Hinst. now apply Hd.
  - apply saves_for_each_in. intros [n vals] _.
    destruct (bool_decide (n ∈ PLOT_SIZES)) eqn:Hin; [|exact Hskip].
    apply bool_decide_eq_true in Hin. apply list_elem_of_In in Hin.
    apply Hinst. now apply Hn.
Qed.

(** X9: whatever the rows of the file, [plot_file] only adds figures,
    and each of them is the chart of one of the three dimensions or of
    the one size of the configuration, for one of the three metrics, in
    the file named after its title and its metric: a bucket of any
    other dimension or size gives no figure. *)
Theorem plot_file_charts filename rows saved :
  exists new,
    (plot_file float_of_str ax_plot plt_savefig filename rows saved).1
    = (saved ++ new)%list
    /\ Forall (allowed_chart filename) new.
Proof.
  destruct (plot_file_titles
              (fun title =>
                 exists name,
                   plot_name filename = Ok name
                   /\ ((exists d, In d PLOT_DIMENSIONS
                                  /\ title = chart_title name "d" d)
                       \/ (exists n, In n PLOT_SIZES
                                     /\ title = chart_title name "n" n)))
              filename rows) with (saved := saved) as (new & Hnew & HP).
  - intros name d Hname Hd. exists name. split; [exact Hname|].
    left. now exists d.
  - intros name n Hname Hn. exists name. split; [exact Hname|].
    right. now exists n.
  - exists new. split; [exact Hnew|].
    eapply Forall_impl; [exact HP|]. intros f H. exact H.
Qed.

(** The titles of the three files, with every metric, are configured
    charts. *)
Lemma configured_titles file name axis value metric :
  In file FILES -> plot_name file = Ok name ->
  (axis = "d" /\ In value PLOT_DIMENSIONS
   \/ axis = "n" /\ In value PLOT_SIZES) ->
  In metric CL_VALUES ->
  In (chart_title name axis value, metric) Spec.configured_charts.
Proof.
  intros Hfile Hname Haxis Hmetric.
  unfold FILES in Hfile. simpl in Hfile.
  destruct Hfile as [<-|[<-|[<-|[]]]]; injection Hname as <-;
    (destruct Haxis as [[-> Hd]|[-> Hn]];
     [simpl in Hd; destruct Hd as [<-|[<-|[<-|[]]]]
     |simpl in Hn; destruct Hn as [<-|[]]]);
    simpl in Hmetric; destruct Hmetric as [<-|[<-|[<-|[]]]];
    apply list_elem_of_In; apply (bool_decide_unpack _); vm_compute;
    reflexivity.
Qed.

(** X10: whatever the files hold, and whether or not they exist, the
    renderer only adds figures, each one of the 36 configured charts
    (a title of one of the three files with one of the metrics), in the
    file named after it. *)
Theorem main_charts csvs saved :
  exists new,
    (main float_of_str ax_plot plt_savefig csvs saved).1
    = (saved ++ new)%list
    /\ Forall configured_chart new.
Proof.
  revert saved.
  change (saves configured_chart
            (main float_of_str ax_plot plt_savefig csvs)).
  unfold main. apply saves_for_each_in. intros file Hfile.
  destruct (csvs !! file) as [rows|].
  - intros saved.
    destruct (plot_file_titles
                (fun title =>
                   forall metric, In metric CL_VALUES ->
                     In (title, metric) Spec.configured_charts)
                file rows) with (saved := saved) as (new & Hnew & HP).
    + intros name d Hname Hd metric Hmetric.
      apply (configured_titles file); auto.
    + intros name n Hname Hn metric Hmetric.
      apply (configured_titles file); auto.
    + exists new. split; [exact Hnew|].
      eapply Forall_impl; [exact HP|]. intros f (HQ & Hy & Hp).
      split; [now apply HQ | exact Hp].
  - intros saved. exists []. rewrite app_nil_r. unfold mbind, St_bind, lift.
    split; [|constructor]. now destruct (plot_name file).
Qed.

End Render.

(** A file whose one row names an unknown solver, and a file whose one
    row is of an instance of size 10^400, beyond the floats. *)
Lemma plot_file_errors_witness :
  let big := "gen_n1" ++ String.concat "" (repeat "0" 400) ++ "_d2.in" in
  (plot_file Demo.float_of_str Demo.ax_plot Demo.plt_savefig
     "results_fl_z1.csv"
     [["gen_n100_d2.in"; "my_solver_z1"; ""; "1.5"; "0.25"]] []).2
  = Raise (ValueError Unknown_solution)
  /\ (index_or_value (ValueError Unknown_solution)
      \/ raised_by_matplotlib Demo.ax_plot Demo.plt_savefig
           (ValueError Unknown_solution))
  /\ (plot_file Demo.float_of_str Demo.ax_plot Demo.plt_savefig
        "results_fl_z1.csv"
        [[big; "mettu_plaxton_z1"; ""; "1.5"; "0.25"]] []).2
     = Raise OverflowError
  /\ (index_or_value OverflowError
      \/ raised_by_matplotlib Demo.ax_plot Demo.plt_savefig OverflowError).
Proof.
  cbv zeta.
  assert ((plot_file Demo.float_of_str Demo.ax_plot Demo.plt_savefig
             "results_fl_z1.csv"
             [["gen_n100_d2.in"; "my_solver_z1"; ""; "1.5"; "0.25"]] []).2
          = Raise (ValueError Unknown_solution)) as H by reflexivity.
  assert ((plot_file Demo.float_of_str Demo.ax_plot Demo.plt_savefig
             "results_fl_z1.csv"
             [["gen_n1" ++ String.concat "" (repeat "0" 400) ++ "_d2.in";
               "mettu_plaxton_z1"; ""; "1.5"; "0.25"]] []).2
          = Raise OverflowError) as H2 by (vm_compute; reflexivity).
  split; [exact H|]. split.
  - exact (plot_file_errors Demo.float_of_str Demo.ax_plot Demo.plt_savefig
             _ _ _ _ H).
  - split; [exact H2|].
    exact (plot_file_errors Demo.float_of_str Demo.ax_plot Demo.plt_savefig
             _ _ _ _ H2).
Defined.

End ChartFacts.

(** ** The files and the rows of a run *)

Module RunFacts.
Import Py Harness StFacts HarnessFacts Preds MorePreds NameFacts.

Lemma writes_rows_for_zip_strict {A B : Type} (key : A * B -> list Cell)
    (xs : list A) (ys : list B) (body : A -> B -> M unit) :
  length xs = length ys ->
  (forall a b, writes_rows [key (a, b)] (body a b)) ->
  writes_rows (map key (zip xs ys)) (for_zip_strict xs ys body).
Proof.
  intros Hlen Hbody. revert ys Hlen.
  induction xs as [|a xs IH]; intros [|b ys] Hlen; try discriminate Hlen.
  - intros w. exists []. rewrite app_nil_r. split; reflexivity.
  - injection Hlen as Hlen. intros w.
    cbn [for_zip_strict]. unfold mbind, St_bind.
    destruct (Hbody a b w) as (rows1 & H1 & Hk1).
    destruct (body a b w) as [w1 [[]|e]]; cbn [fst snd] in *.
    + destruct (IH ys Hlen w1) as (rows2 & H2 & Hk2).
      exists (rows1 ++ rows2)%list. rewrite H2, H1, app_assoc.
      split; [reflexivity|]. rewrite map_app, Hk1. cbn [zip_with map].
      destruct (for_zip_strict xs ys body w1).2.
      * now rewrite Hk2.
      * destruct Hk2 as (rest & Hrest & ->). exists rest.
        split; [exact Hrest|]. reflexivity.
    + exists rows1. split; [exact H1|].
      destruct Hk1 as (rest & Hrest & Hk1).
      exists (rest ++ map key (zip xs ys))%list. split.
      * destruct rest; [congruence | discriminate].
      * cbn [zip_with map]. rewrite app_assoc, <- Hk1. reflexivity.
Qed.

Lemma writes_appends keys (m : M unit) :
  writes_rows keys m -> appends_rows (length keys) m.
Proof.
  intros H w. destruct (H w) as (rows & Hrows & Hk).
  exists rows. split; [exact Hrows|].
  destruct (m w).2.
  - now rewrite <- Hk, length_map.
  - destruct Hk as (rest & Hrest & ->).
    rewrite length_app, length_map.
    destruct rest; [congruence | simpl; lia].
Qed.

Lemma appends_rows_ret {A : Type} (a : A) : appends_rows 0 (mret a : M A).
Proof. intros w. exists []. rewrite app_nil_r. split; reflexivity. Qed.

Lemma appends_rows_bind {A B : Type} n k (m : M A) (f : A -> M B) :
  appends_rows n m -> (forall a, appends_rows k (f a)) ->
  appends_rows (n + k) (m ≫= f).
Proof.
  intros Hm Hf w. unfold mbind, St_bind.
  destruct (Hm w) as (rows1 & H1 & Hn).
  destruct (m w) as [w1 [a|e]]; cbn [fst snd] in *.
  - destruct (Hf a w1) as (rows2 & H2 & Hk).
    exists (rows1 ++ rows2)%list. rewrite H2, H1, app_assoc.
    split; [reflexivity|]. rewrite length_app.
    destruct (f a w1).2; lia.
  - exists rows1. split; [exact H1 | lia].
Qed.

Lemma appends_rows_after {A B : Type} n (m : M A) (f : A -> M B) :
  quiet m -> (0 < n)%nat -> (forall a, appends_rows n (f a)) ->
  appends_rows n (m ≫= f).
Proof.
  intros Hm Hn Hf w. unfold mbind, St_bind.
  pose proof (Hm w) as H1.
  destruct (m w) as [w1 [a|e]]; cbn [fst snd] in *.
  - destruct (Hf a w1) as (rows & H2 & Hk). exists rows.
    now rewrite <- H1.
  - exists []. rewrite app_nil_r. split; [exact H1 | simpl; lia].
Qed.

Lemma appends_rows_for_each {A : Type} k (xs : list A) (body : A -> M unit) :
  (forall a, appends_rows k (body a)) ->
  appends_rows (length xs * k) (for_each xs body).
Proof.
  intros Hbody. induction xs as [|a xs IH].
  - apply (appends_rows_ret tt).
  - cbn [for_each length Nat.mul]. now apply appends_rows_bind.
Qed.

Lemma keeps_file_bind {A B : Type} path (m : M A) (f : A -> M B) :
  keeps_file path m -> (forall a, keeps_file path (f a)) ->
  keeps_file path (m ≫= f).
Proof.
  intros Hm Hf w. unfold mbind, St_bind. pose proof (Hm w) as H1.
  destruct (m w) as [w1 [a|e]]; cbn [fst snd] in *; [|exact H1].
  now rewrite Hf.
Qed.

Lemma keeps_file_for_zip_strict {A B : Type} path (xs : list A) (ys : list B)
    (body : A -> B -> M unit) :
  (forall a b, keeps_file path (body a b)) ->
  keeps_file path (for_zip_strict xs ys body).
Proof.
  intros Hbody. revert ys.
  induction xs as [|a xs IH]; intros [|b ys]; try (intros w; reflexivity).
  cbn [for_zip_strict]. apply keeps_file_bind; [apply Hbody|].
  intros _. apply IH.
Qed.

Lemma removesuffix_length (suf s : string) :
  (String.length s <= String.length (removesuffix suf s) + String.length suf)%nat.
Proof.
  induction s as [|c r IH]; [simpl; lia|].
  cbn [removesuffix]. destruct (String.eqb_spec (String c r) suf) as [<-|_].
  - simpl. lia.
  - simpl in *. lia.
Qed.

(** The file [solve] writes is never the instance it reads. *)
Lemma output_path_not_input inp solution args :
  output_path inp solution args <> inp.
Proof.
  intros H. apply (f_equal String.length) in H. unfold output_path in H.
  rewrite !length_append in H.
  pose proof (removesuffix_length ".in" inp) as Hlen. simpl in H, Hlen. lia.
Qed.

Section Facts.
Variable Zexp : Z.
Variable exec : list Invocation -> Invocation -> Outcome.
Variable float_of_str : string -> option PrimFloat.float.
Variable format_4f : PrimFloat.float -> string.
Variable decode : string -> option string.
Variable locale_decode : string -> option string.
Variable csv_reader : string -> option (list (list string)).
Variable libm_pow : PrimFloat.float -> PrimFloat.float -> PrimFloat.float.

Lemma solve_keeps inp solution args path :
  path <> output_path inp solution args ->
  keeps_file path (solve exec inp solution args).
Proof.
  intros Hp w. unfold solve, read_file, Popen, write_file, py_assert.
  unfold mbind, St_bind, mret, St_ret, raise.
  destruct (fs w !! inp) as [input|]; [|reflexivity].
  cbv zeta. destruct (returncode _ =? 0); cbn [fst fs put_file add_call];
    now rewrite lookup_insert_ne.
Qed.

Lemma judge_keeps j inp out path :
  keeps_file path (judge exec float_of_str decode j inp out).
Proof.
  intros w. destruct (judge _ _ _ _ _ _ w) as [w' r] eqn:H.
  apply judge_frame in H as (Hfs & _). cbn [fst]. now rewrite Hfs.
Qed.

Lemma read_file_keeps p path : keeps_file path (read_file p).
Proof. intros w. unfold read_file. now destruct (fs w !! p). Qed.

Lemma read_text_keeps p path : keeps_file path (read_text locale_decode p).
Proof. intros w. now rewrite read_text_run. Qed.

Lemma test_keeps target inp path :
  (forall solution args, path <> output_path inp solution args) ->
  keeps_file path (test Zexp exec float_of_str format_4f decode
     locale_decode target inp).
Proof.
  intros Hp. destruct target; cbn [test];
    apply keeps_file_for_zip_strict; intros solution args.
  - unfold facility_location_run.
    apply keeps_file_bind; [now apply solve_keeps|]. intros [out t].
    apply keeps_file_bind; [apply judge_keeps|]. intros score w. reflexivity.
  - unfold clustering_run.
    apply keeps_file_bind; [now apply solve_keeps|]. intros [out t].
    apply keeps_file_bind; [apply read_text_keeps|]. intros text.
    apply keeps_file_bind; [apply judge_keeps|]. intros score w. reflexivity.
Qed.

(** X11: the file [solve] writes is never the instance it reads, for
    any instance path, solver and arguments, and the tests of an
    instance leave the instance file as they found it. *)
Theorem test_keeps_instance target inp w :
  fs (test Zexp exec float_of_str format_4f decode
     locale_decode target inp w).1 !! inp
  = fs w !! inp
  /\ forall solution args, output_path inp solution args <> inp.
Proof.
  split; [|intros solution args; apply output_path_not_input].
  apply test_keeps. intros solution args H.
  now apply (output_path_not_input inp solution args).
Qed.

Lemma facility_location_run_rows inp solution args :
  writes_rows [row_key inp (solution, args)]
    (facility_location_run Zexp exec float_of_str format_4f decode
       inp solution args).
Proof.
  intros w.
  destruct (facility_location_run _ _ _ _ _ _ _ _ w) as [w' [[]|e]] eqn:H.
  - apply facility_location_run_ok in H as (result & t & H).
    eexists [_]. split; [exact H | reflexivity].
  - apply facility_location_run_raise in H. exists [].
    rewrite app_nil_r. split; [exact H|]. eexists [_]. split; [|reflexivity].
    discriminate.
Qed.

Lemma clustering_run_rows inp solution args :
  writes_rows [row_key inp (solution, args)]
    (clustering_run Zexp exec float_of_str format_4f decode locale_decode
       inp solution args).
Proof.
  intros w.
  destruct (clustering_run _ _ _ _ _ _ _ _ _ w) as [w' [[]|e]] eqn:H.
  - apply clustering_run_ok
      in H as (content & text & result & t & _ & _ & H).
    eexists [_]. split; [exact H | reflexivity].
  - apply clustering_run_raise in H. exists [].
    rewrite app_nil_r. split; [exact H|]. eexists [_]. split; [|reflexivity].
    discriminate.
Qed.

Lemma test_rows target inp :
  writes_rows (map (row_key inp) (variants Zexp target))
    (test Zexp exec float_of_str format_4f decode locale_decode target inp).
Proof.
  destruct target; cbn [test variants].
  - apply writes_rows_for_zip_strict; [reflexivity|].
    apply facility_location_run_rows.
  - apply writes_rows_for_zip_strict;
      [|apply clustering_run_rows].
    unfold CLUSTERING_SOLUTIONS, CLUSTERING_SOLUTION_ARGS.
    destruct (Zexp =? 1); reflexivity.
Qed.

(** X12: the tests of one instance only add rows to the results; when
    they return, the rows are those of the configured variants of the
    target, one each and in their order, each starting with the base
    name of the instance, the solver and the joined arguments; when a
    variant raises, the rows of the variants before it stay, and no row
    of it or of a later variant is written. *)
Theorem test_rows_in_order target inp w :
  let run := test Zexp exec float_of_str format_4f decode
     locale_decode target inp w in
  let keys := map (row_key inp) (variants Zexp target) in
  exists rows,
    results run.1 = (results w ++ rows)%list
    /\ match run.2 with
       | Ok _ => map (take 3) rows = keys
       | Raise _ =>
           (length rows < length keys)%nat
           /\ map (take 3) rows = take (length rows) keys
       end.
Proof.
  cbv zeta. destruct (test_rows target inp w) as (rows & Hrows & Hk).
  exists rows. split; [exact Hrows|].
  destruct (test _ _ _ _ _ _ _ _ w).2; [exact Hk|].
  destruct Hk as (rest & Hrest & ->).
  rewrite length_app, length_map. split.
  - destruct rest; [congruence | simpl; lia].
  - rewrite take_app_length'; [reflexivity | now rewrite length_map].
Qed.

Lemma variants_length target :
  length (variants Zexp target)
  = match target with
    | fl => 3%nat
    | cl => if Zexp =? 1 then 4%nat else 3%nat
    end.
Proof.
  destruct target; [reflexivity|]. unfold variants, CLUSTERING_SOLUTIONS,
    CLUSTERING_SOLUTION_ARGS. destruct (Zexp =? 1); reflexivity.
Qed.

Lemma test_appends target inp :
  appends_rows (length (variants Zexp target))
    (test Zexp exec float_of_str format_4f decode locale_decode target inp).
Proof.
  pose proof (writes_appends _ _ (test_rows target inp)) as H.
  now rewrite length_map in H.
Qed.

Lemma gen_quiet size dimension k : quiet (gen Zexp exec size dimension k).
Proof. intros w. rewrite gen_run. reflexivity. Qed.

Lemma sweep_input_quiet target size dimension :
  quiet (sweep_input Zexp exec libm_pow target size dimension).
Proof.
  destruct target; cbn [sweep_input]; [apply gen_quiet|].
  intros w. unfold int_pow_half, mbind, St_bind.
  destruct (PyFloat.trunc _) as [k|]; [apply gen_quiet|].
  now destruct (PrimFloat.is_nan _).
Qed.

Lemma gen_iris_quiet : quiet gen_iris.
Proof.
  intros w. unfold gen_iris, read_file, write_file, mbind, St_bind.
  now destruct (fs w !! _).
Qed.

Lemma gen_imdb_quiet : quiet (gen_imdb csv_reader).
Proof.
  intros w. unfold gen_imdb, read_file, write_file, lift, of_option,
    mbind, St_bind.
  destruct (fs w !! _) as [text|]; [|reflexivity].
  destruct (csv_reader text) as [[|title [|first words]]|]; reflexivity.
Qed.

(** X13: a whole run only adds rows to the results: when it returns,
    one for each instance and variant (81 for facility location; for
    clustering 116 with exponent 1 and 87 otherwise), and fewer when it
    raises. *)
Theorem main_row_count target :
  appends_rows (instances target * length (variants Zexp target))
    (main Zexp exec float_of_str format_4f decode
       locale_decode csv_reader libm_pow target)
  /\ (instances target * length (variants Zexp target))%nat
     = match target with
       | fl => 81%nat
       | cl => if Zexp =? 1 then 116%nat else 87%nat
       end.
Proof.
  split; [|rewrite variants_length; destruct target;
           [reflexivity | destruct (Zexp =? 1); reflexivity]].
  pose proof (variants_length target) as Hv.
  assert (0 < length (variants Zexp target))%nat as Hpos.
  { rewrite Hv. destruct target; [lia | destruct (Zexp =? 1); lia]. }
  set (v := length (variants Zexp target)) in *.
  assert (appends_rows (length SIZES * (length DIMENSIONS * v))
            (for_each SIZES (fun size =>
               for_each DIMENSIONS (fun dimension =>
                 sweep_input Zexp exec libm_pow target size dimension
                 ≫= test Zexp exec float_of_str format_4f decode
                    locale_decode target))))
    as Hsweep.
  { apply appends_rows_for_each. intros size.
    apply appends_rows_for_each. intros dimension.
    apply appends_rows_after; [apply sweep_input_quiet | exact Hpos|].
    intros inp. apply test_appends. }
  unfold main, instances. destruct target.
  - replace ((length SIZES * length DIMENSIONS + 0) * v)%nat
      with (0 + (length SIZES * (length DIMENSIONS * v) + 0))%nat by lia.
    apply appends_rows_bind; [apply (appends_rows_ret tt)|]. intros _.
    apply appends_rows_bind; [exact Hsweep|]. intros _.
    apply (appends_rows_ret tt).
  - replace ((length SIZES * length DIMENSIONS + 2) * v)%nat
      with (v + (length SIZES * (length DIMENSIONS * v) + v))%nat by lia.
    apply appends_rows_bind.
    { apply appends_rows_after; [apply gen_iris_quiet | exact Hpos|].
      intros inp. apply test_appends. }
    intros _. apply appends_rows_bind; [exact Hsweep|]. intros _.
    apply appends_rows_after; [apply gen_imdb_quiet | exact Hpos|].
    intros inp. apply test_appends.
Qed.

Lemma put_file_twice path content w :
  put_file path content (put_file path content w) = put_file path content w.
Proof. unfold put_file. cbn [fs environ calls results]. now rewrite insert_insert_eq. Qed.

(** X14: the two dataset transforms can be run again: a second run
    leaves the files as the first left them and has the same outcome,
    and neither transform changes its source file. *)
Theorem dataset_transforms_idempotent w :
  gen_iris (gen_iris w).1 = gen_iris w
  /\ gen_imdb csv_reader (gen_imdb csv_reader w).1 = gen_imdb csv_reader w
  /\ fs (gen_iris w).1 !! "iris/iris.data" = fs w !! "iris/iris.data"
  /\ fs (gen_imdb csv_reader w).1 !! "maas_imdb/maas_imdb.csv"
     = fs w !! "maas_imdb/maas_imdb.csv".
Proof.
  assert (forall (w0 : World) content,
            fs (put_file "data/iris/iris.in" content w0) !! "iris/iris.data"
            = fs w0 !! "iris/iris.data") as Hiris.
  { intros w0 content. cbn [fs put_file]. now apply lookup_insert_ne. }
  assert (forall (w0 : World) content,
            fs (put_file "data/maas_imdb/maas_imdb.in" content w0)
              !! "maas_imdb/maas_imdb.csv"
            = fs w0 !! "maas_imdb/maas_imdb.csv") as Himdb.
  { intros w0 content. cbn [fs put_file]. now apply lookup_insert_ne. }
  split; [|split; [|split]].
  - unfold gen_iris, read_file, write_file, mbind, St_bind, mret, St_ret.
    change (path_join "iris" ["iris.data"]) with "iris/iris.data".
    change (path_join DATA_DIR ["iris"; "iris.in"]) with "data/iris/iris.in".
    destruct (fs w !! "iris/iris.data") as [text|] eqn:Hsrc;
      cbn [fst]; [|now rewrite Hsrc].
    rewrite Hiris, Hsrc. now rewrite put_file_twice.
  - unfold gen_imdb, read_file, write_file, lift, of_option, mbind, St_bind,
      mret, St_ret, raise.
    change (path_join "maas_imdb" ["maas_imdb.csv"])
      with "maas_imdb/maas_imdb.csv".
    change (path_join DATA_DIR ["maas_imdb"; "maas_imdb.in"])
      with "data/maas_imdb/maas_imdb.in".
    destruct (fs w !! "maas_imdb/maas_imdb.csv") as [text|] eqn:Hsrc;
      cbn [fst]; [|now rewrite Hsrc].
    destruct (csv_reader text) as [[|title [|first words]]|] eqn:Hcsv;
      cbn [fst List.tl]; rewrite ?Himdb, Hsrc, ?Hcsv; cbn [List.tl];
      rewrite ?put_file_twice; reflexivity.
  - unfold gen_iris, read_file, write_file, mbind, St_bind, mret, St_ret.
    change (path_join "iris" ["iris.data"]) with "iris/iris.data".
    change (path_join DATA_DIR ["iris"; "iris.in"]) with "data/iris/iris.in".
    destruct (fs w !! "iris/iris.data") as [text|] eqn:Hsrc;
      cbn [fst]; [|exact Hsrc]. now rewrite Hiris.
  - unfold gen_imdb, read_file, write_file, lift, of_option, mbind, St_bind,
      mret, St_ret, raise.
    change (path_join "maas_imdb" ["maas_imdb.csv"])
      with "maas_imdb/maas_imdb.csv".
    change (path_join DATA_DIR ["maas_imdb"; "maas_imdb.in"])
      with "data/maas_imdb/maas_imdb.in".
    destruct (fs w !! "maas_imdb/maas_imdb.csv") as [text|] eqn:Hsrc;
      cbn [fst]; [|exact Hsrc].
    destruct (csv_reader text) as [[|title [|first words]]|] eqn:Hcsv;
      cbn [fst List.tl]; rewrite ?Himdb; exact Hsrc.
Qed.

End Facts.

End RunFacts.

(** ** File names and colours *)

Module FileNameFacts.
Import Py Graphs Preds DecimalFacts LineFacts GraphsRest MorePreds.

Lemma lower_char_lower (c : ascii) : upper_case (lower_char c) = false.
Proof. destruct c as [[] [] [] [] [] [] [] []]; reflexivity. Qed.

Lemma lower_all (s : string) :
  all_chars (fun c => negb (upper_case c)) (lower s) = true.
Proof.
  induction s as [|c r IH]; [reflexivity|].
  cbn [lower all_chars]. now rewrite lower_char_lower, IH.
Qed.

Lemma replace_from_all (p : ascii -> bool) (old new : string) k (s : string) :
  all_chars p new = true -> all_chars p s = true ->
  all_chars p (replace_from old new k s) = true.
Proof.
  intros Hnew. revert k. induction s as [|c r IH]; intros k; [reflexivity|].
  cbn [all_chars replace_from]. rewrite andb_true_iff. intros [Hc Hr].
  destruct k as [|k]; [|now apply IH].
  destruct (String.prefix old (String c r)).
  - rewrite all_chars_app, Hnew. now apply IH.
  - cbn [all_chars]. rewrite Hc. now apply IH.
Qed.

Lemma translate_all (s : string) :
  all_chars (fun c => negb (upper_case c)) s = true ->
  all_chars (fun c => negb (kept_out c)) (translate s) = true.
Proof.
  induction s as [|c r IH]; [reflexivity|].
  cbn [all_chars translate]. rewrite andb_true_iff. intros [Hc Hr].
  destruct (REPLACE_get REPLACE c) as [v|] eqn:Hget.
  - rewrite all_chars_app, (IH Hr), andb_true_r.
    unfold REPLACE in Hget. cbn [REPLACE_get] in Hget.
    repeat (destruct (Ascii.eqb c _);
            [injection Hget as <-; reflexivity|]).
    discriminate Hget.
  - cbn [all_chars]. rewrite (IH Hr), andb_true_r.
    unfold kept_out. now rewrite Hget.
Qed.

(** X15: for every title and metric name, the file name of a figure
    holds no key of [REPLACE] (space, parentheses, comma, equals sign)
    and no upper-case letter, and it ends in .svg. *)
Theorem figname_charset (title val_name : string) :
  all_chars (fun c => negb (kept_out c)) (figname title val_name) = true
  /\ endswith ".svg" (figname title val_name) = true.
Proof.
  unfold figname. split.
  - rewrite all_chars_app. rewrite translate_all; [reflexivity|].
    apply replace_from_all; [reflexivity | apply lower_all].
  - generalize (translate (replace " [s]" ""
                  (lower (replace "(" (val_name ++ " ") title)))).
    intros s. induction s as [|c r IH]; [reflexivity|].
    change (String c r ++ ".svg") with (String c (r ++ ".svg")).
    cbn [endswith]. rewrite IH. apply orb_true_r.
Qed.

(** X16: on an argument list of no or of two tokens whose row the
    renderer gives a display name, [get_color] returns the first letter
    of the colour [SOLUTION_COLORS] has for that name. *)
Theorem get_color_agrees (solution : string) (args : list string)
    (label : string) :
  (length args = 0 \/ length args = 2)%nat ->
  classify solution args = Ok label ->
  exists colour,
    SOLUTION_COLORS !! label = Some colour
    /\ get_color args = Some (initial colour).
Proof.
  intros Hlen. unfold classify, get_color.
  destruct args as [|a0 [|a1 [|a2 rest]]];
    try (exfalso; simpl in Hlen; lia); cbn [length Nat.eqb].
  - destruct (startswith "mettu_plaxton" solution).
    { intros [= <-]. exists "red". split; reflexivity. }
    destruct (startswith "scikit" solution); [|discriminate].
    destruct (String.eqb solution "scikit_z1"); [discriminate|].
    intros [= <-]. exists "red". split; reflexivity.
  - destruct (String.eqb a0 "grid_hashing").
    { intros [= <-]. exists "blue". split; reflexivity. }
    destruct (String.eqb a0 "face_hashing"); [|discriminate].
    intros [= <-]. exists "green". split; reflexivity.
Qed.

(** The grid hashing variant: blue. *)
Lemma get_color_agrees_witness :
  exists colour,
    SOLUTION_COLORS !! "Grid hashing" = Some colour
    /\ get_color ["grid_hashing"; "60042651f648e052"]
       = Some (initial colour).
Proof.
  apply (get_color_agrees "facility_set_z1"
           ["grid_hashing"; "60042651f648e052"] "Grid hashing");
    [right; reflexivity | reflexivity].
Defined.

End FileNameFacts.
